(** * Multi-head attention (transformer notebook): a shallow embedding

    The notebook defines two [nn.Module] classes,
    [PrepareForMultiHeadAttention] and [MultiHeadAttention].  This file
    embeds both classes together with the PyTorch operations they call
    ([nn.Linear], [Tensor.view], [Tensor.reshape], [torch.einsum],
    [Tensor.masked_fill], [nn.Softmax], [nn.Dropout]).  A second
    notebook, [transformer.ipynb], holds a copy of the first class
    under other names; it is embedded as well.

    Conventions.
    - A tensor is a shape (list of dimension sizes) with its elements in
      row-major order, the layout of a contiguous PyTorch tensor.
    - A Python / PyTorch floating-point number is a [scalar]: a real
      number or one of the special values [+inf], [-inf], [NaN].
      Sums, differences and products of tensor elements, which are
      [float32], are the exact real results, except that a result
      beyond the largest finite [float32] is an infinity (rounding,
      underflow and signed zeros are not modelled); arithmetic on the
      special values follows IEEE 754.  The exponential and the
      quotient are exact: on tensor elements the code applies them in
      softmax, to a difference that is at most 0 and to a numerator
      that does not exceed its denominator, and in dropout to
      [1 / (1 - p)] for a Python float [p].
    - Python [int]s are [Z]; dimension sizes of existing tensors are [nat].
    - A raised exception is a value [Err e]; code that mutates the module
      ([self.attn]), the labml tracker or the random generator runs in a
      state-and-error monad whose state survives an exception, as the
      Python heap does. *)

From Stdlib Require Import String Ascii.
From Stdlib Require Import List ZArith Lia Bool.
From Stdlib Require Import Reals Lra.
Import ListNotations.

Set Implicit Arguments.

(* ================================================================== *)
(** * Exceptions and results *)

Inductive exn : Type :=
| AssertionError
| RuntimeError
| ValueError
| IndexError
| ZeroDivisionError.

Inductive res (A : Type) : Type :=
| Ok (a : A)
| Err (e : exn).

Arguments Ok {A} a.
Arguments Err {A} e.

Definition is_Ok {A} (r : res A) : bool :=
  match r with Ok _ => true | Err _ => false end.

Definition res_bind {A B} (r : res A) (f : A -> res B) : res B :=
  match r with Ok a => f a | Err e => Err e end.

(* ================================================================== *)
(** * The state-and-error monad *)

Definition M (S A : Type) : Type := S -> res A * S.

Definition ret {S A} (a : A) : M S A := fun s => (Ok a, s).

Definition bind {S A B} (m : M S A) (f : A -> M S B) : M S B :=
  fun s => match m s with
           | (Ok a, s') => f a s'
           | (Err e, s') => (Err e, s')
           end.

Definition raise {S A} (e : exn) : M S A := fun s => (Err e, s).

(** A pure, possibly failing computation run inside the monad. *)
Definition lift {S A} (r : res A) : M S A := fun s => (r, s).

Definition get_state {S} : M S S := fun s => (Ok s, s).

Definition modify {S} (f : S -> S) : M S unit := fun s => (Ok tt, f s).

Declare Scope monad_scope.
Delimit Scope monad_scope with monad.
Notation "x <- c1 ;; c2" := (bind c1 (fun x => c2))
  (at level 61, c1 at next level, right associativity) : monad_scope.
Notation "c1 ;;; c2" := (bind c1 (fun _ => c2))
  (at level 61, right associativity) : monad_scope.

(* ================================================================== *)
(** * Scalars: reals with the IEEE special values *)

Inductive scalar : Type :=
| Finite (r : R)
| PInf
| NInf
| NaN.

Definition is_finite (x : scalar) : bool :=
  match x with Finite _ => true | _ => false end.

Definition Rltb (a b : R) : bool := if Rlt_dec a b then true else false.
Definition Rleb (a b : R) : bool := if Rle_dec a b then true else false.
Definition Reqb (a b : R) : bool := if Req_dec_T a b then true else false.

(** The largest finite [float32], the element type of the tensors. *)
Definition max_float : R := (2 - / 2 ^ 23) * 2 ^ 127.

(** The result of an operation on tensor elements whose exact value is
    [r]: an infinity when [r] lies beyond the largest finite number. *)
Definition overflow (r : R) : scalar :=
  if Rltb max_float r then PInf
  else if Rltb r (- max_float) then NInf
  else Finite r.

Definition scalar_neg (x : scalar) : scalar :=
  match x with
  | Finite r => Finite (- r)
  | PInf => NInf
  | NInf => PInf
  | NaN => NaN
  end.

Definition scalar_add (x y : scalar) : scalar :=
  match x, y with
  | NaN, _ | _, NaN => NaN
  | PInf, NInf | NInf, PInf => NaN
  | PInf, _ | _, PInf => PInf
  | NInf, _ | _, NInf => NInf
  | Finite a, Finite b => overflow (a + b)
  end.

Definition scalar_sub (x y : scalar) : scalar := scalar_add x (scalar_neg y).

(** The product of an infinity with a finite number takes the sign of the
    product and is [NaN] when the finite factor is zero. *)
Definition inf_times (pos : bool) (r : R) : scalar :=
  if Reqb r 0 then NaN
  else if xorb pos (Rltb 0 r) then NInf else PInf.

Definition scalar_mul (x y : scalar) : scalar :=
  match x, y with
  | NaN, _ | _, NaN => NaN
  | Finite a, Finite b => overflow (a * b)
  | PInf, Finite r | Finite r, PInf => inf_times true r
  | NInf, Finite r | Finite r, NInf => inf_times false r
  | PInf, PInf | NInf, NInf => PInf
  | PInf, NInf | NInf, PInf => NaN
  end.

Definition scalar_div (x y : scalar) : scalar :=
  match x, y with
  | NaN, _ | _, NaN => NaN
  | Finite a, Finite b =>
      if Reqb b 0
      then (if Reqb a 0 then NaN else if Rltb 0 a then PInf else NInf)
      else Finite (a / b)
  | Finite _, (PInf | NInf) => Finite 0
  | PInf, Finite r => if Rltb r 0 then NInf else PInf
  | NInf, Finite r => if Rltb r 0 then PInf else NInf
  | (PInf | NInf), (PInf | NInf) => NaN
  end.

Definition scalar_exp (x : scalar) : scalar :=
  match x with
  | Finite r => Finite (exp r)
  | PInf => PInf
  | NInf => Finite 0
  | NaN => NaN
  end.

(** The maximum used by the reductions of PyTorch propagates [NaN]. *)
Definition scalar_max (x y : scalar) : scalar :=
  match x, y with
  | NaN, _ | _, NaN => NaN
  | PInf, _ | _, PInf => PInf
  | NInf, z | z, NInf => z
  | Finite a, Finite b => Finite (Rmax a b)
  end.

(** Python's [x < y] on floats: false as soon as one side is [NaN]. *)
Definition scalar_ltb (x y : scalar) : bool :=
  match x, y with
  | NaN, _ | _, NaN => false
  | Finite a, Finite b => Rltb a b
  | NInf, (Finite _ | PInf) => true
  | Finite _, PInf => true
  | _, _ => false
  end.

(** Python's and C's [x <= y] on floats: false as soon as one side is
    [NaN]. *)
Definition scalar_leb (x y : scalar) : bool :=
  match x, y with
  | NaN, _ | _, NaN => false
  | Finite a, Finite b => Rleb a b
  | NInf, _ | _, PInf => true
  | _, _ => false
  end.

Definition scalar_eqb (x y : scalar) : bool :=
  match x, y with
  | Finite a, Finite b => Reqb a b
  | PInf, PInf | NInf, NInf => true
  | _, _ => false
  end.

Definition scalar_sum (l : list scalar) : scalar :=
  fold_right scalar_add (Finite 0) l.

(* ================================================================== *)
(** * Tensors *)

Record Tensor (A : Type) : Type := mkTensor {
  shape : list nat;
  data : list A
}.

Arguments mkTensor {A} shape data.

Definition prod_list (l : list nat) : nat := fold_right Nat.mul 1 l.

Definition numel {A} (t : Tensor A) : nat := prod_list (shape t).

Definition ndim {A} (t : Tensor A) : nat := length (shape t).

(** A tensor is well formed when it stores one element per position. *)
Definition wf {A} (t : Tensor A) : Prop := length (data t) = numel t.

(** Row-major offset of a multi-index. *)
Fixpoint ravel (sh idx : list nat) : nat :=
  match sh, idx with
  | _ :: sh', i :: idx' => i * prod_list sh' + ravel sh' idx'
  | _, _ => 0
  end.

(** All multi-indices of a shape, in row-major order. *)
Fixpoint all_indices (sh : list nat) : list (list nat) :=
  match sh with
  | [] => [[]]
  | d :: sh' =>
      flat_map (fun i => map (cons i) (all_indices sh')) (seq 0 d)
  end.

(** [idx] addresses an element of a tensor of shape [sh]. *)
Definition in_range (sh idx : list nat) : Prop := Forall2 lt idx sh.

Definition get {A} (dflt : A) (t : Tensor A) (idx : list nat) : A :=
  nth (ravel (shape t) idx) (data t) dflt.

(** The elements [f idx] for all positions [idx] of the shape [sh]. *)
Definition table {A} (sh : list nat) (f : list nat -> A) : list A :=
  map f (all_indices sh).

(** The tensor of shape [sh] whose element at [idx] is [f idx]. *)
Definition tabulate {A} (sh : list nat) (f : list nat -> A) : Tensor A :=
  mkTensor sh (table sh f).

(** Element of a tensor of numbers; positions outside the tensor, which
    no operation below reads, give 0. *)
Definition elem (t : Tensor scalar) (idx : list nat) : scalar :=
  get (Finite 0) t idx.

Definition tensor_map {A B} (f : A -> B) (t : Tensor A) : Tensor B :=
  mkTensor (shape t) (map f (data t)).

(* ================================================================== *)
(** * PyTorch operations *)

(** ** [Tensor.view] and [Tensor.reshape]

    Both take the requested sizes, one of which may be [-1] and is then
    inferred from the number of elements.  The elements keep their
    row-major order; only the shape changes. *)

Definition count_infer (dims : list Z) : nat :=
  List.length (filter (fun d => (d =? -1)%Z) dims).

Definition known_size (dims : list Z) : Z :=
  fold_right (fun d acc => if (d =? -1)%Z then acc else (d * acc)%Z) 1%Z dims.

Definition infer_size (dims : list Z) (n : nat) : res (list nat) :=
  if existsb (fun d => (d <? -1)%Z) dims then Err RuntimeError
  else
    let newsize := known_size dims in
    match count_infer dims with
    | 0 =>
        if (Z.of_nat n =? newsize)%Z then Ok (map Z.to_nat dims)
        else Err RuntimeError
    | 1 =>
        if (0 <? newsize)%Z && (Z.of_nat n mod newsize =? 0)%Z
        then Ok (map (fun d => if (d =? -1)%Z
                               then Z.to_nat (Z.of_nat n / newsize)
                               else Z.to_nat d) dims)
        else Err RuntimeError
    | _ => Err RuntimeError
    end.

Definition view {A} (t : Tensor A) (dims : list Z) : res (Tensor A) :=
  res_bind (infer_size dims (numel t)) (fun sh => Ok (mkTensor sh (data t))).

Definition reshape {A} (t : Tensor A) (dims : list Z) : res (Tensor A) :=
  view t dims.

(** ** [Tensor.unsqueeze] *)

Definition unsqueeze {A} (t : Tensor A) (dim : Z) : res (Tensor A) :=
  let nd := Z.of_nat (ndim t) in
  if ((dim <? - (nd + 1)) || (nd <? dim))%Z then Err IndexError
  else
    let d := Z.to_nat (if (dim <? 0)%Z then dim + nd + 1 else dim)%Z in
    Ok (mkTensor (firstn d (shape t) ++ 1 :: skipn d (shape t)) (data t)).

(** ** [torch.nn.functional.linear]

    [y[..., o] = sum_i x[..., i] * W[o, i] (+ b[o])], with [W] of shape
    [(out_features, in_features)]. *)

Definition F_linear (x W : Tensor scalar) (b : option (Tensor scalar))
  : res (Tensor scalar) :=
  match shape W, rev (shape x) with
  | [o; i], k :: _ =>
      if negb (k =? i) then Err RuntimeError
      else
        let dot := fun pre c =>
          scalar_sum (map (fun j => scalar_mul (elem x (pre ++ [j]))
                                               (elem W [c; j]))
                          (seq 0 i)) in
        let out_shape := removelast (shape x) ++ [o] in
        match b with
        | None =>
            Ok (tabulate out_shape
                  (fun idx => dot (removelast idx) (last idx 0)))
        | Some bb =>
            match shape bb with
            | [o'] =>
                if o' =? o
                then Ok (tabulate out_shape
                           (fun idx => scalar_add
                                         (dot (removelast idx) (last idx 0))
                                         (elem bb [last idx 0])))
                else Err RuntimeError
            | _ => Err RuntimeError
            end
        end
  | _, _ => Err RuntimeError
  end.

(** ** Broadcasting *)

(** Shapes are matched from their last axis backwards, so both
    functions below work on reversed shapes. *)
Fixpoint broadcast_rev (a b : list nat) : res (list nat) :=
  match a, b with
  | [], l | l, [] => Ok l
  | x :: a', y :: b' =>
      match broadcast_rev a' b' with
      | Err e => Err e
      | Ok r =>
          if x =? y then Ok (x :: r)
          else if x =? 1 then Ok (y :: r)
          else if y =? 1 then Ok (x :: r)
          else Err RuntimeError
      end
  end.

Fixpoint broadcast_index_rev (sh idx : list nat) : list nat :=
  match sh, idx with
  | d :: sh', i :: idx' =>
      (if d =? 1 then 0 else i) :: broadcast_index_rev sh' idx'
  | _, _ => []
  end.

Definition broadcast_shapes (a b : list nat) : res (list nat) :=
  res_bind (broadcast_rev (rev a) (rev b)) (fun r => Ok (rev r)).

(** The position read in an operand of shape [sh] for the position [idx]
    of the broadcast result: leading axes the operand lacks are dropped
    and an axis of size 1 is always read at 0. *)
Definition broadcast_index (sh idx : list nat) : list nat :=
  rev (broadcast_index_rev (rev sh) (rev idx)).

(** ** [Tensor.masked_fill] (out of place)

    The tensor and the mask are both expanded to their common broadcast
    shape, the result is a fresh tensor of that shape. *)
Definition masked_fill (t : Tensor scalar) (mask : Tensor bool) (v : scalar)
  : res (Tensor scalar) :=
  res_bind (broadcast_shapes (shape t) (shape mask)) (fun sh =>
    Ok (tabulate sh (fun idx =>
          if get false mask (broadcast_index (shape mask) idx) then v
          else elem t (broadcast_index (shape t) idx)))).

(** An element of a mask: the mask may be a tensor of booleans or
    integers ([True] is 1, [False] is 0) or of floats. *)
Inductive number : Type :=
| Int (z : Z)
| Float (x : scalar).

(** [n == 0] *)
Definition is_zero (n : number) : bool :=
  match n with
  | Int z => (z =? 0)%Z
  | Float x => scalar_eqb x (Finite 0)
  end.

(** [mask == 0], elementwise. *)
Definition eq_zero (mask : Tensor number) : Tensor bool :=
  tensor_map is_zero mask.

(** [t * c] for a Python float [c]. *)
Definition mul_scalar (t : Tensor scalar) (c : scalar) : Tensor scalar :=
  tensor_map (fun x => scalar_mul x c) t.

(** ** [nn.Softmax(dim)]

    Along the chosen axis: subtract the maximum, exponentiate, divide by
    the sum. *)
Definition softmax_row (row : list scalar) : list scalar :=
  let m := fold_right scalar_max NInf row in
  let e := map (fun x => scalar_exp (scalar_sub x m)) row in
  let s := scalar_sum e in
  map (fun y => scalar_div y s) e.

Definition set_nth (d k : nat) (idx : list nat) : list nat :=
  firstn d idx ++ k :: skipn (S d) idx.

(** The elements of [x] along axis [d] through position [idx]. *)
Definition fibre (x : Tensor scalar) (d : nat) (idx : list nat)
  : list scalar :=
  map (fun k => elem x (set_nth d k idx)) (seq 0 (nth d (shape x) 0)).

Definition softmax (dim : Z) (x : Tensor scalar) : res (Tensor scalar) :=
  let nd := Z.of_nat (ndim x) in
  match shape x with
  | [] =>
      if ((dim <? -1) || (0 <? dim))%Z then Err IndexError
      else Ok (mkTensor [] (softmax_row (data x)))
  | _ =>
      if ((dim <? - nd) || (nd <=? dim))%Z then Err IndexError
      else
        let d := Z.to_nat (if (dim <? 0)%Z then dim + nd else dim)%Z in
        Ok (tabulate (shape x)
              (fun idx => nth (nth d idx 0) (softmax_row (fibre x d idx)) NaN))
  end.

(** ** [torch.einsum], explicit equation with two operands

    [einsum "ab,cd->ef" x y]: blanks in the equation are ignored; each
    letter names an axis.  A letter repeated inside one operand needs
    equal sizes; the same letter in both operands needs sizes that are
    equal or 1 (an axis of size 1 is broadcast).  Letters absent from
    the output are summed over. *)

Definition no_spaces (s : string) : list ascii :=
  filter (fun c => negb (Ascii.eqb c " ")) (list_ascii_of_string s).

Fixpoint split_arrow (l : list ascii) : option (list ascii * list ascii) :=
  match l with
  | [] => None
  | c :: r =>
      match r with
      | c2 :: r2 =>
          if Ascii.eqb c "-" && Ascii.eqb c2 ">" then Some ([], r2)
          else match split_arrow r with
               | Some (a, b) => Some (c :: a, b)
               | None => None
               end
      | [] => None
      end
  end.

Fixpoint split_comma (l : list ascii) : list (list ascii) :=
  match l with
  | [] => [[]]
  | c :: r =>
      if Ascii.eqb c "," then [] :: split_comma r
      else match split_comma r with
           | h :: t => (c :: h) :: t
           | [] => [[c]]
           end
  end.

Definition parse_equation (equation : string)
  : option (list ascii * list ascii * list ascii) :=
  match split_arrow (no_spaces equation) with
  | Some (lhs, out) =>
      match split_comma lhs with
      | [la; lb] => Some (la, lb, out)
      | _ => None
      end
  | None => None
  end.

Definition sizes : Type := list (ascii * nat).

Fixpoint lookup (c : ascii) (e : sizes) : option nat :=
  match e with
  | [] => None
  | (c', n) :: e' => if Ascii.eqb c c' then Some n else lookup c e'
  end.

Definition size_of (e : sizes) (c : ascii) : nat :=
  match lookup c e with Some n => n | None => 0 end.

Definition update (c : ascii) (n : nat) (e : sizes) : sizes :=
  map (fun cn => if Ascii.eqb c (fst cn) then (c, n) else cn) e.

(** Axis sizes of one operand; fails when the number of letters differs
    from the number of axes or a repeated letter has two sizes. *)
Fixpoint operand_sizes (ls : list ascii) (sh : list nat) (e : sizes)
  : res sizes :=
  match ls, sh with
  | [], [] => Ok e
  | c :: ls', d :: sh' =>
      match lookup c e with
      | Some d' =>
          if d' =? d then operand_sizes ls' sh' e else Err RuntimeError
      | None => operand_sizes ls' sh' (e ++ [(c, d)])
      end
  | _, _ => Err RuntimeError
  end.

(** The common size of two axes that carry the same letter in the two
    operands: equal sizes, or one of them 1. *)
Definition merge_dim (x y : nat) : res nat :=
  if x =? y then Ok x
  else if y =? 1 then Ok x
  else if x =? 1 then Ok y
  else Err RuntimeError.

(** Sizes of the letters over both operands, with broadcasting. *)
Fixpoint merge_sizes (e1 e2 : sizes) : res sizes :=
  match e2 with
  | [] => Ok e1
  | (c, d) :: e2' =>
      match lookup c e1 with
      | None => merge_sizes (e1 ++ [(c, d)]) e2'
      | Some d' =>
          match merge_dim d' d with
          | Ok n => merge_sizes (update c n e1) e2'
          | Err e => Err e
          end
      end
  end.

Fixpoint distinct (l : list ascii) : bool :=
  match l with
  | [] => true
  | c :: r => negb (existsb (Ascii.eqb c) r) && distinct r
  end.

(** Position read in an operand with letters [ls] and shape [sh] when
    the letters take the values [pos]. *)
Definition operand_index (ls : list ascii) (sh : list nat) (pos : sizes)
  : list nat :=
  map (fun cd => if snd cd =? 1 then 0 else size_of pos (fst cd))
      (combine ls sh).

Definition einsum (equation : string) (a b : Tensor scalar)
  : res (Tensor scalar) :=
  match parse_equation equation with
  | None => Err RuntimeError
  | Some (la, lb, lo) =>
      res_bind (operand_sizes la (shape a) []) (fun ea =>
      res_bind (operand_sizes lb (shape b) []) (fun eb =>
      res_bind (merge_sizes ea eb) (fun e =>
        if distinct lo
           && forallb (fun c => existsb (Ascii.eqb c) (map fst e)) lo
        then
          let ls := filter (fun c => negb (existsb (Ascii.eqb c) lo))
                           (map fst e) in
          Ok (tabulate (map (size_of e) lo) (fun oidx =>
                scalar_sum
                  (map (fun sidx =>
                          let pos := combine lo oidx ++ combine ls sidx in
                          scalar_mul
                            (elem a (operand_index la (shape a) pos))
                            (elem b (operand_index lb (shape b) pos)))
                       (all_indices (map (size_of e) ls)))))
        else Err RuntimeError)))
  end.

Definition shape_of {A} (r : res (Tensor A)) : res (list nat) :=
  res_bind r (fun t => Ok (shape t)).

(* ================================================================== *)
(** * The runtime around the modules

    What a call can change besides the module itself: the labml tracker
    (a log of named tensors), the random generator of PyTorch (a stream
    of keep / drop decisions and the position reached in it) and, as an
    observation device, the list of tensor kernels that have run so far,
    a kernel being recorded when it returns. *)

Inductive kernel : Type :=
| KLinear | KView | KUnsqueeze | KEinsum | KMul | KEq
| KMaskedFill | KSoftmax | KDropout | KReshape.

Record Runtime : Type := mkRuntime {
  tracker : list (string * Tensor scalar);
  kernels : list kernel;
  bernoulli : nat -> bool;
  rng_pos : nat
}.

Definition ticked (k : kernel) (w : Runtime) : Runtime :=
  mkRuntime (tracker w) (kernels w ++ [k]) (bernoulli w) (rng_pos w).

Definition tick (k : kernel) : M Runtime unit := modify (ticked k).

(** Run the tensor kernel [k]: its exception, or its result and a record
    that it ran. *)
Definition op {A} (k : kernel) (r : res A) : M Runtime A :=
  (a <- lift r ;; tick k ;;; ret a)%monad.

(** [tracker.add(name, t)] *)
Definition logged (name : string) (t : Tensor scalar) (w : Runtime)
  : Runtime :=
  mkRuntime (tracker w ++ [(name, t)]) (kernels w) (bernoulli w) (rng_pos w).

Definition tracker_add (name : string) (t : Tensor scalar) : M Runtime unit :=
  modify (logged name t).

(** [n] fresh keep / drop decisions. *)
Definition drawn (n : nat) (w : Runtime) : Runtime :=
  mkRuntime (tracker w) (kernels w) (bernoulli w) (rng_pos w + n).

Definition draw (n : nat) : M Runtime (list bool) :=
  fun w => (Ok (map (bernoulli w) (seq (rng_pos w) n)), drawn n w).

(** Python helpers. *)

(** [a // b] on ints *)
Definition floordiv (a b : Z) : res Z :=
  if (b =? 0)%Z then Err ZeroDivisionError else Ok (a / b)%Z.

(** [math.sqrt(n)] for an int [n] *)
Definition math_sqrt (n : Z) : res scalar :=
  if (n <? 0)%Z then Err ValueError else Ok (Finite (sqrt (IZR n))).

(** [a / b] on floats *)
Definition truediv (a b : scalar) : res scalar :=
  if scalar_eqb b (Finite 0) then Err ZeroDivisionError
  else Ok (scalar_div a b).

(** [l[i]] on a shape *)
Definition index (l : list nat) (i : nat) : res nat :=
  match nth_error l i with Some d => Ok d | None => Err IndexError end.

(** [assert b] *)
Definition assert (b : bool) : res unit :=
  if b then Ok tt else Err AssertionError.

(** [a, b, _ = l] *)
Definition unpack3 (l : list nat) : res (nat * nat) :=
  match l with
  | [a; b; _] => Ok (a, b)
  | _ => Err ValueError
  end.

(* ================================================================== *)
(** * [nn.Linear] *)

Module Linear.

Record t : Type := mk {
  in_features : Z;
  out_features : Z;
  weight : Tensor scalar;
  bias : option (Tensor scalar)
}.

(** [nn.Linear(in_features, out_features, bias)].  The initial values
    of the parameters are read from the stream [gen]; the state is the
    position reached in that stream.  Allocating a tensor with a
    negative size raises. *)
Definition init (gen : nat -> scalar) (in_features out_features : Z)
    (bias : bool) : M nat t :=
  fun pos =>
    if ((in_features <? 0) || (out_features <? 0))%Z
    then (Err RuntimeError, pos)
    else
      let o := Z.to_nat out_features in
      let i := Z.to_nat in_features in
      let w := mkTensor [o; i] (map gen (seq pos (o * i))) in
      if bias
      then (Ok (mk in_features out_features w
                   (Some (mkTensor [o] (map gen (seq (pos + o * i) o))))),
            pos + o * i + o)
      else (Ok (mk in_features out_features w None), pos + o * i).

Definition forward (self : t) (x : Tensor scalar)
  : M Runtime (Tensor scalar) :=
  op KLinear (F_linear x (weight self) (bias self)).

End Linear.

(* ================================================================== *)
(** * [nn.Softmax] *)

Module Softmax.

Record t : Type := mk { dim : Z }.

Definition forward (self : t) (x : Tensor scalar)
  : M Runtime (Tensor scalar) :=
  op KSoftmax (softmax (dim self) x).

End Softmax.

(* ================================================================== *)
(** * [nn.Dropout] *)

(** Python's test [p < 0 or p > 1], made by the constructor and again
    by [F.dropout]. *)
Definition bad_probability (p : scalar) : bool :=
  scalar_ltb p (Finite 0) || scalar_ltb (Finite 1) p.

(** The test [p >= 0 && p <= 1] of the dropout kernel, made on every
    call.  Unlike the test above it rejects [NaN]. *)
Definition valid_probability (p : scalar) : bool :=
  scalar_leb (Finite 0) p && scalar_leb p (Finite 1).

Module Dropout.

Record t : Type := mk { p : scalar; training : bool }.

(** [nn.Dropout(p)]: a new module is in training mode. *)
Definition init (p : scalar) : res t :=
  if bad_probability p then Err ValueError else Ok (mk p true).

Definition keep_factor (p : scalar) (keep : bool) : scalar :=
  scalar_div (Finite (if keep then 1 else 0)) (scalar_sub (Finite 1) p).

Fixpoint apply_noise (p : scalar) (xs : list scalar) (noise : list bool)
  : list scalar :=
  match xs, noise with
  | x :: xs', k :: noise' =>
      scalar_mul x (keep_factor p k) :: apply_noise p xs' noise'
  | _, _ => []
  end.

(** [F.dropout(x, p, training)]: [ValueError] from Python for
    [p < 0 or p > 1], [RuntimeError] from the kernel unless
    [p >= 0 && p <= 1]; then the input itself outside training mode,
    for [p = 0] and for an empty tensor; otherwise each element is
    multiplied by [0] or by [1 / (1 - p)]. *)
Definition forward (self : t) (x : Tensor scalar)
  : M Runtime (Tensor scalar) :=
  if bad_probability (p self) then raise ValueError
  else if negb (valid_probability (p self)) then raise RuntimeError
  else if scalar_eqb (p self) (Finite 0) || negb (training self)
          || (numel x =? 0)
  then op KDropout (Ok x)
  else if scalar_eqb (p self) (Finite 1)
  then op KDropout (Ok (mul_scalar x (Finite 0)))
  else (noise <- draw (numel x) ;;
        op KDropout
          (Ok (mkTensor (shape x)
                 (apply_noise (p self) (data x) noise))))%monad.

End Dropout.

(* ================================================================== *)
(** * [PrepareForMultiHeadAttention] *)

Module PrepareForMultiHeadAttention.

Record t : Type := mk {
  linear : Linear.t;
  n_heads : Z;
  d_heads : Z
}.

(** [__init__(self, d_model, n_heads, d_heads, bias)] *)
Definition init (gen : nat -> scalar) (d_model n_heads d_heads : Z)
    (bias : bool) : M nat t :=
  (linear <- Linear.init gen d_model (n_heads * d_heads)%Z bias ;;
   ret (mk linear n_heads d_heads))%monad.

(** [forward(self, x)] *)
Definition forward (self : t) (x : Tensor scalar)
  : M Runtime (Tensor scalar) :=
  (let head_shape := removelast (shape x) in
   x <- Linear.forward (linear self) x ;;
   x <- op KView (view x (map Z.of_nat head_shape
                            ++ [n_heads self; d_heads self])) ;;
   ret x)%monad.

End PrepareForMultiHeadAttention.

(* ================================================================== *)
(** * [MultiHeadAttention] *)

Module MultiHeadAttention.

Record t : Type := mk {
  n_features : Z;
  n_heads : Z;
  query : PrepareForMultiHeadAttention.t;
  key : PrepareForMultiHeadAttention.t;
  value : PrepareForMultiHeadAttention.t;
  softmax : Softmax.t;
  output : Linear.t;
  dropout : Dropout.t;
  scale : scalar;
  attn : option (Tensor scalar)
}.

(** [__init__(self, n_heads, d_model, dropout_prob, bias)] *)
Definition init (gen : nat -> scalar) (n_heads d_model : Z)
    (dropout_prob : scalar) (bias : bool) : M nat t :=
  (n_features <- lift (floordiv d_model n_heads) ;;
   query <- PrepareForMultiHeadAttention.init
              gen d_model n_heads n_features bias ;;
   key <- PrepareForMultiHeadAttention.init
            gen d_model n_heads n_features bias ;;
   value <- PrepareForMultiHeadAttention.init
              gen d_model n_heads n_features true ;;
   let softmax := Softmax.mk (-1) in
   output <- Linear.init gen d_model d_model true ;;
   dropout <- lift (Dropout.init dropout_prob) ;;
   root <- lift (math_sqrt n_features) ;;
   scale <- lift (truediv (Finite 1) root) ;;
   ret (mk n_features n_heads query key value softmax output dropout
           scale None))%monad.

(** The module object together with everything else a call can touch. *)
Record Heap : Type := mkHeap {
  self : t;
  runtime : Runtime
}.

(** A computation that does not touch the module. *)
Definition rt {A} (c : M Runtime A) : M Heap A :=
  fun h => let (r, w) := c (runtime h) in (r, mkHeap (self h) w).

Definition get_self : M Heap t := fun h => (Ok (self h), h).

(** The module [m] after [m.attn = a]. *)
Definition with_attn (m : t) (a : Tensor scalar) : t :=
  mk (n_features m) (n_heads m) (query m) (key m) (value m)
     (softmax m) (output m) (dropout m) (scale m) (Some a).

(** [self.attn = a] *)
Definition set_attn (a : Tensor scalar) : M Heap unit :=
  modify (fun h => mkHeap (with_attn (self h) a) (runtime h)).

(** [get_scores(self, query, key)] *)
Definition get_scores (query key : Tensor scalar)
  : M Runtime (Tensor scalar) :=
  op KEinsum (einsum "ibhd,jbhd->ibhj" query key).

(** [prepare_mask(self, mask, query_shape, key_shape)] *)
Definition prepare_mask (mask : Tensor number)
    (query_shape key_shape : list nat) : M Runtime (Tensor number) :=
  (m0 <- lift (index (shape mask) 0) ;;
   ok0 <- (if m0 =? 1 then ret true
           else q0 <- lift (index query_shape 0) ;; ret (m0 =? q0)) ;;
   lift (assert ok0) ;;;
   m1 <- lift (index (shape mask) 1) ;;
   k0 <- lift (index key_shape 0) ;;
   lift (assert (m1 =? k0)) ;;;
   m2 <- lift (index (shape mask) 2) ;;
   ok2 <- (if m2 =? 1 then ret true
           else q1 <- lift (index query_shape 1) ;; ret (m2 =? q1)) ;;
   lift (assert ok2) ;;;
   mask <- op KUnsqueeze (unsqueeze mask (-1)) ;;
   ret mask)%monad.

(** [forward], from its first line to the masking of the scores.
    Returns [seq_len], [batch_size], the projected value and the
    (masked) scores. *)
Definition forward_scores (query key value : Tensor scalar)
    (mask : option (Tensor number))
  : M Heap (nat * nat * Tensor scalar * Tensor scalar) :=
  (this <- get_self ;;
   sb <- lift (unpack3 (shape query)) ;;
   let seq_len := fst sb in
   let batch_size := snd sb in
   mask <- match mask with
           | Some mk0 =>
               mk1 <- rt (prepare_mask mk0 (shape query) (shape key)) ;;
               ret (Some mk1)
           | None => ret None
           end ;;
   query <- rt (PrepareForMultiHeadAttention.forward
                  (MultiHeadAttention.query this) query) ;;
   key <- rt (PrepareForMultiHeadAttention.forward
                (MultiHeadAttention.key this) key) ;;
   value <- rt (PrepareForMultiHeadAttention.forward
                  (MultiHeadAttention.value this) value) ;;
   raw <- rt (get_scores query key) ;;
   scores <- rt (op KMul (Ok (mul_scalar raw (scale this)))) ;;
   scores <- match mask with
             | Some mk1 =>
                 is0 <- rt (op KEq (Ok (eq_zero mk1))) ;;
                 rt (op KMaskedFill (masked_fill scores is0 NInf))
             | None => ret scores
             end ;;
   ret (seq_len, batch_size, value, scores))%monad.

(** [forward], from the normalization to the end. *)
Definition forward_attend (seq_len batch_size : nat)
    (value scores : Tensor scalar) : M Heap (Tensor scalar) :=
  (this <- get_self ;;
   attn <- rt (Softmax.forward (softmax this) scores) ;;
   rt (tracker_add "attn" attn) ;;;
   attn <- rt (Dropout.forward (dropout this) attn) ;;
   x <- rt (op KEinsum (einsum "ijbh, jbhd->ibhd" attn value)) ;;
   set_attn attn ;;;
   x <- rt (op KReshape
              (reshape x [Z.of_nat seq_len; Z.of_nat batch_size; -1]%Z)) ;;
   rt (Linear.forward (output this) x))%monad.

(** [forward(self, *, query, key, value, mask=None)] *)
Definition forward (query key value : Tensor scalar)
    (mask : option (Tensor number)) : M Heap (Tensor scalar) :=
  (r <- forward_scores query key value mask ;;
   let '(seq_len, batch_size, value, scores) := r in
   forward_attend seq_len batch_size value scores)%monad.

End MultiHeadAttention.

(* ================================================================== *)
(** * Other operations on the module *)

(** [module.eval()]: leaves training mode; only dropout looks at it. *)
Definition eval (m : MultiHeadAttention.t) : MultiHeadAttention.t :=
  MultiHeadAttention.mk
    (MultiHeadAttention.n_features m) (MultiHeadAttention.n_heads m)
    (MultiHeadAttention.query m) (MultiHeadAttention.key m)
    (MultiHeadAttention.value m) (MultiHeadAttention.softmax m)
    (MultiHeadAttention.output m)
    (Dropout.mk (Dropout.p (MultiHeadAttention.dropout m)) false)
    (MultiHeadAttention.scale m) (MultiHeadAttention.attn m).

(** The module [m] with another dropout probability. *)
Definition with_dropout_p (m : MultiHeadAttention.t) (p : scalar)
  : MultiHeadAttention.t :=
  MultiHeadAttention.mk
    (MultiHeadAttention.n_features m) (MultiHeadAttention.n_heads m)
    (MultiHeadAttention.query m) (MultiHeadAttention.key m)
    (MultiHeadAttention.value m) (MultiHeadAttention.softmax m)
    (MultiHeadAttention.output m)
    (Dropout.mk p (Dropout.training (MultiHeadAttention.dropout m)))
    (MultiHeadAttention.scale m) (MultiHeadAttention.attn m).

(* ================================================================== *)
(** * Well-formedness of the modules *)

(** A [nn.Linear] whose parameters have the shapes its constructor gives
    them, for [o] output and [i] input features. *)
Definition linear_shaped (l : Linear.t) (i o : nat) : Prop :=
  shape (Linear.weight l) = [o; i] /\
  match Linear.bias l with
  | Some b => shape b = [o]
  | None => True
  end.

(** Whether a [nn.Linear] carries a bias vector. *)
Definition has_bias (l : Linear.t) : bool :=
  match Linear.bias l with Some _ => true | None => false end.

(** A projection head over an embedding of width [d_model]. *)
Definition prepared (self : PrepareForMultiHeadAttention.t) (d_model : nat)
  : Prop :=
  (0 <= PrepareForMultiHeadAttention.n_heads self)%Z /\
  (0 <= PrepareForMultiHeadAttention.d_heads self)%Z /\
  linear_shaped (PrepareForMultiHeadAttention.linear self) d_model
    (Z.to_nat (PrepareForMultiHeadAttention.n_heads self
               * PrepareForMultiHeadAttention.d_heads self)).

(** A module as [MultiHeadAttention.__init__] leaves it, with [H] heads
    of width [D] over an embedding of width [d_model]. *)
Definition constructed (m : MultiHeadAttention.t) (d_model H D : nat)
  : Prop :=
  MultiHeadAttention.n_heads m = Z.of_nat H /\
  MultiHeadAttention.n_features m = Z.of_nat D /\
  0 < H /\ 0 < D /\
  prepared (MultiHeadAttention.query m) d_model /\
  prepared (MultiHeadAttention.key m) d_model /\
  prepared (MultiHeadAttention.value m) d_model /\
  PrepareForMultiHeadAttention.n_heads (MultiHeadAttention.query m)
  = Z.of_nat H /\
  PrepareForMultiHeadAttention.d_heads (MultiHeadAttention.query m)
  = Z.of_nat D /\
  PrepareForMultiHeadAttention.n_heads (MultiHeadAttention.key m)
  = Z.of_nat H /\
  PrepareForMultiHeadAttention.d_heads (MultiHeadAttention.key m)
  = Z.of_nat D /\
  PrepareForMultiHeadAttention.n_heads (MultiHeadAttention.value m)
  = Z.of_nat H /\
  PrepareForMultiHeadAttention.d_heads (MultiHeadAttention.value m)
  = Z.of_nat D /\
  linear_shaped (MultiHeadAttention.output m) d_model d_model /\
  MultiHeadAttention.softmax m = Softmax.mk (-1) /\
  bad_probability (Dropout.p (MultiHeadAttention.dropout m)) = false /\
  MultiHeadAttention.scale m
  = Finite (1 / sqrt (IZR (MultiHeadAttention.n_features m))).

(** A mask that passes the assertions of [prepare_mask] for a query of
    shape [(Sq, B, _)] and a key of the given shape; no mask passes. *)
Definition mask_accepted (mask : option (Tensor number)) (Sq B : nat)
    (key_shape : list nat) : Prop :=
  match mask with
  | None => True
  | Some mk =>
      exists m0 m1 m2 rest Sk krest,
        shape mk = m0 :: m1 :: m2 :: rest /\ key_shape = Sk :: krest /\
        (m0 = 1 \/ m0 = Sq) /\ m1 = Sk /\ (m2 = 1 \/ m2 = B)
  end.

(** The runtime once [prepare_mask] has returned: with a mask, its
    [unsqueeze] has run. *)
Definition after_mask (mask : option (Tensor number)) (w : Runtime)
  : Runtime :=
  match mask with Some _ => ticked KUnsqueeze w | None => w end.

(** Two modules that differ at most in their [attn] field. *)
Definition same_parameters (m m' : MultiHeadAttention.t) : Prop :=
  MultiHeadAttention.n_features m' = MultiHeadAttention.n_features m /\
  MultiHeadAttention.n_heads m' = MultiHeadAttention.n_heads m /\
  MultiHeadAttention.query m' = MultiHeadAttention.query m /\
  MultiHeadAttention.key m' = MultiHeadAttention.key m /\
  MultiHeadAttention.value m' = MultiHeadAttention.value m /\
  MultiHeadAttention.softmax m' = MultiHeadAttention.softmax m /\
  MultiHeadAttention.output m' = MultiHeadAttention.output m /\
  MultiHeadAttention.dropout m' = MultiHeadAttention.dropout m /\
  MultiHeadAttention.scale m' = MultiHeadAttention.scale m.

(** A tensor whose elements are all zero. *)
Definition all_zero (t : Tensor scalar) : Prop :=
  Forall (fun x => x = Finite 0) (data t).

Definition zero_linear (l : Linear.t) : Prop :=
  all_zero (Linear.weight l) /\
  match Linear.bias l with Some b => all_zero b | None => True end.

(* ================================================================== *)
(** * Rows of scores and of weights *)

(** A row of scores on which softmax is defined: no [NaN], no [+inf],
    and at least one finite score. *)
Definition no_nan_or_pinf (x : scalar) : bool :=
  match x with Finite _ | NInf => true | PInf | NaN => false end.

Definition proper_row (row : list scalar) : Prop :=
  forallb no_nan_or_pinf row = true /\ existsb is_finite row = true.

(** A row of weights that is a probability distribution. *)
Definition distribution (row : list scalar) : Prop :=
  Forall (fun x => exists r, x = Finite r /\ (0 <= r)%R) row /\
  scalar_sum row = Finite 1.

Definition Rsum (l : list R) : R := fold_right Rplus 0%R l.

(** [M] is the largest finite score of the row. *)
Definition top_of (row : list scalar) (M : R) : Prop :=
  In (Finite M) row /\ forall r, In (Finite r) row -> (r <= M)%R.

(** The exponential of a score shifted by the top score [M]: at most
    1, and 0 when the difference overflows. *)
Definition shifted_exp (M : R) (x : scalar) : R :=
  match x with
  | Finite r => if Rltb (r + - M) (- max_float) then 0 else exp (r + - M)
  | _ => 0
  end.

(** The kernels run by [forward] up to the scaling of the scores, when
    no mask is given: three projections (a linear map and a view each),
    the score contraction and the scaling. *)
Definition scored (w : Runtime) : Runtime :=
  ticked KMul (ticked KEinsum
    (ticked KView (ticked KLinear
      (ticked KView (ticked KLinear
        (ticked KView (ticked KLinear w))))))).

(* ================================================================== *)
(** * Small concrete modules and inputs *)

Module Examples.

(** Parameters all equal to zero. *)
Definition zeros (n : nat) : list scalar := repeat (Finite 0) n.

(** A projection head with two heads of width one over an embedding
    of width two, with the identity as weight and no bias. *)
Definition head2 : PrepareForMultiHeadAttention.t :=
  PrepareForMultiHeadAttention.mk
    (Linear.mk 2 2
       (mkTensor [2; 2] [Finite 1; Finite 0; Finite 0; Finite 1]) None)
    2 1.

(** One position, embedding [(3, 4)]. *)
Definition x12 : Tensor scalar := mkTensor [1; 2] [Finite 3; Finite 4].

(** A runtime in which nothing has happened yet and dropout keeps
    every element. *)
Definition fresh : Runtime := mkRuntime [] [] (fun _ => true) 0.

(** [nn.Linear(i, o)] with all parameters zero. *)
Definition linear0 (i o : nat) : Linear.t :=
  Linear.mk (Z.of_nat i) (Z.of_nat o)
    (mkTensor [o; i] (zeros (o * i))) (Some (mkTensor [o] (zeros o))).

Definition head0 (H D : nat) : PrepareForMultiHeadAttention.t :=
  PrepareForMultiHeadAttention.mk (linear0 (H * D) (H * D))
    (Z.of_nat H) (Z.of_nat D).

(** [MultiHeadAttention(n_heads=H, d_model=H*D, dropout_prob=0.1)] with
    all parameters zero. *)
Definition attention (H D : nat) : MultiHeadAttention.t :=
  MultiHeadAttention.mk (Z.of_nat D) (Z.of_nat H)
    (head0 H D) (head0 H D) (head0 H D) (Softmax.mk (-1))
    (linear0 (H * D) (H * D)) (Dropout.mk (Finite (1 / 10)) true)
    (Finite (1 / sqrt (IZR (Z.of_nat D)))) None.

End Examples.

(** The runtime [w'] differs from [w] at most in the kernels that have
    run: same tracker, same random generator. *)
Definition kernels_only (w w' : Runtime) : Prop :=
  tracker w' = tracker w /\ bernoulli w' = bernoulli w /\
  rng_pos w' = rng_pos w.

(* ================================================================== *)
(** * [PrepareForMultiHeadAttention] in the second notebook

    [transformer.ipynb] holds a copy of the class in which the number
    of heads and the width of a head are called [heads] and [d_k]. *)

Module TransformerNotebook.

Module PrepareForMultiHeadAttention.

Record t : Type := mk {
  linear : Linear.t;
  heads : Z;
  d_k : Z
}.

(** [__init__(self, d_model, heads, d_k, bias)] *)
Definition init (gen : nat -> scalar) (d_model heads d_k : Z)
    (bias : bool) : M nat t :=
  (linear <- Linear.init gen d_model (heads * d_k)%Z bias ;;
   ret (mk linear heads d_k))%monad.

(** [forward(self, x)] *)
Definition forward (self : t) (x : Tensor scalar)
  : M Runtime (Tensor scalar) :=
  (let head_shape := removelast (shape x) in
   x <- Linear.forward (linear self) x ;;
   x <- op KView (view x (map Z.of_nat head_shape
                            ++ [heads self; d_k self])) ;;
   ret x)%monad.

End PrepareForMultiHeadAttention.

End TransformerNotebook.

(** A head of the second notebook under the field names of the first. *)
Definition renamed (self : TransformerNotebook.PrepareForMultiHeadAttention.t)
  : PrepareForMultiHeadAttention.t :=
  PrepareForMultiHeadAttention.mk
    (TransformerNotebook.PrepareForMultiHeadAttention.linear self)
    (TransformerNotebook.PrepareForMultiHeadAttention.heads self)
    (TransformerNotebook.PrepareForMultiHeadAttention.d_k self).

(* ================================================================== *)
(** * Positions and row-major order *)

Section Indexing.

Context {A : Type}.

Lemma length_all_indices (sh : list nat) :
  List.length (all_indices sh) = prod_list sh.
Proof.
  induction sh as [|d sh IH]; simpl; [reflexivity|].
  rewrite (flat_map_constant_length (c := prod_list sh)).
  - now rewrite length_seq.
  - intros x _. now rewrite length_map.
Qed.

Lemma ravel_lt (sh idx : list nat) :
  in_range sh idx -> ravel sh idx < prod_list sh.
Proof.
  induction 1 as [|i d idx sh Hid _ IH]; simpl; [lia|].
  fold (prod_list sh). nia.
Qed.

Lemma in_range_length (sh idx : list nat) :
  in_range sh idx -> List.length idx = List.length sh.
Proof. apply Forall2_length. Qed.

(** Blocks of equal length laid one after the other. *)
Lemma nth_flat_map_seq (B : Type) (g : nat -> list B) (c : nat) (d : B) :
  (forall i, List.length (g i) = c) ->
  forall n s x r, x < n -> r < c ->
    nth (x * c + r) (flat_map g (seq s n)) d = nth r (g (s + x)) d.
Proof.
  intros Hg. induction n as [|n IH]; intros s x r Hx Hr; [lia|].
  simpl. destruct x as [|x].
  - simpl. rewrite app_nth1 by (rewrite Hg; lia).
    now rewrite Nat.add_0_r.
  - rewrite app_nth2 by (rewrite Hg; simpl; lia).
    rewrite Hg. replace (S x * c + r - c) with (x * c + r) by (simpl; lia).
    rewrite IH by lia. f_equal. f_equal. lia.
Qed.

Lemma nth_all_indices (sh idx d : list nat) :
  in_range sh idx -> nth (ravel sh idx) (all_indices sh) d = idx.
Proof.
  induction 1 as [|i n idx sh Hin Hrest IH]; [reflexivity|].
  simpl. fold (prod_list sh).
  rewrite (nth_flat_map_seq _ (c := prod_list sh)).
  - simpl.
    rewrite (nth_indep _ d (i :: d))
      by (rewrite length_map, length_all_indices; now apply ravel_lt).
    rewrite (map_nth (cons i)). now rewrite IH.
  - intros k. now rewrite length_map, length_all_indices.
  - exact Hin.
  - now apply ravel_lt.
Qed.

Lemma nth_table (sh idx : list nat) (f : list nat -> A) (d : A) :
  in_range sh idx -> nth (ravel sh idx) (table sh f) d = f idx.
Proof.
  intros H. unfold table.
  rewrite (nth_indep _ d (f []))
    by (rewrite length_map, length_all_indices; now apply ravel_lt).
  rewrite map_nth. now rewrite nth_all_indices.
Qed.

Lemma get_tabulate (sh idx : list nat) (f : list nat -> A) (d : A) :
  in_range sh idx -> get d (tabulate sh f) idx = f idx.
Proof. intros H. unfold get, tabulate. simpl. now apply nth_table. Qed.

Lemma length_table (sh : list nat) (f : list nat -> A) :
  List.length (table sh f) = prod_list sh.
Proof. unfold table. now rewrite length_map, length_all_indices. Qed.

Lemma wf_tabulate (sh : list nat) (f : list nat -> A) :
  wf (tabulate sh f).
Proof. unfold wf, numel, tabulate. simpl. apply length_table. Qed.

End Indexing.

Lemma prod_list_app (a b : list nat) :
  prod_list (a ++ b) = prod_list a * prod_list b.
Proof.
  induction a as [|x a IH]; simpl; [lia|].
  fold (prod_list (a ++ b)) (prod_list a). rewrite IH. lia.
Qed.

Lemma in_range_app (sh1 sh2 i1 i2 : list nat) :
  in_range sh1 i1 -> in_range sh2 i2 -> in_range (sh1 ++ sh2) (i1 ++ i2).
Proof. apply Forall2_app. Qed.

(** Splitting the last axis of size [h * d] into [(h, d)] leaves every
    element at its offset. *)
Lemma ravel_split_last (pre ipre : list nat) (h d x y : nat) :
  in_range pre ipre -> y < d ->
  ravel (pre ++ [h; d]) (ipre ++ [x; y]) = ravel (pre ++ [h * d]) (ipre ++ [x * d + y]).
Proof.
  intros Hpre Hy. induction Hpre as [|i n ipre pre Hin Hrest IH].
  - simpl. lia.
  - simpl. fold (prod_list (pre ++ [h; d])) (prod_list (pre ++ [h * d])).
    rewrite IH. rewrite !prod_list_app. simpl. lia.
Qed.

Unset Implicit Arguments.

(* ================================================================== *)
(** * Overflow *)

Lemma max_float_ge_2 : (2 <= max_float)%R.
Proof.
  unfold max_float.
  assert (H23 : (1 <= 2 ^ 23)%R) by (apply pow_R1_Rle; lra).
  assert (H126 : (1 <= 2 ^ 126)%R) by (apply pow_R1_Rle; lra).
  assert (Hinv : (/ 2 ^ 23 <= 1)%R).
  { rewrite <- Rinv_1. apply Rinv_le_contravar; lra. }
  change (2 ^ 127)%R with (2 * 2 ^ 126)%R.
  assert (H1 : (1 <= 2 - / 2 ^ 23)%R) by lra.
  assert (H2 : (2 <= 2 * 2 ^ 126)%R) by lra.
  replace 2%R with (1 * 2)%R at 1 by ring.
  apply Rmult_le_compat; lra.
Qed.

Lemma overflow_small (r : R) :
  (- max_float <= r <= max_float)%R -> overflow r = Finite r.
Proof.
  intros Hr. unfold overflow, Rltb.
  destruct (Rlt_dec max_float r); [lra|].
  destruct (Rlt_dec r (- max_float)); [lra|reflexivity].
Qed.

Lemma overflow_0 : overflow 0 = Finite 0.
Proof. apply overflow_small. pose proof max_float_ge_2. lra. Qed.

(* ================================================================== *)
(** * [view], [reshape] and [unsqueeze] *)

Lemma no_invalid_dim (sh : list nat) :
  existsb (fun d => (d <? -1)%Z) (map Z.of_nat sh) = false.
Proof.
  induction sh as [|d sh IH]; simpl; [reflexivity|].
  rewrite IH. destruct (Z.ltb_spec (Z.of_nat d) (-1)); [lia|reflexivity].
Qed.

Lemma no_inferred_dim (sh : list nat) : count_infer (map Z.of_nat sh) = 0.
Proof.
  unfold count_infer. induction sh as [|d sh IH]; simpl; [reflexivity|].
  destruct (Z.eqb_spec (Z.of_nat d) (-1)); [lia|exact IH].
Qed.

Lemma known_size_of_nat (sh : list nat) :
  known_size (map Z.of_nat sh) = Z.of_nat (prod_list sh).
Proof.
  unfold known_size. induction sh as [|d sh IH]; simpl; [reflexivity|].
  rewrite IH. fold (prod_list sh).
  destruct (Z.eqb_spec (Z.of_nat d) (-1)); lia.
Qed.

Lemma to_nat_of_nat (sh : list nat) : map Z.to_nat (map Z.of_nat sh) = sh.
Proof.
  induction sh as [|d sh IH]; simpl; [reflexivity|].
  now rewrite Nat2Z.id, IH.
Qed.

Lemma infer_size_exact (sh : list nat) (n : nat) :
  infer_size (map Z.of_nat sh) n
  = if n =? prod_list sh then Ok sh else Err RuntimeError.
Proof.
  unfold infer_size.
  rewrite no_invalid_dim, no_inferred_dim, known_size_of_nat, to_nat_of_nat.
  destruct (Nat.eqb_spec n (prod_list sh));
    destruct (Z.eqb_spec (Z.of_nat n) (Z.of_nat (prod_list sh)));
    try reflexivity; lia.
Qed.

Lemma view_exact {A} (t : Tensor A) (sh : list nat) :
  numel t = prod_list sh ->
  view t (map Z.of_nat sh) = Ok (mkTensor sh (data t)).
Proof.
  intros H. unfold view. rewrite infer_size_exact, H, Nat.eqb_refl.
  reflexivity.
Qed.

(** [t.reshape(a, b, -1)] *)
Lemma reshape_infer_last {A} (t : Tensor A) (a b : nat) :
  reshape t [Z.of_nat a; Z.of_nat b; -1]%Z
  = if (0 <? a * b) && (numel t mod (a * b) =? 0)
    then Ok (mkTensor [a; b; numel t / (a * b)] (data t))
    else Err RuntimeError.
Proof.
  unfold reshape, view, infer_size.
  assert (Ha : existsb (fun d => (d <? -1)%Z)
                 [Z.of_nat a; Z.of_nat b; (-1)%Z] = false).
  { simpl. destruct (Z.ltb_spec (Z.of_nat a) (-1)); [lia|].
    destruct (Z.ltb_spec (Z.of_nat b) (-1)); [lia|reflexivity]. }
  rewrite Ha. clear Ha.
  assert (Hc : count_infer [Z.of_nat a; Z.of_nat b; (-1)%Z] = 1).
  { unfold count_infer. simpl.
    destruct (Z.eqb_spec (Z.of_nat a) (-1)); [lia|].
    destruct (Z.eqb_spec (Z.of_nat b) (-1)); [lia|reflexivity]. }
  rewrite Hc. clear Hc.
  assert (Hk : known_size [Z.of_nat a; Z.of_nat b; (-1)%Z]
               = Z.of_nat (a * b)).
  { unfold known_size. simpl.
    destruct (Z.eqb_spec (Z.of_nat a) (-1)); [lia|].
    destruct (Z.eqb_spec (Z.of_nat b) (-1)); [lia|lia]. }
  rewrite Hk. clear Hk.
  destruct (Nat.ltb_spec 0 (a * b)) as [Hpos|Hpos];
    destruct (Z.ltb_spec 0 (Z.of_nat (a * b))); try lia; simpl;
    [|reflexivity].
  rewrite <- Nat2Z.inj_mod.
  destruct (Nat.eqb_spec (numel t mod (a * b)) 0);
    destruct (Z.eqb_spec (Z.of_nat (numel t mod (a * b))) 0); try lia;
    simpl; [|reflexivity].
  destruct (Z.eqb_spec (Z.of_nat a) (-1)); [lia|].
  destruct (Z.eqb_spec (Z.of_nat b) (-1)); [lia|].
  rewrite <- Nat2Z.inj_div, !Nat2Z.id. reflexivity.
Qed.

Lemma unsqueeze_last {A} (t : Tensor A) :
  unsqueeze t (-1) = Ok (mkTensor (shape t ++ [1]) (data t)).
Proof.
  unfold unsqueeze, ndim.
  set (n := List.length (shape t)).
  destruct (Z.ltb_spec (-1) (- (Z.of_nat n + 1))); [lia|].
  destruct (Z.ltb_spec (Z.of_nat n) (-1)); [lia|].
  cbv beta iota zeta delta [orb].
  destruct (Z.ltb_spec (-1) 0); [|lia].
  replace (Z.to_nat (-1 + Z.of_nat n + 1)) with n by lia.
  unfold n. now rewrite firstn_all, skipn_all.
Qed.

(* ================================================================== *)
(** * [nn.Linear] *)

Lemma F_linear_ok (x W : Tensor scalar) (b : option (Tensor scalar))
    (pre : list nat) (i o : nat) :
  shape W = [o; i] ->
  match b with Some bb => shape bb = [o] | None => True end ->
  shape x = pre ++ [i] ->
  exists f, F_linear x W b = Ok (tabulate (pre ++ [o]) f).
Proof.
  intros HW Hb Hx. unfold F_linear.
  rewrite HW, Hx, rev_app_distr, removelast_last. simpl.
  rewrite Nat.eqb_refl. simpl.
  destruct b as [bb|].
  - rewrite Hb, Nat.eqb_refl. eexists. reflexivity.
  - eexists. reflexivity.
Qed.

Lemma F_linear_width_mismatch (x W : Tensor scalar)
    (b : option (Tensor scalar)) (pre : list nat) (i o k : nat) :
  shape W = [o; i] -> shape x = pre ++ [k] -> k <> i ->
  F_linear x W b = Err RuntimeError.
Proof.
  intros HW Hx Hk. unfold F_linear.
  rewrite HW, Hx, rev_app_distr. simpl.
  destruct (Nat.eqb_spec k i); [contradiction|reflexivity].
Qed.

Lemma Linear_init_inv (gen : nat -> scalar) (i o : Z) (b : bool)
    (pos pos' : nat) (l : Linear.t) :
  Linear.init gen i o b pos = (Ok l, pos') ->
  (0 <= i)%Z /\ (0 <= o)%Z /\
  linear_shaped l (Z.to_nat i) (Z.to_nat o) /\ has_bias l = b.
Proof.
  unfold Linear.init, linear_shaped, has_bias.
  destruct (Z.ltb_spec i 0); destruct (Z.ltb_spec o 0); simpl;
    try discriminate.
  destruct b; intros E; inversion E; subst; simpl; repeat split; auto.
Qed.

Lemma Linear_init_ok (gen : nat -> scalar) (i o : Z) (b : bool) (pos : nat) :
  (0 <= i)%Z -> (0 <= o)%Z ->
  exists l pos', Linear.init gen i o b pos = (Ok l, pos').
Proof.
  intros Hi Ho. unfold Linear.init.
  destruct (Z.ltb_spec i 0); [lia|]. destruct (Z.ltb_spec o 0); [lia|].
  simpl. destruct b; eexists; eexists; reflexivity.
Qed.

Lemma Linear_init_negative (gen : nat -> scalar) (i o : Z) (b : bool)
    (pos : nat) :
  (i < 0 \/ o < 0)%Z -> Linear.init gen i o b pos = (Err RuntimeError, pos).
Proof.
  intros H. unfold Linear.init.
  destruct (Z.ltb_spec i 0); destruct (Z.ltb_spec o 0); simpl;
    try reflexivity; lia.
Qed.

(* ================================================================== *)
(** * [PrepareForMultiHeadAttention] *)

Lemma prepare_init_inv (gen : nat -> scalar) (d_model n_heads d_heads : Z)
    (b : bool) (pos pos' : nat) (self : PrepareForMultiHeadAttention.t) :
  PrepareForMultiHeadAttention.init gen d_model n_heads d_heads b pos
  = (Ok self, pos') ->
  (0 <= d_model)%Z /\ (0 <= n_heads * d_heads)%Z /\
  PrepareForMultiHeadAttention.n_heads self = n_heads /\
  PrepareForMultiHeadAttention.d_heads self = d_heads /\
  linear_shaped (PrepareForMultiHeadAttention.linear self)
    (Z.to_nat d_model) (Z.to_nat (n_heads * d_heads)) /\
  has_bias (PrepareForMultiHeadAttention.linear self) = b.
Proof.
  unfold PrepareForMultiHeadAttention.init, bind, ret.
  destruct (Linear.init gen d_model (n_heads * d_heads) b pos)
    as [[l|e] p] eqn:E; [|discriminate].
  intros H. inversion H; subst. simpl.
  apply Linear_init_inv in E. tauto.
Qed.

Lemma prepare_init_ok (gen : nat -> scalar) (d_model n_heads d_heads : Z)
    (b : bool) (pos : nat) :
  (0 <= d_model)%Z -> (0 <= n_heads * d_heads)%Z ->
  exists self pos',
    PrepareForMultiHeadAttention.init gen d_model n_heads d_heads b pos
    = (Ok self, pos').
Proof.
  intros Hd Hp. unfold PrepareForMultiHeadAttention.init, bind, ret.
  destruct (Linear_init_ok gen _ _ b pos Hd Hp) as (l & pos' & E).
  rewrite E. eexists. eexists. reflexivity.
Qed.

Lemma prepare_init_prepared (gen : nat -> scalar)
    (d_model n_heads d_heads : Z) (b : bool) (pos pos' : nat)
    (self : PrepareForMultiHeadAttention.t) :
  PrepareForMultiHeadAttention.init gen d_model n_heads d_heads b pos
  = (Ok self, pos') ->
  (0 <= n_heads)%Z -> (0 <= d_heads)%Z ->
  prepared self (Z.to_nat d_model).
Proof.
  intros E Hn Hd. apply prepare_init_inv in E.
  destruct E as (_ & _ & En & Ed & Hl & _).
  unfold prepared. rewrite En, Ed. auto.
Qed.

(** The projection head, step by step: the affine map, then the view. *)
Lemma prepare_forward_ok (self : PrepareForMultiHeadAttention.t)
    (d_model : nat) (x : Tensor scalar) (pre : list nat) (w : Runtime) :
  prepared self d_model -> shape x = pre ++ [d_model] ->
  let H := Z.to_nat (PrepareForMultiHeadAttention.n_heads self) in
  let D := Z.to_nat (PrepareForMultiHeadAttention.d_heads self) in
  exists f,
    F_linear x (Linear.weight (PrepareForMultiHeadAttention.linear self))
               (Linear.bias (PrepareForMultiHeadAttention.linear self))
    = Ok (tabulate (pre ++ [H * D]) f) /\
    PrepareForMultiHeadAttention.forward self x w
    = (Ok (mkTensor (pre ++ [H; D]) (table (pre ++ [H * D]) f)),
       ticked KView (ticked KLinear w)).
Proof.
  intros (Hn & Hd & HW & Hb) Hx H D.
  assert (HD : Z.to_nat (PrepareForMultiHeadAttention.n_heads self
                         * PrepareForMultiHeadAttention.d_heads self)
               = H * D) by (unfold H, D; now rewrite Z2Nat.inj_mul).
  rewrite HD in HW, Hb.
  destruct (F_linear_ok x _ _ pre _ _ HW Hb Hx) as (f & Ef).
  exists f. split; [exact Ef|].
  unfold PrepareForMultiHeadAttention.forward, Linear.forward, op, bind,
    lift, tick, modify, ret.
  rewrite Ef, Hx, removelast_last.
  replace (map Z.of_nat pre ++ [PrepareForMultiHeadAttention.n_heads self;
                                PrepareForMultiHeadAttention.d_heads self])
    with (map Z.of_nat (pre ++ [H; D]))
    by (rewrite map_app; simpl; unfold H, D; now rewrite !Z2Nat.id).
  rewrite view_exact; [reflexivity|].
  unfold numel. simpl. rewrite !prod_list_app. simpl. lia.
Qed.

Lemma prepare_forward_width_mismatch (self : PrepareForMultiHeadAttention.t)
    (d_model : nat) (x : Tensor scalar) (pre : list nat) (k : nat)
    (w : Runtime) :
  prepared self d_model -> shape x = pre ++ [k] -> k <> d_model ->
  PrepareForMultiHeadAttention.forward self x w = (Err RuntimeError, w).
Proof.
  intros (_ & _ & HW & _) Hx Hk.
  unfold PrepareForMultiHeadAttention.forward, Linear.forward, op, bind, lift.
  now rewrite (F_linear_width_mismatch x _ _ pre _ _ _ HW Hx Hk).
Qed.

(** C7.  The projection head is the affine map of [nn.Linear] on the
    trailing axis followed by a pure reinterpretation of that axis of
    size [H * D] as [(H, D)]: the elements and their order are those of
    the affine map's output, element [(.., h, d)] is element
    [(.., h * D + d)] of it, and viewing the result back with a single
    trailing axis gives the affine map's output itself.  With
    [d_model = 512], 8 heads of width 64 and an input of shape
    [(10, 20, 512)] the output has shape [(10, 20, 8, 64)]. *)
Theorem prepare_forward_affine_then_split :
  (forall (self : PrepareForMultiHeadAttention.t) (d_model : nat)
          (x : Tensor scalar) (pre : list nat) (w : Runtime),
      prepared self d_model -> shape x = pre ++ [d_model] ->
      let H := Z.to_nat (PrepareForMultiHeadAttention.n_heads self) in
      let D := Z.to_nat (PrepareForMultiHeadAttention.d_heads self) in
      exists y out,
        F_linear x (Linear.weight (PrepareForMultiHeadAttention.linear self))
                   (Linear.bias (PrepareForMultiHeadAttention.linear self))
        = Ok y /\
        shape y = pre ++ [H * D] /\
        fst (PrepareForMultiHeadAttention.forward self x w) = Ok out /\
        shape out = pre ++ [H; D] /\
        data out = data y /\
        (forall ipre h d, in_range pre ipre -> h < H -> d < D ->
           elem out (ipre ++ [h; d]) = elem y (ipre ++ [h * D + d])) /\
        view out (map Z.of_nat (pre ++ [H * D])) = Ok y)
  /\
  (forall (gen : nat -> scalar) (bias : bool) (pos : nat)
          (xs : list scalar) (w : Runtime),
      exists self pos' out,
        PrepareForMultiHeadAttention.init gen 512 8 64 bias pos
        = (Ok self, pos') /\
        fst (PrepareForMultiHeadAttention.forward
               self (mkTensor [10; 20; 512] xs) w) = Ok out /\
        shape out = [10; 20; 8; 64]).
Proof.
  split.
  - intros self d_model x pre w Hp Hx H D.
    destruct (prepare_forward_ok _ _ x pre w Hp Hx) as (f & Ey & Eo).
    fold H D in Ey, Eo.
    exists (tabulate (pre ++ [H * D]) f).
    exists (mkTensor (pre ++ [H; D]) (table (pre ++ [H * D]) f)).
    repeat split.
    + exact Ey.
    + now rewrite Eo.
    + intros ipre h d Hi Hh Hd. unfold elem, get, tabulate. simpl.
      now rewrite ravel_split_last.
    + rewrite view_exact; [reflexivity|].
      unfold numel. simpl. rewrite !prod_list_app. simpl. lia.
  - intros gen bias pos xs w.
    destruct (prepare_init_ok gen 512 8 64 bias pos) as (self & pos' & E);
      [lia|lia|].
    pose proof (prepare_init_prepared _ _ _ _ _ _ _ _ E) as Hp.
    pose proof (prepare_init_inv _ _ _ _ _ _ _ _ E) as (_ & _ & En & Ed & _).
    assert (Hx : shape (mkTensor [10; 20; 512] xs)
                 = [10; 20] ++ [Z.to_nat 512]) by reflexivity.
    destruct (prepare_forward_ok _ _ (mkTensor [10; 20; 512] xs) [10; 20] w
                (Hp ltac:(lia) ltac:(lia)) Hx) as (f & _ & Eo).
    exists self, pos'. eexists. split; [exact E|].
    rewrite Eo. split; [reflexivity|]. simpl. now rewrite En, Ed.
Qed.

Lemma prepare_forward_affine_then_split_witness :
  exists y out,
    F_linear Examples.x12
      (Linear.weight (PrepareForMultiHeadAttention.linear Examples.head2))
      (Linear.bias (PrepareForMultiHeadAttention.linear Examples.head2))
    = Ok y /\
    shape y = [1; 2] /\
    fst (PrepareForMultiHeadAttention.forward Examples.head2 Examples.x12
           Examples.fresh) = Ok out /\
    shape out = [1; 2; 1] /\
    data out = data y.
Proof.
  assert (Hp : prepared Examples.head2 2).
  { unfold prepared, linear_shaped. simpl. repeat split; lia. }
  destruct (proj1 prepare_forward_affine_then_split Examples.head2 2
              Examples.x12 [1] Examples.fresh Hp eq_refl)
    as (y & out & E1 & E2 & E3 & E4 & E5 & _).
  exists y, out. repeat split; assumption.
Defined.

(* ================================================================== *)
(** * The constructor of [MultiHeadAttention] *)

Lemma floordiv_inv (a b q : Z) :
  floordiv a b = Ok q -> b <> 0%Z /\ q = (a / b)%Z.
Proof.
  unfold floordiv. destruct (Z.eqb_spec b 0); [discriminate|].
  intros E. inversion E. auto.
Qed.

Lemma sqrt_IZR_zero (n : Z) : (0 <= n)%Z -> (sqrt (IZR n) = 0%R <-> n = 0%Z).
Proof.
  intros Hn. split.
  - intros H. apply sqrt_eq_0 in H; [now apply eq_IZR|].
    now apply IZR_le.
  - intros ->. exact sqrt_0.
Qed.

Lemma scale_inv (n : Z) (r s : scalar) :
  math_sqrt n = Ok r -> truediv (Finite 1) r = Ok s ->
  (0 < n)%Z /\ s = Finite (1 / sqrt (IZR n)).
Proof.
  unfold math_sqrt, truediv.
  destruct (Z.ltb_spec n 0) as [|Hn]; [discriminate|].
  intros E. inversion E; subst. clear E. simpl. unfold Reqb.
  destruct (Req_dec_T (sqrt (IZR n)) 0) as [H0|H0]; [discriminate|].
  intros E. inversion E; subst. split; [|reflexivity].
  destruct (Z.eq_dec n 0) as [->|]; [|lia].
  exfalso. apply H0. exact sqrt_0.
Qed.

Lemma scale_ok (n : Z) :
  (0 < n)%Z ->
  exists r, math_sqrt n = Ok r /\
            truediv (Finite 1) r = Ok (Finite (1 / sqrt (IZR n))).
Proof.
  intros Hn. unfold math_sqrt, truediv.
  destruct (Z.ltb_spec n 0); [lia|].
  eexists. split; [reflexivity|]. simpl. unfold Reqb.
  destruct (Req_dec_T (sqrt (IZR n)) 0) as [H0|H0]; [|reflexivity].
  apply sqrt_IZR_zero in H0; lia.
Qed.

Lemma Dropout_init_inv (p : scalar) (d : Dropout.t) :
  Dropout.init p = Ok d ->
  bad_probability p = false /\ d = Dropout.mk p true.
Proof.
  unfold Dropout.init, bad_probability.
  destruct (scalar_ltb p (Finite 0) || scalar_ltb (Finite 1) p);
    [discriminate|].
  intros E. inversion E. auto.
Qed.

Lemma positive_quotient (a b : Z) :
  b <> 0%Z -> (0 <= a)%Z -> (0 <= b * (a / b))%Z -> (0 < a / b)%Z ->
  (0 < b <= a)%Z.
Proof.
  intros Hb Ha Hp Hq.
  assert (0 < b)%Z by nia.
  split; [assumption|].
  pose proof (Z.mul_div_le a b ltac:(lia)). nia.
Qed.

(** What a successful construction has done. *)
Lemma init_inv (gen : nat -> scalar) (n_heads d_model : Z) (p : scalar)
    (bias : bool) (pos pos' : nat) (m : MultiHeadAttention.t) :
  MultiHeadAttention.init gen n_heads d_model p bias pos = (Ok m, pos') ->
  (0 < n_heads <= d_model)%Z /\
  constructed m (Z.to_nat d_model) (Z.to_nat n_heads)
                (Z.to_nat (d_model / n_heads)) /\
  has_bias (PrepareForMultiHeadAttention.linear (MultiHeadAttention.query m))
  = bias /\
  has_bias (PrepareForMultiHeadAttention.linear (MultiHeadAttention.key m))
  = bias /\
  has_bias (PrepareForMultiHeadAttention.linear (MultiHeadAttention.value m))
  = true /\
  MultiHeadAttention.dropout m = Dropout.mk p true /\
  MultiHeadAttention.attn m = None.
Proof.
  unfold MultiHeadAttention.init, bind, lift, ret.
  destruct (floordiv d_model n_heads) as [nf|e] eqn:Ediv; [|discriminate].
  apply floordiv_inv in Ediv. destruct Ediv as (Hn0 & ->).
  destruct (PrepareForMultiHeadAttention.init gen d_model n_heads
              (d_model / n_heads) bias pos) as [[q|e] p1] eqn:Eq;
    [|discriminate].
  destruct (PrepareForMultiHeadAttention.init gen d_model n_heads
              (d_model / n_heads) bias p1) as [[k|e] p2] eqn:Ek;
    [|discriminate].
  destruct (PrepareForMultiHeadAttention.init gen d_model n_heads
              (d_model / n_heads) true p2) as [[v|e] p3] eqn:Ev;
    [|discriminate].
  destruct (Linear.init gen d_model d_model true p3) as [[o|e] p4] eqn:Eo;
    [|discriminate].
  destruct (Dropout.init p) as [d|e] eqn:Ed; [|discriminate].
  destruct (math_sqrt (d_model / n_heads)) as [r|e] eqn:Er; [|discriminate].
  destruct (truediv (Finite 1) r) as [s|e] eqn:Es; [|discriminate].
  intros E. inversion E; subst. clear E.
  destruct (scale_inv _ _ _ Er Es) as (Hnf & ->).
  apply Dropout_init_inv in Ed. destruct Ed as (Hp & ->).
  pose proof (prepare_init_inv _ _ _ _ _ _ _ _ Eq)
    as (Hd & Hprod & Eqn & Eqd & Hql & Hqb).
  pose proof (prepare_init_inv _ _ _ _ _ _ _ _ Ek)
    as (_ & _ & Ekn & Ekd & Hkl & Hkb).
  pose proof (prepare_init_inv _ _ _ _ _ _ _ _ Ev)
    as (_ & _ & Evn & Evd & Hvl & Hvb).
  pose proof (Linear_init_inv _ _ _ _ _ _ _ Eo) as (_ & _ & Hol & _).
  pose proof (positive_quotient _ _ Hn0 Hd Hprod Hnf) as Hrange.
  split; [exact Hrange|].
  split; [|simpl; auto].
  assert (Pq : prepared q (Z.to_nat d_model))
    by (unfold prepared; rewrite Eqn, Eqd; repeat split; (lia || apply Hql)).
  assert (Pk : prepared k (Z.to_nat d_model))
    by (unfold prepared; rewrite Ekn, Ekd; repeat split; (lia || apply Hkl)).
  assert (Pv : prepared v (Z.to_nat d_model))
    by (unfold prepared; rewrite Evn, Evd; repeat split; (lia || apply Hvl)).
  assert (HH : (0 < Z.to_nat n_heads)%nat) by lia.
  assert (HD : (0 < Z.to_nat (d_model / n_heads))%nat) by lia.
  unfold constructed; simpl.
  rewrite Eqn, Eqd, Ekn, Ekd, Evn, Evd, !Z2Nat.id by lia.
  tauto.
Qed.

Lemma init_ok (gen : nat -> scalar) (n_heads d_model : Z) (p : scalar)
    (bias : bool) (pos : nat) :
  (0 < n_heads <= d_model)%Z -> bad_probability p = false ->
  exists m pos',
    MultiHeadAttention.init gen n_heads d_model p bias pos = (Ok m, pos').
Proof.
  intros Hr Hp.
  assert (Hq : (0 < d_model / n_heads)%Z) by (apply Z.div_str_pos; lia).
  unfold MultiHeadAttention.init, bind, lift, ret, floordiv.
  destruct (Z.eqb_spec n_heads 0); [lia|].
  destruct (prepare_init_ok gen d_model n_heads (d_model / n_heads) bias pos)
    as (q & p1 & Eq); [lia|nia|]. rewrite Eq.
  destruct (prepare_init_ok gen d_model n_heads (d_model / n_heads) bias p1)
    as (k & p2 & Ek); [lia|nia|]. rewrite Ek.
  destruct (prepare_init_ok gen d_model n_heads (d_model / n_heads) true p2)
    as (v & p3 & Ev); [lia|nia|]. rewrite Ev.
  destruct (Linear_init_ok gen d_model d_model true p3)
    as (o & p4 & Eo); [lia|lia|]. rewrite Eo.
  unfold Dropout.init. fold (bad_probability p). rewrite Hp.
  destruct (scale_ok _ Hq) as (r & Er & Es). rewrite Er, Es.
  eexists. eexists. reflexivity.
Qed.

Lemma init_ok_iff (gen : nat -> scalar) (n_heads d_model : Z) (p : scalar)
    (bias : bool) (pos : nat) :
  is_Ok (fst (MultiHeadAttention.init gen n_heads d_model p bias pos)) = true
  <-> (0 < n_heads <= d_model)%Z /\ bad_probability p = false.
Proof.
  split.
  - destruct (MultiHeadAttention.init gen n_heads d_model p bias pos)
      as [[m|e] pos'] eqn:E; simpl; [|discriminate].
    intros _. apply init_inv in E.
    destruct E as (Hr & Hc & _ & _ & _ & Hd & _).
    split; [exact Hr|].
    unfold constructed in Hc. rewrite Hd in Hc. simpl in Hc. tauto.
  - intros (Hr & Hp).
    destruct (init_ok gen n_heads d_model p bias pos Hr Hp) as (m & pos' & E).
    now rewrite E.
Qed.

Lemma bad_probability_spec (p : scalar) :
  bad_probability p = true
  <-> scalar_ltb p (Finite 0) = true \/ scalar_ltb (Finite 1) p = true.
Proof. unfold bad_probability. apply orb_true_iff. Qed.

Lemma good_probability_finite (r : R) :
  (0 <= r <= 1)%R -> bad_probability (Finite r) = false.
Proof.
  intros Hr. unfold bad_probability. simpl. unfold Rltb.
  destruct (Rlt_dec r 0); [lra|]. destruct (Rlt_dec 1 r); [lra|reflexivity].
Qed.

(** C3, as the code has it.  Construction fails exactly when the number
    of heads is not positive, [d_model] is smaller than the number of
    heads, or the dropout probability is below 0 or above 1.  Whether
    [n_heads] divides [d_model] is not looked at, and a probability of
    exactly 1 is accepted. *)
Theorem init_fails_exactly_when
    (gen : nat -> scalar) (n_heads d_model : Z) (p : scalar) (bias : bool)
    (pos : nat) :
  is_Ok (fst (MultiHeadAttention.init gen n_heads d_model p bias pos)) = false
  <-> ((n_heads <= 0)%Z \/ (d_model < n_heads)%Z \/
       scalar_ltb p (Finite 0) = true \/ scalar_ltb (Finite 1) p = true).
Proof.
  pose proof (init_ok_iff gen n_heads d_model p bias pos) as Hiff.
  pose proof (bad_probability_spec p) as Hbad.
  destruct (is_Ok (fst (MultiHeadAttention.init gen n_heads d_model p bias pos))).
  - split; [discriminate|].
    destruct Hiff as (Hiff & _). specialize (Hiff eq_refl).
    destruct Hiff as (Hr & Hp). rewrite Hp in Hbad.
    intros [H|[H|H]]; try lia.
    apply Hbad in H. discriminate.
  - split; [|reflexivity]. intros _.
    destruct (Z_le_gt_dec n_heads 0); [tauto|].
    destruct (Z_lt_le_dec d_model n_heads); [tauto|].
    right. right. apply Hbad.
    destruct (bad_probability p); [reflexivity|].
    destruct Hiff as (_ & Hiff). discriminate Hiff. split; [lia|reflexivity].
Qed.

(** C3, counterexample.  Three heads over an embedding of width 10 (not
    a multiple of 3) with dropout probability 0.1: the constructor
    returns a module. *)
Lemma init_accepts_indivisible_width :
  (10 mod 3 <> 0)%Z /\
  is_Ok (fst (MultiHeadAttention.init (fun _ => Finite 0) 3 10
                (Finite (1 / 10)) true 0)) = true.
Proof.
  split; [discriminate|].
  apply init_ok_iff. split; [lia|].
  apply good_probability_finite. lra.
Qed.

(** C6.  In a module returned by the constructor the value projection
    has a bias whatever the [bias] flag is, and the query and key
    projections have one exactly when the flag is set. *)
Theorem value_bias_unconditional
    (gen : nat -> scalar) (n_heads d_model : Z) (p : scalar) (bias : bool)
    (pos pos' : nat) (m : MultiHeadAttention.t) :
  MultiHeadAttention.init gen n_heads d_model p bias pos = (Ok m, pos') ->
  has_bias (PrepareForMultiHeadAttention.linear (MultiHeadAttention.value m))
  = true /\
  has_bias (PrepareForMultiHeadAttention.linear (MultiHeadAttention.query m))
  = bias /\
  has_bias (PrepareForMultiHeadAttention.linear (MultiHeadAttention.key m))
  = bias.
Proof.
  intros E. apply init_inv in E. tauto.
Qed.

Lemma value_bias_unconditional_witness :
  exists m pos',
    MultiHeadAttention.init (fun _ => Finite 0) 2 4 (Finite 0) false 0
    = (Ok m, pos') /\
    has_bias (PrepareForMultiHeadAttention.linear (MultiHeadAttention.value m))
    = true /\
    has_bias (PrepareForMultiHeadAttention.linear (MultiHeadAttention.query m))
    = false /\
    has_bias (PrepareForMultiHeadAttention.linear (MultiHeadAttention.key m))
    = false.
Proof.
  destruct (init_ok (fun _ => Finite 0) 2 4 (Finite 0) false 0)
    as (m & pos' & E).
  - lia.
  - apply good_probability_finite. lra.
  - exists m, pos'. split; [exact E|].
    exact (value_bias_unconditional _ _ _ _ _ _ _ _ E).
Defined.

(* ================================================================== *)
(** * Softmax on one row *)

(** Sums of at most [max_float] numbers between 0 and 1 do not
    overflow. *)
Lemma scalar_sum_unit (l : list R) :
  Forall (fun r => 0 <= r <= 1)%R l ->
  (INR (List.length l) <= max_float)%R ->
  scalar_sum (map Finite l) = Finite (Rsum l) /\
  (0 <= Rsum l <= INR (List.length l))%R.
Proof.
  unfold scalar_sum.
  induction 1 as [|r l Hr Hl IH]; intros Hn.
  - cbn [map fold_right Rsum List.length INR]. split; [reflexivity|lra].
  - cbn [List.length] in Hn. rewrite S_INR in Hn.
    destruct IH as (IH & Hs); [lra|].
    cbn [map fold_right]. rewrite IH.
    cbn [Rsum fold_right List.length]. fold (Rsum l). rewrite S_INR.
    split; [|lra].
    cbn [scalar_add]. apply overflow_small.
    pose proof max_float_ge_2. lra.
Qed.

Lemma Rsum_div (l : list R) (s : R) :
  Rsum (map (fun r => r / s)%R l) = (Rsum l / s)%R.
Proof.
  induction l as [|r l IH]; simpl.
  - unfold Rdiv. now rewrite Rmult_0_l.
  - rewrite IH. unfold Rdiv. now rewrite Rmult_plus_distr_r.
Qed.

Lemma Rsum_nonneg (l : list R) : Forall (fun r => 0 <= r)%R l -> (0 <= Rsum l)%R.
Proof.
  induction 1 as [|r l Hr _ IH]; simpl; [apply Rle_refl|].
  now apply Rplus_le_le_0_compat.
Qed.

(** The maximum of a row without [NaN] and [+inf] is its largest finite
    score as soon as one score is finite, and [-inf] otherwise. *)
Lemma row_max (row : list scalar) :
  forallb no_nan_or_pinf row = true ->
  if existsb is_finite row
  then exists M, fold_right scalar_max NInf row = Finite M /\ top_of row M
  else fold_right scalar_max NInf row = NInf.
Proof.
  unfold top_of.
  induction row as [|x row IH]; simpl; [reflexivity|].
  intros H. apply andb_true_iff in H. destruct H as (Hx & Hrow).
  specialize (IH Hrow).
  destruct x as [r| | |]; simpl in *; try discriminate.
  - destruct (existsb is_finite row) eqn:Ex.
    + destruct IH as (M & -> & Hin & Hub).
      exists (Rmax r M). split; [reflexivity|]. split.
      * unfold Rmax. destruct (Rle_dec r M); [now right|now left].
      * intros r0 [E|Hr0].
        -- inversion E; subst. apply Rmax_l.
        -- eapply Rle_trans; [exact (Hub r0 Hr0)|apply Rmax_r].
    + rewrite IH. exists r. split; [reflexivity|]. split; [now left|].
      intros r0 [E|Hr0]; [inversion E; apply Rle_refl|].
      exfalso.
      assert (Ht : existsb is_finite row = true)
        by (apply existsb_exists; exists (Finite r0); now split).
      congruence.
  - destruct (existsb is_finite row).
    + destruct IH as (M & -> & Hin & Hub).
      exists M. split; [reflexivity|]. split; [now right|].
      intros r0 [E|Hr0]; [discriminate|now apply Hub].
    + now rewrite IH.
Qed.

Lemma shifted_exp_unit (M : R) (x : scalar) :
  (forall r, x = Finite r -> r <= M)%R -> (0 <= shifted_exp M x <= 1)%R.
Proof.
  intros Hub. destruct x as [r| | |]; simpl; try lra.
  unfold Rltb. destruct (Rlt_dec (r + - M) (- max_float)); [lra|].
  specialize (Hub r eq_refl).
  pose proof (exp_pos (r + - M)) as Hp.
  split; [lra|].
  destruct (Req_dec (r + - M) 0) as [-> |Hne]; [rewrite exp_0; lra|].
  pose proof (exp_increasing (r + - M) 0 ltac:(lra)) as Hi.
  rewrite exp_0 in Hi. lra.
Qed.

(** Shifted by the top score and exponentiated, such a row consists of
    numbers between 0 and 1. *)
Lemma row_exponentials (row : list scalar) (M : R) :
  forallb no_nan_or_pinf row = true ->
  (forall r, In (Finite r) row -> r <= M)%R ->
  map (fun x => scalar_exp (scalar_sub x (Finite M))) row
  = map Finite (map (shifted_exp M) row).
Proof.
  induction row as [|x row IH]; simpl; [reflexivity|].
  intros H Hub. apply andb_true_iff in H. destruct H as (Hx & Hrow).
  rewrite IH by auto. f_equal.
  destruct x as [r| | |]; simpl in *; try discriminate; [|reflexivity].
  specialize (Hub r (or_introl eq_refl)).
  unfold overflow, Rltb.
  pose proof max_float_ge_2.
  destruct (Rlt_dec max_float (r + - M)); [lra|].
  destruct (Rlt_dec (r + - M) (- max_float)); reflexivity.
Qed.

Lemma shifted_exp_top (M : R) : shifted_exp M (Finite M) = 1%R.
Proof.
  simpl. unfold Rltb. pose proof max_float_ge_2.
  destruct (Rlt_dec (M + - M) (- max_float)); [lra|].
  replace (M + - M)%R with 0%R by ring. apply exp_0.
Qed.

Lemma Rsum_ge_member (l : list R) (e : R) :
  Forall (fun r => 0 <= r)%R l -> In e l -> (e <= Rsum l)%R.
Proof.
  induction 1 as [|r l Hr Hl IH]; [contradiction|].
  simpl. pose proof (Rsum_nonneg l Hl) as Hs. fold (Rsum l).
  intros [-> |Hin]; [lra|]. specialize (IH Hin). lra.
Qed.

(** The normalized row, for a row on which softmax is defined and
    whose length is a number that the sum of its weights can reach. *)
Lemma softmax_row_form (row : list scalar) :
  proper_row row -> (INR (List.length row) <= max_float)%R ->
  exists M,
    top_of row M /\
    let es := map (shifted_exp M) row in
    Forall (fun r => 0 <= r <= 1)%R es /\ (1 <= Rsum es)%R /\
    softmax_row row = map (fun r => Finite (r / Rsum es)) es.
Proof.
  intros (Hclean & Hfin) Hlen. unfold softmax_row.
  pose proof (row_max row Hclean) as Hmax. rewrite Hfin in Hmax.
  destruct Hmax as (M & -> & Htop).
  exists M. split; [exact Htop|]. destruct Htop as (Hin & Hub).
  cbv zeta.
  assert (Hunit : Forall (fun r => 0 <= r <= 1)%R (map (shifted_exp M) row)).
  { apply Forall_map. apply Forall_forall. intros x Hx.
    apply shifted_exp_unit. intros r ->. now apply Hub. }
  assert (Hsum : (1 <= Rsum (map (shifted_exp M) row))%R).
  { rewrite <- (shifted_exp_top M). apply Rsum_ge_member.
    - eapply Forall_impl; [|exact Hunit]. intros r Hr. apply Hr.
    - now apply in_map. }
  split; [exact Hunit|]. split; [exact Hsum|].
  rewrite (row_exponentials row M Hclean Hub).
  destruct (scalar_sum_unit _ Hunit) as (-> & _);
    [now rewrite length_map|].
  rewrite map_map.
  apply map_ext. intros r. simpl. unfold Reqb.
  destruct (Req_dec_T (Rsum (map (shifted_exp M) row)) 0);
    [lra|reflexivity].
Qed.

Lemma softmax_row_proper (row : list scalar) :
  proper_row row -> (INR (List.length row) <= max_float)%R ->
  distribution (softmax_row row).
Proof.
  intros Hrow Hlen.
  destruct (softmax_row_form row Hrow Hlen) as (M & _ & H).
  cbv zeta in H. destruct H as (Hunit & Hsum & ->).
  set (es := map (shifted_exp M) row) in *.
  rewrite <- (map_map (fun r => r / Rsum es)%R Finite).
  assert (Hw : Forall (fun r => 0 <= r <= 1)%R
                 (map (fun r => r / Rsum es)%R es)).
  { apply Forall_map. apply Forall_forall. intros r Hr.
    pose proof (proj1 (Forall_forall _ _) Hunit r Hr) as Hr01.
    assert (Hle : (r <= Rsum es)%R).
    { apply Rsum_ge_member; [|exact Hr].
      eapply Forall_impl; [|exact Hunit]. intros r0 H0. apply H0. }
    split.
    - apply Rmult_le_pos; [lra|].
      apply Rlt_le. apply Rinv_0_lt_compat. lra.
    - apply (Rmult_le_reg_r (Rsum es)); [lra|].
      unfold Rdiv. rewrite Rmult_assoc, Rinv_l; lra. }
  split.
  - apply Forall_map.
    eapply Forall_impl; [|exact Hw].
    intros r Hr. exists r. split; [reflexivity|lra].
  - destruct (scalar_sum_unit _ Hw) as (-> & _).
    + rewrite length_map. unfold es. now rewrite length_map.
    + rewrite Rsum_div. f_equal. field. lra.
Qed.

(** A finite score that is not further than [max_float] below the top
    score gets a positive weight. *)
Lemma softmax_row_positive (row : list scalar) (j : nat) (x : R) :
  proper_row row -> (INR (List.length row) <= max_float)%R ->
  nth_error row j = Some (Finite x) ->
  (forall M, In (Finite M) row -> M - x <= max_float)%R ->
  exists r, nth j (softmax_row row) NaN = Finite r /\ (0 < r)%R.
Proof.
  intros Hrow Hlen Hj Hnear.
  destruct (softmax_row_form row Hrow Hlen) as (M & (Hin & _) & H).
  cbv zeta in H. destruct H as (_ & Hsum & ->).
  set (es := map (shifted_exp M) row) in *.
  exists (shifted_exp M (Finite x) / Rsum es)%R. split.
  - apply nth_error_nth. unfold es.
    rewrite !nth_error_map, Hj. reflexivity.
  - apply Rdiv_lt_0_compat; [|lra].
    simpl. unfold Rltb. specialize (Hnear M Hin).
    destruct (Rlt_dec (x + - M) (- max_float)); [lra|apply exp_pos].
Qed.

(** A non-empty row in which every score is [-inf] normalizes to [NaN]
    everywhere. *)
Lemma softmax_row_all_masked (row : list scalar) :
  row <> [] -> Forall (fun x => x = NInf) row ->
  Forall (fun x => x = NaN) (softmax_row row).
Proof.
  intros Hne Hall. unfold softmax_row.
  assert (Hmax : fold_right scalar_max NInf row = NInf).
  { induction Hall as [|x l -> _ IH]; simpl; [reflexivity|].
    destruct l; [reflexivity|]. rewrite IH by discriminate. reflexivity. }
  rewrite Hmax.
  apply Forall_map. apply Forall_map.
  eapply Forall_impl; [|exact Hall].
  intros x ->. simpl. reflexivity.
Qed.

Lemma softmax_row_length (row : list scalar) :
  List.length (softmax_row row) = List.length row.
Proof. unfold softmax_row. now rewrite !length_map. Qed.

(* ================================================================== *)
(** * [nn.Softmax(dim=-1)] on a tensor *)

Lemma softmax_last_ok (S : Tensor scalar) :
  exists a, softmax (-1) S = Ok a /\ shape a = shape S.
Proof.
  unfold softmax, ndim. destruct (shape S) as [|d sh] eqn:E.
  - simpl. eexists. split; reflexivity.
  - set (nd := List.length (d :: sh)).
    assert (Hnd : 1 <= nd) by (unfold nd; simpl; lia).
    destruct (Z.ltb_spec (-1) (- Z.of_nat nd)); [lia|].
    destruct (Z.leb_spec (Z.of_nat nd) (-1)); [lia|].
    simpl. eexists. split; reflexivity.
Qed.

Lemma set_nth_last (ipre : list nat) (j k : nat) :
  set_nth (List.length ipre) k (ipre ++ [j]) = ipre ++ [k].
Proof.
  unfold set_nth.
  rewrite firstn_app, firstn_all, Nat.sub_diag.
  cbn [firstn]. rewrite app_nil_r. f_equal. f_equal.
  rewrite skipn_all2; [reflexivity|]. rewrite length_app. simpl. lia.
Qed.

(** Along the last axis, the weights at a position of the leading axes
    are the softmax of the scores at that position. *)
Lemma softmax_last_elem (S a : Tensor scalar) (pre ipre : list nat)
    (n j : nat) :
  shape S = pre ++ [n] -> softmax (-1) S = Ok a ->
  in_range pre ipre -> j < n ->
  elem a (ipre ++ [j])
  = nth j (softmax_row (map (fun k => elem S (ipre ++ [k])) (seq 0 n))) NaN.
Proof.
  intros HS Ha Hpre Hj. unfold softmax, ndim in Ha.
  assert (Hlen : List.length (shape S) = Datatypes.S (List.length pre))
    by (rewrite HS, length_app; simpl; lia).
  destruct (shape S) as [|d sh] eqn:E; [discriminate|].
  rewrite <- E in *. clear E d sh. rewrite Hlen in Ha.
  destruct (Z.ltb_spec (-1) (- Z.of_nat (Datatypes.S (List.length pre))));
    [lia|].
  destruct (Z.leb_spec (Z.of_nat (Datatypes.S (List.length pre))) (-1));
    [lia|].
  cbv beta iota zeta delta [orb] in Ha.
  destruct (Z.ltb_spec (-1) 0); [|lia].
  replace (Z.to_nat (-1 + Z.of_nat (Datatypes.S (List.length pre))))
    with (List.length pre) in Ha by lia.
  inversion Ha; subst a. clear Ha.
  unfold elem at 1. rewrite get_tabulate.
  - pose proof (in_range_length Hpre) as Hl.
    unfold fibre. rewrite HS, nth_middle, <- Hl, nth_middle.
    f_equal. f_equal. apply map_ext. intros k. now rewrite set_nth_last.
  - rewrite HS. apply in_range_app; [assumption|].
    constructor; [assumption|constructor].
Qed.

(* ================================================================== *)
(** * [nn.Dropout] *)

Lemma scalar_leb_ltb (x y : scalar) :
  scalar_leb x y = true -> scalar_ltb y x = false.
Proof.
  destruct x as [a| | |], y as [b| | |]; simpl; try reflexivity;
    try discriminate.
  unfold Rleb, Rltb.
  destruct (Rle_dec a b), (Rlt_dec b a); try reflexivity; try discriminate.
  lra.
Qed.

(** What the kernel accepts, Python's test lets through. *)
Lemma valid_not_bad (p : scalar) :
  valid_probability p = true -> bad_probability p = false.
Proof.
  unfold valid_probability, bad_probability. intros H.
  apply andb_true_iff in H. destruct H as (H0 & H1).
  now rewrite (scalar_leb_ltb _ _ H0), (scalar_leb_ltb _ _ H1).
Qed.

Lemma valid_probability_finite (r : R) :
  (0 <= r <= 1)%R -> valid_probability (Finite r) = true.
Proof.
  intros Hr. unfold valid_probability. simpl. unfold Rleb.
  destruct (Rle_dec 0 r); [|lra]. destruct (Rle_dec r 1); [|lra].
  reflexivity.
Qed.

(** The only probability that passes Python's test and not the
    kernel's is [NaN]. *)
Lemma invalid_probability_nan (p : scalar) :
  bad_probability p = false -> valid_probability p = false -> p = NaN.
Proof.
  unfold bad_probability, valid_probability.
  destruct p as [r| | |]; simpl; try discriminate; [|reflexivity].
  unfold Rltb, Rleb.
  destruct (Rlt_dec r 0), (Rlt_dec 1 r), (Rle_dec 0 r), (Rle_dec r 1);
    simpl; try discriminate; lra.
Qed.

Lemma dropout_forward_eval (d : Dropout.t) (x : Tensor scalar) (w : Runtime) :
  valid_probability (Dropout.p d) = true -> Dropout.training d = false ->
  Dropout.forward d x w = (Ok x, ticked KDropout w).
Proof.
  intros Hp Ht. unfold Dropout.forward.
  rewrite (valid_not_bad _ Hp), Hp, Ht. simpl.
  rewrite orb_true_r. reflexivity.
Qed.

(** With a probability that the kernel accepts, dropout returns a
    tensor of the shape of its input and records nothing in the
    tracker. *)
Lemma dropout_forward_ok (d : Dropout.t) (x : Tensor scalar) (w : Runtime) :
  valid_probability (Dropout.p d) = true ->
  exists y w',
    Dropout.forward d x w = (Ok y, w') /\
    shape y = shape x /\ tracker w' = tracker w.
Proof.
  intros Hp. unfold Dropout.forward.
  rewrite (valid_not_bad _ Hp), Hp. cbn [negb].
  destruct (scalar_eqb (Dropout.p d) (Finite 0) || negb (Dropout.training d)
            || (numel x =? 0)).
  - eexists. eexists. repeat split.
  - destruct (scalar_eqb (Dropout.p d) (Finite 1)).
    + eexists. eexists. repeat split.
    + eexists. eexists. repeat split.
Qed.

(** A probability that passed Python's test and fails the kernel's
    makes every call raise, in either mode. *)
Lemma dropout_forward_invalid (d : Dropout.t) (x : Tensor scalar)
    (w : Runtime) :
  bad_probability (Dropout.p d) = false ->
  valid_probability (Dropout.p d) = false ->
  Dropout.forward d x w = (Err RuntimeError, w).
Proof.
  intros Hb Hv. unfold Dropout.forward. now rewrite Hb, Hv.
Qed.

(* ================================================================== *)
(** * The two contractions *)

Lemma parse_scores :
  parse_equation "ibhd,jbhd->ibhj"
  = Some (["i"; "b"; "h"; "d"], ["j"; "b"; "h"; "d"],
          ["i"; "b"; "h"; "j"])%char.
Proof. reflexivity. Qed.

Lemma parse_attend :
  parse_equation "ijbh, jbhd->ibhd"
  = Some (["i"; "j"; "b"; "h"], ["j"; "b"; "h"; "d"],
          ["i"; "b"; "h"; "d"])%char.
Proof. reflexivity. Qed.

Lemma shape_of_Ok {A} (r : res (Tensor A)) (sh : list nat) :
  shape_of r = Ok sh -> exists t, r = Ok t /\ shape t = sh.
Proof.
  destruct r as [t|e]; simpl; [|discriminate].
  intros E. inversion E. now exists t.
Qed.

Lemma shape_of_Err {A} (r : res (Tensor A)) (e : exn) :
  shape_of r = Err e -> r = Err e.
Proof.
  destruct r as [t|e']; simpl; [discriminate|].
  intros E. inversion E. reflexivity.
Qed.

(** [einsum("ibhd,jbhd->ibhj", q, k)]: the axes named [b], [h] and [d]
    are matched between the operands. *)
Lemma einsum_scores_shape (a c : Tensor scalar)
    (x0 x1 x2 x3 y0 y1 y2 y3 : nat) :
  shape a = [x0; x1; x2; x3] -> shape c = [y0; y1; y2; y3] ->
  shape_of (einsum "ibhd,jbhd->ibhj" a c)
  = res_bind (merge_dim x1 y1) (fun b =>
    res_bind (merge_dim x2 y2) (fun h =>
    res_bind (merge_dim x3 y3) (fun _ => Ok [x0; b; h; y0]))).
Proof.
  intros Ha Hc. unfold einsum. rewrite parse_scores, Ha, Hc. cbn.
  destruct (merge_dim x1 y1) as [b|e]; cbn; [|reflexivity].
  destruct (merge_dim x2 y2) as [h|e]; cbn; [|reflexivity].
  destruct (merge_dim x3 y3) as [d|e]; cbn; [|reflexivity].
  reflexivity.
Qed.

(** [einsum("ijbh, jbhd->ibhd", attn, value)]: the second axis of
    [attn] is matched with the first axis of [value], the third with
    the second and the fourth with the third. *)
Lemma einsum_attend_shape (a v : Tensor scalar)
    (x0 x1 x2 x3 y0 y1 y2 y3 : nat) :
  shape a = [x0; x1; x2; x3] -> shape v = [y0; y1; y2; y3] ->
  shape_of (einsum "ijbh, jbhd->ibhd" a v)
  = res_bind (merge_dim x1 y0) (fun _ =>
    res_bind (merge_dim x2 y1) (fun b =>
    res_bind (merge_dim x3 y2) (fun h => Ok [x0; b; h; y3]))).
Proof.
  intros Ha Hv. unfold einsum. rewrite parse_attend, Ha, Hv. cbn.
  destruct (merge_dim x1 y0) as [j|e]; cbn; [|reflexivity].
  destruct (merge_dim x2 y1) as [b|e]; cbn; [|reflexivity].
  destruct (merge_dim x3 y2) as [h|e]; cbn; [|reflexivity].
  reflexivity.
Qed.

Lemma merge_dim_raises (x y : nat) (e : exn) :
  merge_dim x y = Err e -> e = RuntimeError.
Proof.
  unfold merge_dim.
  destruct (x =? y); [discriminate|].
  destruct (y =? 1); [discriminate|].
  destruct (x =? 1); [discriminate|intros E; now inversion E].
Qed.

Lemma merge_dim_same (x : nat) : merge_dim x x = Ok x.
Proof. unfold merge_dim. now rewrite Nat.eqb_refl. Qed.

Lemma merge_dim_clash (x y : nat) :
  x <> y -> x <> 1 -> y <> 1 -> merge_dim x y = Err RuntimeError.
Proof.
  intros Hxy Hx Hy. unfold merge_dim.
  destruct (Nat.eqb_spec x y); [contradiction|].
  destruct (Nat.eqb_spec y 1); [contradiction|].
  destruct (Nat.eqb_spec x 1); [contradiction|reflexivity].
Qed.

(** ** The values of the two contractions

    On operands whose shapes fit the labels, the model of
    [torch.einsum] computes the sums that the equations denote. *)

(** Positions given by numerals or bounded variables. *)
Ltac in_range_tac :=
  unfold in_range; repeat (apply Forall2_cons; [lia|]); apply Forall2_nil.

Lemma flat_map_singleton (l : list nat) :
  flat_map (fun i => [[i]]) l = map (fun i => [i]) l.
Proof.
  induction l as [|i l IH]; simpl; [reflexivity|]. now rewrite IH.
Qed.

Lemma read_in_range (d i : nat) : i < d -> (if d =? 1 then 0 else i) = i.
Proof. intros H. destruct (Nat.eqb_spec d 1); lia. Qed.

(** [get_scores]: the entry at [(i, b, h, j)] is the dot product of the
    query vector at [(i, b, h)] with the key vector at [(j, b, h)]. *)
Lemma einsum_scores_elem (a c r : Tensor scalar)
    (I B H D J i b h j : nat) :
  shape a = [I; B; H; D] -> shape c = [J; B; H; D] ->
  einsum "ibhd,jbhd->ibhj" a c = Ok r ->
  i < I -> b < B -> h < H -> j < J ->
  elem r [i; b; h; j]
  = scalar_sum (map (fun d => scalar_mul (elem a [i; b; h; d])
                                         (elem c [j; b; h; d]))
                    (seq 0 D)).
Proof.
  intros Ha Hc E Hi Hb Hh Hj. unfold einsum in E.
  rewrite parse_scores, Ha, Hc in E. cbn -[all_indices] in E.
  rewrite !merge_dim_same in E. cbn -[all_indices] in E.
  inversion E; subst r. clear E.
  unfold elem at 1. rewrite get_tabulate by in_range_tac.
  rewrite flat_map_singleton, map_map. cbn.
  rewrite !(read_in_range _ _ Hi), !(read_in_range _ _ Hb),
    !(read_in_range _ _ Hh), !(read_in_range _ _ Hj).
  f_equal. apply map_ext_in. intros d Hd. apply in_seq in Hd.
  rewrite !(read_in_range D d) by lia. reflexivity.
Qed.

(** The aggregation reads its first operand as [(i, j, b, h)]: on a
    tensor of weights laid out that way, the entry at [(i, b, h, d)] is
    the sum over [j] of [w(i, j, b, h) * v(j, b, h, d)]. *)
Lemma einsum_attend_elem (w v r : Tensor scalar)
    (I J B H D i b h d : nat) :
  shape w = [I; J; B; H] -> shape v = [J; B; H; D] ->
  einsum "ijbh, jbhd->ibhd" w v = Ok r ->
  i < I -> b < B -> h < H -> d < D ->
  elem r [i; b; h; d]
  = scalar_sum (map (fun j => scalar_mul (elem w [i; j; b; h])
                                         (elem v [j; b; h; d]))
                    (seq 0 J)).
Proof.
  intros Hw Hv E Hi Hb Hh Hd. unfold einsum in E.
  rewrite parse_attend, Hw, Hv in E. cbn -[all_indices] in E.
  rewrite !merge_dim_same in E. cbn -[all_indices] in E.
  inversion E; subst r. clear E.
  unfold elem at 1. rewrite get_tabulate by in_range_tac.
  rewrite flat_map_singleton, map_map. cbn.
  rewrite !(read_in_range _ _ Hi), !(read_in_range _ _ Hb),
    !(read_in_range _ _ Hh), !(read_in_range _ _ Hd).
  f_equal. apply map_ext_in. intros j Hj. apply in_seq in Hj.
  rewrite !(read_in_range J j) by lia. reflexivity.
Qed.

(* ================================================================== *)
(** * [forward], from the normalization on *)

(** Unfolds the plumbing of the monad and of the module wrappers, up to
    the next tensor operation. *)
Ltac mred :=
  cbv beta iota zeta delta
    [bind ret lift op tick modify raise get_state
     MultiHeadAttention.rt MultiHeadAttention.get_self
     MultiHeadAttention.set_attn tracker_add
     Softmax.forward Linear.forward MultiHeadAttention.get_scores
     MultiHeadAttention.self MultiHeadAttention.runtime fst snd].

(** Case analysis on the outcome of every tensor operation of a call,
    in program order. *)
Ltac crunch :=
  repeat (mred;
    match goal with
    | |- context [unpack3 ?a] => destruct (unpack3 a)
    | |- context [MultiHeadAttention.prepare_mask ?a ?b ?c ?d] =>
        destruct (MultiHeadAttention.prepare_mask a b c d) as [[?|?] ?]
    | |- context [PrepareForMultiHeadAttention.forward ?a ?b ?c] =>
        destruct (PrepareForMultiHeadAttention.forward a b c) as [[?|?] ?]
    | |- context [einsum ?s ?a ?b] => destruct (einsum s a b)
    | |- context [masked_fill ?a ?b ?c] => destruct (masked_fill a b c)
    | |- context [softmax ?a ?b] => destruct (softmax a b)
    | |- context [Dropout.forward ?a ?b ?c] =>
        destruct (Dropout.forward a b c) as [[?|?] ?]
    | |- context [reshape ?a ?b] => destruct (reshape a b)
    | |- context [F_linear ?a ?b ?c] => destruct (F_linear a b c)
    | |- context [match ?m with Some _ => _ | None => _ end] =>
        is_var m; destruct m
    end);
  mred.

(** The second half of [forward] spelled out: normalization and
    recording always succeed, dropout succeeds when the probability is
    in range, and the call then stands or falls with the aggregation,
    the reshape and the output projection.  [self.attn] is written
    after the aggregation. *)
Lemma forward_attend_unfold (m : MultiHeadAttention.t) (w : Runtime)
    (sl bs : nat) (V S : Tensor scalar) :
  MultiHeadAttention.softmax m = Softmax.mk (-1) ->
  valid_probability (Dropout.p (MultiHeadAttention.dropout m)) = true ->
  exists a a' w1,
    softmax (-1) S = Ok a /\ shape a = shape S /\
    Dropout.forward (MultiHeadAttention.dropout m) a
      (logged "attn" a (ticked KSoftmax w)) = (Ok a', w1) /\
    shape a' = shape S /\
    tracker w1 = tracker w ++ [("attn"%string, a)] /\
    MultiHeadAttention.forward_attend sl bs V S (MultiHeadAttention.mkHeap m w)
    = match einsum "ijbh, jbhd->ibhd" a' V with
      | Err e => (Err e, MultiHeadAttention.mkHeap m w1)
      | Ok x =>
          let m' := MultiHeadAttention.with_attn m a' in
          let w2 := ticked KEinsum w1 in
          match reshape x [Z.of_nat sl; Z.of_nat bs; (-1)%Z] with
          | Err e => (Err e, MultiHeadAttention.mkHeap m' w2)
          | Ok x' =>
              match F_linear x'
                      (Linear.weight (MultiHeadAttention.output m))
                      (Linear.bias (MultiHeadAttention.output m)) with
              | Err e =>
                  (Err e, MultiHeadAttention.mkHeap m' (ticked KReshape w2))
              | Ok y =>
                  (Ok y, MultiHeadAttention.mkHeap m'
                           (ticked KLinear (ticked KReshape w2)))
              end
          end
      end.
Proof.
  intros Hsm Hp.
  destruct (softmax_last_ok S) as (a & Ea & Hsa).
  destruct (dropout_forward_ok (MultiHeadAttention.dropout m) a
              (logged "attn" a (ticked KSoftmax w)) Hp)
    as (a' & w1 & Ed & Hsd & Htr).
  exists a, a', w1.
  repeat split; try assumption.
  - congruence.
  - unfold MultiHeadAttention.forward_attend. mred.
    rewrite Hsm. cbn [Softmax.dim]. rewrite Ea. mred. rewrite Ed. mred.
    destruct (einsum "ijbh, jbhd->ibhd" a' V) as [x|e]; [|reflexivity].
    mred.
    destruct (reshape x [Z.of_nat sl; Z.of_nat bs; (-1)%Z]) as [x'|e];
      [|reflexivity].
    mred.
    destruct (F_linear x' (Linear.weight (MultiHeadAttention.output m))
                (Linear.bias (MultiHeadAttention.output m))) as [y|e];
      reflexivity.
Qed.

(** With a dropout probability that only Python's test accepts, the
    second half records the weights in the tracker and raises in
    dropout. *)
Lemma forward_attend_invalid (m : MultiHeadAttention.t) (w : Runtime)
    (sl bs : nat) (V S : Tensor scalar) :
  MultiHeadAttention.softmax m = Softmax.mk (-1) ->
  bad_probability (Dropout.p (MultiHeadAttention.dropout m)) = false ->
  valid_probability (Dropout.p (MultiHeadAttention.dropout m)) = false ->
  exists a,
    softmax (-1) S = Ok a /\ shape a = shape S /\
    MultiHeadAttention.forward_attend sl bs V S (MultiHeadAttention.mkHeap m w)
    = (Err RuntimeError,
       MultiHeadAttention.mkHeap m (logged "attn" a (ticked KSoftmax w))).
Proof.
  intros Hsm Hb Hv.
  destruct (softmax_last_ok S) as (a & Ea & Hsa).
  exists a. repeat split; try assumption.
  unfold MultiHeadAttention.forward_attend. mred.
  rewrite Hsm. cbn [Softmax.dim]. rewrite Ea. mred.
  rewrite (dropout_forward_invalid _ _ _ Hb Hv). reflexivity.
Qed.

(* ================================================================== *)
(** * [forward], up to the masking of the scores *)

Lemma prepare_mask_run (mask : Tensor number) (w : Runtime)
    (m0 m1 m2 Sq B dq Sk : nat) (rest krest : list nat) :
  shape mask = m0 :: m1 :: m2 :: rest ->
  MultiHeadAttention.prepare_mask mask [Sq; B; dq] (Sk :: krest) w
  = if ((m0 =? 1) || (m0 =? Sq)) && (m1 =? Sk) && ((m2 =? 1) || (m2 =? B))
    then (Ok (mkTensor (shape mask ++ [1]) (data mask)), ticked KUnsqueeze w)
    else (Err AssertionError, w).
Proof.
  intros Hm. unfold MultiHeadAttention.prepare_mask.
  rewrite unsqueeze_last, Hm.
  cbv beta iota zeta delta [bind ret lift op tick modify index assert
                            nth_error].
  destruct (m0 =? 1); destruct (m0 =? Sq); destruct (m1 =? Sk);
    destruct (m2 =? 1); destruct (m2 =? B); reflexivity.
Qed.

(** Without a mask, on inputs of the expected widths: the three
    projections and the score contraction succeed; the scores have one
    row of [Sk] entries per query position, batch item and head. *)
Lemma forward_scores_nomask (m : MultiHeadAttention.t) (w : Runtime)
    (d_model H D Sq B Sk Sv Bv : nat) (q k v : Tensor scalar) :
  constructed m d_model H D ->
  shape q = [Sq; B; d_model] -> shape k = [Sk; B; d_model] ->
  shape v = [Sv; Bv; d_model] ->
  exists V raw,
    shape V = [Sv; Bv; H; D] /\ shape raw = [Sq; B; H; Sk] /\
    MultiHeadAttention.forward_scores q k v None (MultiHeadAttention.mkHeap m w)
    = (Ok (Sq, B, V, mul_scalar raw (MultiHeadAttention.scale m)),
       MultiHeadAttention.mkHeap m (scored w)).
Proof.
  intros Hc Hq Hk Hv.
  destruct Hc as (_ & _ & _ & _ & Pq & Pk & Pv
                  & Hqn & Hqd & Hkn & Hkd & Hvn & Hvd & _).
  destruct (prepare_forward_ok _ _ q [Sq; B] w Pq Hq) as (fq & _ & Eq).
  destruct (prepare_forward_ok _ _ k [Sk; B] (ticked KView (ticked KLinear w))
              Pk Hk) as (fk & _ & Ek).
  destruct (prepare_forward_ok _ _ v [Sv; Bv]
              (ticked KView (ticked KLinear (ticked KView (ticked KLinear w))))
              Pv Hv) as (fv & _ & Ev).
  rewrite Hqn, Hqd, !Nat2Z.id in Eq.
  rewrite Hkn, Hkd, !Nat2Z.id in Ek.
  rewrite Hvn, Hvd, !Nat2Z.id in Ev.
  simpl app in Eq, Ek, Ev.
  set (Q := mkTensor [Sq; B; H; D] (table [Sq; B; H * D] fq)) in *.
  set (K := mkTensor [Sk; B; H; D] (table [Sk; B; H * D] fk)) in *.
  set (V := mkTensor [Sv; Bv; H; D] (table [Sv; Bv; H * D] fv)) in *.
  assert (Es : shape_of (einsum "ibhd,jbhd->ibhj" Q K) = Ok [Sq; B; H; Sk]).
  { rewrite (einsum_scores_shape Q K Sq B H D Sk B H D eq_refl eq_refl).
    now rewrite !merge_dim_same. }
  apply shape_of_Ok in Es. destruct Es as (raw & Eraw & Hraw).
  exists V, raw. split; [reflexivity|]. split; [exact Hraw|].
  unfold MultiHeadAttention.forward_scores. mred.
  rewrite Hq. cbv beta iota zeta delta [unpack3]. mred.
  rewrite Eq. mred. rewrite Ek. mred. rewrite Ev. mred.
  rewrite Eraw. mred. reflexivity.
Qed.

(* ================================================================== *)
(** * The aggregation step *)

(** Without a mask, the aggregation contraction receives weights of
    shape [(Sq, B, H, Sk)] under the letters [ijbh] and values of shape
    [(Sv, Bv, H, D)] under [jbhd]: it matches the batch axis of the
    weights with the sequence axis of the values, the head axis with
    the batch axis and the key axis with the head axis, and the call
    fails when one of these pairs does not agree. *)
Lemma forward_nomask_mismatched_axes (m : MultiHeadAttention.t) (w : Runtime)
    (d_model H D Sq B Sk Sv Bv : nat) (q k v : Tensor scalar) (e : exn) :
  constructed m d_model H D ->
  shape q = [Sq; B; d_model] -> shape k = [Sk; B; d_model] ->
  shape v = [Sv; Bv; d_model] ->
  res_bind (merge_dim B Sv) (fun _ =>
    res_bind (merge_dim H Bv) (fun b =>
    res_bind (merge_dim Sk H) (fun h => Ok [Sq; b; h; D]))) = Err e ->
  fst (MultiHeadAttention.forward q k v None (MultiHeadAttention.mkHeap m w))
  = Err e.
Proof.
  intros Hc Hq Hk Hv Hbad.
  destruct (forward_scores_nomask m w _ _ _ _ _ _ _ _ q k v Hc Hq Hk Hv)
    as (V & raw & HV & Hraw & Es).
  unfold MultiHeadAttention.forward. mred. rewrite Es. mred.
  destruct Hc as (_ & _ & _ & _ & _ & _ & _ & _ & _ & _ & _ & _ & _ & _
                  & Hsm & Hp & _).
  destruct (valid_probability (Dropout.p (MultiHeadAttention.dropout m)))
    eqn:Hvp; cycle 1.
  { destruct (forward_attend_invalid m (scored w) Sq B V
                (mul_scalar raw (MultiHeadAttention.scale m)) Hsm Hp Hvp)
      as (a & _ & _ & ->).
    cbn [fst]. f_equal. symmetry.
    destruct (merge_dim B Sv) eqn:E1;
      [|inversion Hbad; subst; eapply merge_dim_raises; eassumption].
    destruct (merge_dim H Bv) eqn:E2;
      [|inversion Hbad; subst; eapply merge_dim_raises; eassumption].
    destruct (merge_dim Sk H) eqn:E3;
      [discriminate|inversion Hbad; subst; eapply merge_dim_raises;
                    eassumption]. }
  destruct (forward_attend_unfold m (scored w) Sq B V
              (mul_scalar raw (MultiHeadAttention.scale m)) Hsm Hvp)
    as (a & a' & w1 & _ & _ & _ & Hsa' & _ & Ef).
  rewrite Ef.
  assert (Ee : shape_of (einsum "ijbh, jbhd->ibhd" a' V) = Err e).
  { rewrite (einsum_attend_shape a' V Sq B H Sk Sv Bv H D);
      [exact Hbad| |exact HV].
    rewrite Hsa'. exact Hraw. }
  apply shape_of_Err in Ee. rewrite Ee. reflexivity.
Qed.

(** C1, on the code.  A module built for 8 heads over [d_model = 512],
    called without a mask on a query of shape [(5, 2, 512)] and a key
    and value of shape [(7, 2, 512)], raises a [RuntimeError] in the
    aggregation contraction: the letters [ijbh] given to the weights of
    shape [(5, 2, 8, 7)] pair the batch size 2 with the 7 key positions
    of the value. *)
Theorem forward_fails_on_documented_shapes
    (gen : nat -> scalar) (p : scalar) (bias : bool) (pos pos' : nat)
    (m : MultiHeadAttention.t) (dq dk dv : list scalar) (w : Runtime) :
  MultiHeadAttention.init gen 8 512 p bias pos = (Ok m, pos') ->
  fst (MultiHeadAttention.forward
         (mkTensor [5; 2; 512] dq) (mkTensor [7; 2; 512] dk)
         (mkTensor [7; 2; 512] dv) None (MultiHeadAttention.mkHeap m w))
  = Err RuntimeError.
Proof.
  intros E. apply init_inv in E. destruct E as (_ & Hc & _).
  change (Z.to_nat 512) with 512 in Hc.
  change (Z.to_nat 8) with 8 in Hc.
  change (Z.to_nat (512 / 8)) with 64 in Hc.
  apply (forward_nomask_mismatched_axes m w 512 8 64 5 2 7 7 2
           (mkTensor [5; 2; 512] dq) (mkTensor [7; 2; 512] dk)
           (mkTensor [7; 2; 512] dv) RuntimeError Hc
           eq_refl eq_refl eq_refl).
  reflexivity.
Qed.

Lemma forward_fails_on_documented_shapes_witness :
  exists m pos',
    MultiHeadAttention.init (fun _ => Finite 0) 8 512 (Finite (1 / 10)) true 0
    = (Ok m, pos') /\
    fst (MultiHeadAttention.forward
           (mkTensor [5; 2; 512] (Examples.zeros (5 * 2 * 512)))
           (mkTensor [7; 2; 512] (Examples.zeros (7 * 2 * 512)))
           (mkTensor [7; 2; 512] (Examples.zeros (7 * 2 * 512)))
           None (MultiHeadAttention.mkHeap m Examples.fresh))
    = Err RuntimeError.
Proof.
  destruct (init_ok (fun _ => Finite 0) 8 512 (Finite (1 / 10)) true 0)
    as (m & pos' & E).
  - lia.
  - apply good_probability_finite. lra.
  - exists m, pos'. split; [exact E|].
    exact (forward_fails_on_documented_shapes _ _ _ _ _ _ _ _ _ _ E).
Defined.

(** When the three pairs of axes agree (or broadcast) and the dropout
    probability is one that the kernel accepts, the call returns
    provided the aggregated elements regroup into rows of [d_model]. *)
Lemma forward_nomask_ok (m : MultiHeadAttention.t) (w : Runtime)
    (d_model H D Sq B Sk Sv Bv j b h : nat) (q k v : Tensor scalar) :
  constructed m d_model H D ->
  valid_probability (Dropout.p (MultiHeadAttention.dropout m)) = true ->
  shape q = [Sq; B; d_model] -> shape k = [Sk; B; d_model] ->
  shape v = [Sv; Bv; d_model] ->
  merge_dim B Sv = Ok j -> merge_dim H Bv = Ok b -> merge_dim Sk H = Ok h ->
  0 < Sq * B -> (Sq * (b * (h * (D * 1)))) mod (Sq * B) = 0 ->
  (Sq * (b * (h * (D * 1)))) / (Sq * B) = d_model ->
  exists y,
    fst (MultiHeadAttention.forward q k v None (MultiHeadAttention.mkHeap m w))
    = Ok y /\ shape y = [Sq; B; d_model].
Proof.
  intros Hc Hvp Hq Hk Hv Hj Hb Hh Hpos Hmod Hdiv.
  destruct (forward_scores_nomask m w _ _ _ _ _ _ _ _ q k v Hc Hq Hk Hv)
    as (V & raw & HV & Hraw & Es).
  unfold MultiHeadAttention.forward. mred. rewrite Es. mred.
  destruct Hc as (_ & _ & _ & _ & _ & _ & _ & _ & _ & _ & _ & _ & _ & Ho
                  & Hsm & _).
  destruct (forward_attend_unfold m (scored w) Sq B V
              (mul_scalar raw (MultiHeadAttention.scale m)) Hsm Hvp)
    as (a & a' & w1 & _ & _ & _ & Hsa' & _ & Ef).
  rewrite Ef. clear Ef.
  assert (Ee : shape_of (einsum "ijbh, jbhd->ibhd" a' V) = Ok [Sq; b; h; D]).
  { rewrite (einsum_attend_shape a' V Sq B H Sk Sv Bv H D);
      [|rewrite Hsa'; exact Hraw|exact HV].
    now rewrite Hj, Hb, Hh. }
  apply shape_of_Ok in Ee. destruct Ee as (x & -> & Hx).
  cbv zeta. rewrite reshape_infer_last.
  unfold numel. rewrite Hx. cbn [prod_list fold_right].
  rewrite Hmod, Hdiv.
  destruct (Nat.ltb_spec 0 (Sq * B)); [|lia]. simpl.
  destruct Ho as (HW & Hbias).
  destruct (F_linear_ok (mkTensor [Sq; B; d_model] (data x)) _ _ [Sq; B]
              d_model d_model HW Hbias eq_refl) as (f & Ef).
  rewrite Ef. eexists. split; reflexivity.
Qed.


(* ================================================================== *)
(** * Shape errors *)

Lemma forward_scores_rejects_bad_mask
    (m : MultiHeadAttention.t) (w : Runtime)
    (q k v : Tensor scalar) (mask : Tensor number)
    (Sq B dq Sk m0 m1 m2 : nat) (krest rest : list nat) :
  shape q = [Sq; B; dq] -> shape k = Sk :: krest ->
  shape mask = m0 :: m1 :: m2 :: rest ->
  (m0 <> 1 /\ m0 <> Sq) \/ m1 <> Sk \/ (m2 <> 1 /\ m2 <> B) ->
  MultiHeadAttention.forward_scores q k v (Some mask)
    (MultiHeadAttention.mkHeap m w)
  = (Err AssertionError, MultiHeadAttention.mkHeap m w).
Proof.
  intros Hq Hk Hm Hbad.
  unfold MultiHeadAttention.forward_scores. mred.
  rewrite Hq, Hk. cbv beta iota zeta delta [unpack3]. mred.
  rewrite (prepare_mask_run mask w m0 m1 m2 Sq B dq Sk rest krest Hm).
  assert (Hf : ((m0 =? 1) || (m0 =? Sq)) && (m1 =? Sk)
               && ((m2 =? 1) || (m2 =? B)) = false).
  { destruct (Nat.eqb_spec m0 1); destruct (Nat.eqb_spec m0 Sq);
      destruct (Nat.eqb_spec m1 Sk); destruct (Nat.eqb_spec m2 1);
      destruct (Nat.eqb_spec m2 B); simpl; try reflexivity; exfalso; tauto. }
  rewrite Hf. reflexivity.
Qed.

Lemma forward_rejects_bad_mask (m : MultiHeadAttention.t) (w : Runtime)
    (q k v : Tensor scalar) (mask : Tensor number)
    (Sq B dq Sk m0 m1 m2 : nat) (krest rest : list nat) :
  shape q = [Sq; B; dq] -> shape k = Sk :: krest ->
  shape mask = m0 :: m1 :: m2 :: rest ->
  (m0 <> 1 /\ m0 <> Sq) \/ m1 <> Sk \/ (m2 <> 1 /\ m2 <> B) ->
  MultiHeadAttention.forward q k v (Some mask) (MultiHeadAttention.mkHeap m w)
  = (Err AssertionError, MultiHeadAttention.mkHeap m w).
Proof.
  intros Hq Hk Hm Hbad.
  unfold MultiHeadAttention.forward, MultiHeadAttention.forward_scores. mred.
  rewrite Hq, Hk. cbv beta iota zeta delta [unpack3]. mred.
  rewrite (prepare_mask_run mask w m0 m1 m2 Sq B dq Sk rest krest Hm).
  assert (Hf : ((m0 =? 1) || (m0 =? Sq)) && (m1 =? Sk)
               && ((m2 =? 1) || (m2 =? B)) = false).
  { destruct (Nat.eqb_spec m0 1); destruct (Nat.eqb_spec m0 Sq);
      destruct (Nat.eqb_spec m1 Sk); destruct (Nat.eqb_spec m2 1);
      destruct (Nat.eqb_spec m2 B); simpl; try reflexivity; exfalso; tauto. }
  rewrite Hf. reflexivity.
Qed.

Lemma F_linear_raises (x W : Tensor scalar) (b : option (Tensor scalar))
    (e : exn) :
  F_linear x W b = Err e -> e = RuntimeError.
Proof.
  unfold F_linear.
  destruct (shape W) as [|o [|i [|? ?]]]; try (intros E; now inversion E).
  destruct (rev (shape x)) as [|k rest]; try (intros E; now inversion E).
  destruct (negb (k =? i)); try (intros E; now inversion E).
  destruct b as [bb|]; [|discriminate].
  destruct (shape bb) as [|o' [|? ?]]; try (intros E; now inversion E).
  destruct (o' =? o); [discriminate|intros E; now inversion E].
Qed.

Lemma infer_size_raises (dims : list Z) (n : nat) (e : exn) :
  infer_size dims n = Err e -> e = RuntimeError.
Proof.
  unfold infer_size.
  destruct (existsb (fun d => (d <? -1)%Z) dims); [intros E; now inversion E|].
  destruct (count_infer dims) as [|[|c]].
  - destruct (Z.of_nat n =? known_size dims)%Z;
      [discriminate|intros E; now inversion E].
  - destruct ((0 <? known_size dims)%Z
              && (Z.of_nat n mod known_size dims =? 0)%Z);
      [discriminate|intros E; now inversion E].
  - intros E; now inversion E.
Qed.

(** The projection head raises nothing but [RuntimeError], and returns
    only on inputs of the width of its linear map. *)
Lemma prepare_forward_raises (self : PrepareForMultiHeadAttention.t)
    (x : Tensor scalar) (w w' : Runtime) (e : exn) :
  PrepareForMultiHeadAttention.forward self x w = (Err e, w') ->
  e = RuntimeError.
Proof.
  unfold PrepareForMultiHeadAttention.forward, Linear.forward. mred.
  destruct (F_linear x
              (Linear.weight (PrepareForMultiHeadAttention.linear self))
              (Linear.bias (PrepareForMultiHeadAttention.linear self)))
    as [y|e0] eqn:Ey.
  - unfold view. destruct (infer_size _ (numel y)) as [sh|e1] eqn:Es; simpl.
    + discriminate.
    + intros E. inversion E; subst. exact (infer_size_raises _ _ _ Es).
  - intros E. inversion E; subst. exact (F_linear_raises _ _ _ _ Ey).
Qed.

Lemma prepare_forward_width (self : PrepareForMultiHeadAttention.t)
    (d_model : nat) (x y : Tensor scalar) (pre : list nat) (k : nat)
    (w w' : Runtime) :
  prepared self d_model -> shape x = pre ++ [k] ->
  PrepareForMultiHeadAttention.forward self x w = (Ok y, w') ->
  k = d_model.
Proof.
  intros Hp Hx E. destruct (Nat.eq_dec k d_model) as [|Hk]; [assumption|].
  rewrite (prepare_forward_width_mismatch _ d_model x pre k w Hp Hx Hk) in E.
  discriminate.
Qed.

(** A trailing width other than [d_model] makes the projection of that
    input raise; for the key this happens after the query has been
    projected, for the value after the key has. *)
Lemma forward_rejects_bad_width (m : MultiHeadAttention.t) (w : Runtime)
    (q k v : Tensor scalar) (mask : option (Tensor number))
    (d_model H D Sq B dq dk dv : nat) (pk pv : list nat) :
  constructed m d_model H D ->
  shape q = [Sq; B; dq] -> shape k = pk ++ [dk] -> shape v = pv ++ [dv] ->
  dq <> d_model \/ dk <> d_model \/ dv <> d_model ->
  exists e,
    fst (MultiHeadAttention.forward q k v mask (MultiHeadAttention.mkHeap m w))
    = Err e /\ (mask = None -> e = RuntimeError).
Proof.
  intros Hc Hq Hk Hv Hbad.
  destruct Hc as (_ & _ & _ & _ & Pq & Pk & Pv & _).
  unfold MultiHeadAttention.forward, MultiHeadAttention.forward_scores. mred.
  rewrite Hq. cbv beta iota zeta delta [unpack3]. mred.
  assert (Hstart : forall w0, exists e,
            fst (let (r, w1) := PrepareForMultiHeadAttention.forward
                                  (MultiHeadAttention.query m) q w0 in
                 match r with
                 | Ok Q =>
                     let (r0, w2) := PrepareForMultiHeadAttention.forward
                                       (MultiHeadAttention.key m) k w1 in
                     match r0 with
                     | Ok K =>
                         let (r1, w3) :=
                           PrepareForMultiHeadAttention.forward
                             (MultiHeadAttention.value m) v w2 in
                         match r1 with
                         | Ok _ => (Ok tt, w3)
                         | Err e => (Err e, w3)
                         end
                     | Err e => (Err e, w2)
                     end
                 | Err e => (Err e, w1)
                 end) = Err e /\ e = RuntimeError).
  { intros w0.
    destruct (PrepareForMultiHeadAttention.forward
                (MultiHeadAttention.query m) q w0) as [[Q|e1] w1] eqn:EQ.
    2:{ exists e1. split; [reflexivity|].
        exact (prepare_forward_raises _ _ _ _ _ EQ). }
    destruct (PrepareForMultiHeadAttention.forward
                (MultiHeadAttention.key m) k w1) as [[K|e2] w2] eqn:EK.
    2:{ exists e2. split; [reflexivity|].
        exact (prepare_forward_raises _ _ _ _ _ EK). }
    destruct (PrepareForMultiHeadAttention.forward
                (MultiHeadAttention.value m) v w2) as [[V|e3] w3] eqn:EV.
    2:{ exists e3. split; [reflexivity|].
        exact (prepare_forward_raises _ _ _ _ _ EV). }
    exfalso.
    pose proof (prepare_forward_width _ _ _ _ [Sq; B] _ _ _ Pq Hq EQ).
    pose proof (prepare_forward_width _ _ _ _ _ _ _ _ Pk Hk EK).
    pose proof (prepare_forward_width _ _ _ _ _ _ _ _ Pv Hv EV).
    tauto. }
  destruct mask as [mk0|]; mred.
  - destruct (MultiHeadAttention.prepare_mask mk0 [Sq; B; dq] (shape k) w)
      as [[mk1|e] w0]; mred.
    + destruct (Hstart w0) as (e & He & _).
      exists e. split; [|discriminate]. revert He. crunch; congruence.
    + eexists. split; [reflexivity|discriminate].
  - destruct (Hstart w) as (e & He & ->).
    exists RuntimeError. split; [|reflexivity]. revert He.
    crunch; congruence.
Qed.

(** With a mask that passes the assertions, [forward] computes the
    scaled scores exactly as without a mask and then fills them where
    [mask == 0]. *)
Lemma forward_scores_masked (m : MultiHeadAttention.t) (w : Runtime)
    (q k v : Tensor scalar) (mask : Tensor number)
    (Sq B dq Sk m0 m1 m2 : nat) (krest rest : list nat) :
  shape q = [Sq; B; dq] -> shape k = Sk :: krest ->
  shape mask = m0 :: m1 :: m2 :: rest ->
  (m0 = 1 \/ m0 = Sq) -> m1 = Sk -> (m2 = 1 \/ m2 = B) ->
  MultiHeadAttention.forward_scores q k v (Some mask)
    (MultiHeadAttention.mkHeap m w)
  = match MultiHeadAttention.forward_scores q k v None
            (MultiHeadAttention.mkHeap m (ticked KUnsqueeze w)) with
    | (Ok (sl, bs, V, S0), h1) =>
        match masked_fill S0
                (eq_zero (mkTensor (shape mask ++ [1]) (data mask))) NInf with
        | Ok filled =>
            (Ok (sl, bs, V, filled),
             MultiHeadAttention.mkHeap (MultiHeadAttention.self h1)
               (ticked KMaskedFill
                  (ticked KEq (MultiHeadAttention.runtime h1))))
        | Err e =>
            (Err e,
             MultiHeadAttention.mkHeap (MultiHeadAttention.self h1)
               (ticked KEq (MultiHeadAttention.runtime h1)))
        end
    | (Err e, h1) => (Err e, h1)
    end.
Proof.
  intros Hq Hk Hm H0 H1 H2.
  unfold MultiHeadAttention.forward_scores. mred.
  rewrite Hq, Hk. cbv beta iota zeta delta [unpack3]. mred.
  rewrite (prepare_mask_run mask w m0 m1 m2 Sq B dq Sk rest krest Hm).
  assert (Hf : ((m0 =? 1) || (m0 =? Sq)) && (m1 =? Sk)
               && ((m2 =? 1) || (m2 =? B)) = true).
  { destruct (Nat.eqb_spec m0 1); destruct (Nat.eqb_spec m0 Sq);
      destruct (Nat.eqb_spec m1 Sk); destruct (Nat.eqb_spec m2 1);
      destruct (Nat.eqb_spec m2 B); simpl; try reflexivity; exfalso; lia. }
  rewrite Hf. mred.
  destruct (PrepareForMultiHeadAttention.forward
              (MultiHeadAttention.query m) q (ticked KUnsqueeze w))
    as [[Q|e1] w1]; mred; [|reflexivity].
  destruct (PrepareForMultiHeadAttention.forward
              (MultiHeadAttention.key m) k w1) as [[K|e2] w2];
    mred; [|reflexivity].
  destruct (PrepareForMultiHeadAttention.forward
              (MultiHeadAttention.value m) v w2) as [[V|e3] w3];
    mred; [|reflexivity].
  destruct (einsum "ibhd,jbhd->ibhj" Q K) as [raw|e4]; mred; [|reflexivity].
  destruct (masked_fill (mul_scalar raw (MultiHeadAttention.scale m))
              (eq_zero (mkTensor (shape mask ++ [1]) (data mask))) NInf)
    as [S|e5]; reflexivity.
Qed.

(** The first half of a call without a mask on an input of the wrong
    width: the projection of that input raises, after the projections
    before it have run. *)
Lemma forward_scores_width_errors (m : MultiHeadAttention.t) (w : Runtime)
    (q k v : Tensor scalar) (d_model H D Sq B dq dk dv : nat)
    (pk pv : list nat) :
  constructed m d_model H D ->
  shape q = [Sq; B; dq] -> shape k = pk ++ [dk] -> shape v = pv ++ [dv] ->
  (dq <> d_model ->
   MultiHeadAttention.forward_scores q k v None (MultiHeadAttention.mkHeap m w)
   = (Err RuntimeError, MultiHeadAttention.mkHeap m w)) /\
  (dq = d_model -> dk <> d_model ->
   MultiHeadAttention.forward_scores q k v None (MultiHeadAttention.mkHeap m w)
   = (Err RuntimeError,
      MultiHeadAttention.mkHeap m (ticked KView (ticked KLinear w)))) /\
  (dq = d_model -> dk = d_model -> dv <> d_model ->
   MultiHeadAttention.forward_scores q k v None (MultiHeadAttention.mkHeap m w)
   = (Err RuntimeError,
      MultiHeadAttention.mkHeap m
        (ticked KView (ticked KLinear (ticked KView (ticked KLinear w)))))).
Proof.
  intros Hc Hq Hk Hv.
  destruct Hc as (_ & _ & _ & _ & Pq & Pk & Pv & _).
  unfold MultiHeadAttention.forward_scores. mred.
  rewrite Hq. cbv beta iota zeta delta [unpack3]. mred.
  split; [|split].
  - intros Hdq.
    rewrite (prepare_forward_width_mismatch _ d_model q [Sq; B] dq _ Pq Hq Hdq).
    reflexivity.
  - intros -> Hdk.
    destruct (prepare_forward_ok _ _ q [Sq; B] w Pq Hq) as (fq & _ & ->).
    mred.
    rewrite (prepare_forward_width_mismatch _ d_model k pk dk _ Pk Hk Hdk).
    reflexivity.
  - intros -> -> Hdv.
    destruct (prepare_forward_ok _ _ q [Sq; B] w Pq Hq) as (fq & _ & ->).
    mred.
    destruct (prepare_forward_ok _ _ k pk (ticked KView (ticked KLinear w))
                Pk Hk) as (fk & _ & ->).
    mred.
    rewrite (prepare_forward_width_mismatch _ d_model v pv dv _ Pv Hv Hdv).
    reflexivity.
Qed.

(** A failure of the first half is the failure of the call. *)
Lemma forward_scores_err (m : MultiHeadAttention.t) (w : Runtime)
    (q k v : Tensor scalar) (mask : option (Tensor number)) (e : exn)
    (h : MultiHeadAttention.Heap) :
  MultiHeadAttention.forward_scores q k v mask (MultiHeadAttention.mkHeap m w)
  = (Err e, h) ->
  MultiHeadAttention.forward q k v mask (MultiHeadAttention.mkHeap m w)
  = (Err e, h).
Proof.
  intros E. unfold MultiHeadAttention.forward. mred. now rewrite E.
Qed.

Lemma forward_rejects_bad_key_width (m : MultiHeadAttention.t) (w : Runtime)
    (q k v : Tensor scalar) (d_model H D Sq B dk : nat) (pk : list nat) :
  constructed m d_model H D ->
  shape q = [Sq; B; d_model] -> shape k = pk ++ [dk] -> dk <> d_model ->
  MultiHeadAttention.forward q k v None (MultiHeadAttention.mkHeap m w)
  = (Err RuntimeError,
     MultiHeadAttention.mkHeap m (ticked KView (ticked KLinear w))).
Proof.
  intros Hc Hq Hk Hdk.
  destruct Hc as (_ & _ & _ & _ & Pq & Pk & _).
  unfold MultiHeadAttention.forward, MultiHeadAttention.forward_scores. mred.
  rewrite Hq. cbv beta iota zeta delta [unpack3]. mred.
  destruct (prepare_forward_ok _ _ q [Sq; B] w Pq Hq) as (fq & _ & ->).
  mred.
  rewrite (prepare_forward_width_mismatch _ d_model k pk dk _ Pk Hk Hdk).
  reflexivity.
Qed.

(** With a mask that passes its checks, a failure of the projections
    is the failure they have without a mask, after the [unsqueeze] of
    the mask. *)
Lemma forward_scores_accepted_err (m : MultiHeadAttention.t) (w : Runtime)
    (q k v : Tensor scalar) (mask : option (Tensor number))
    (Sq B dq : nat) (e : exn) (w' : Runtime) :
  shape q = [Sq; B; dq] -> mask_accepted mask Sq B (shape k) ->
  MultiHeadAttention.forward_scores q k v None
    (MultiHeadAttention.mkHeap m (after_mask mask w))
  = (Err e, MultiHeadAttention.mkHeap m w') ->
  MultiHeadAttention.forward q k v mask (MultiHeadAttention.mkHeap m w)
  = (Err e, MultiHeadAttention.mkHeap m w').
Proof.
  intros Hq Hacc E. apply forward_scores_err.
  destruct mask as [mk|]; [|exact E].
  destruct Hacc as (m0 & m1 & m2 & rest & Sk & krest & Hm & Hk & H0 & H1 & H2).
  rewrite (forward_scores_masked m w q k v mk Sq B dq Sk m0 m1 m2 krest rest
             Hq Hk Hm H0 H1 H2).
  cbn [after_mask] in E. now rewrite E.
Qed.

(** C2, as the code has it.  (1) A mask whose first size is neither 1
    nor [Sq], whose second size is not [Sk], or whose third size is
    neither 1 nor [B] makes the call raise an [AssertionError] before
    any tensor kernel has run; module, tracker and random generator are
    as before the call.  (2) Without a mask, or with a mask that passes
    these checks (its [unsqueeze] has then run), an input whose trailing
    width is not [d_model] makes the call raise a [RuntimeError] in the
    projection of that input, leaving the module as it was: for the
    query before any projection has run, for the key after the
    projection of the query (a linear map and a view), for the value
    after the projections of query and key.  (3) Whatever the mask, an
    input of the wrong width makes the call raise. *)
Theorem shape_errors_detected :
  (forall (m : MultiHeadAttention.t) (w : Runtime) (q k v : Tensor scalar)
          (mask : Tensor number) (Sq B dq Sk m0 m1 m2 : nat)
          (krest rest : list nat),
      shape q = [Sq; B; dq] -> shape k = Sk :: krest ->
      shape mask = m0 :: m1 :: m2 :: rest ->
      (m0 <> 1 /\ m0 <> Sq) \/ m1 <> Sk \/ (m2 <> 1 /\ m2 <> B) ->
      MultiHeadAttention.forward q k v (Some mask)
        (MultiHeadAttention.mkHeap m w)
      = (Err AssertionError, MultiHeadAttention.mkHeap m w))
  /\
  (forall (m : MultiHeadAttention.t) (w : Runtime) (q k v : Tensor scalar)
          (mask : option (Tensor number)) (d_model H D Sq B dq dk dv : nat)
          (pk pv : list nat),
      constructed m d_model H D ->
      shape q = [Sq; B; dq] -> shape k = pk ++ [dk] -> shape v = pv ++ [dv] ->
      mask_accepted mask Sq B (shape k) ->
      let r := MultiHeadAttention.forward q k v mask
                 (MultiHeadAttention.mkHeap m w) in
      let w0 := after_mask mask w in
      let projected := fun w1 => ticked KView (ticked KLinear w1) in
      (dq <> d_model ->
       r = (Err RuntimeError, MultiHeadAttention.mkHeap m w0)) /\
      (dq = d_model -> dk <> d_model ->
       r = (Err RuntimeError, MultiHeadAttention.mkHeap m (projected w0))) /\
      (dq = d_model -> dk = d_model -> dv <> d_model ->
       r = (Err RuntimeError,
            MultiHeadAttention.mkHeap m (projected (projected w0)))))
  /\
  (forall (m : MultiHeadAttention.t) (w : Runtime) (q k v : Tensor scalar)
          (mask : option (Tensor number)) (d_model H D Sq B dq dk dv : nat)
          (pk pv : list nat),
      constructed m d_model H D ->
      shape q = [Sq; B; dq] -> shape k = pk ++ [dk] -> shape v = pv ++ [dv] ->
      dq <> d_model \/ dk <> d_model \/ dv <> d_model ->
      exists e,
        fst (MultiHeadAttention.forward q k v mask
               (MultiHeadAttention.mkHeap m w)) = Err e /\
        (mask = None -> e = RuntimeError)).
Proof.
  split; [|split].
  - exact forward_rejects_bad_mask.
  - intros m w q k v mask d_model H D Sq B dq dk dv pk pv Hc Hq Hk Hv Hacc
      r w0 projected.
    destruct (forward_scores_width_errors m w0 q k v d_model H D Sq B
                dq dk dv pk pv Hc Hq Hk Hv) as (Eq & Ek & Ev).
    unfold r, projected.
    split; [|split].
    + intros Hdq.
      exact (forward_scores_accepted_err m w q k v mask Sq B dq _ _
               Hq Hacc (Eq Hdq)).
    + intros Hdq Hdk.
      exact (forward_scores_accepted_err m w q k v mask Sq B dq _ _
               Hq Hacc (Ek Hdq Hdk)).
    + intros Hdq Hdk Hdv.
      exact (forward_scores_accepted_err m w q k v mask Sq B dq _ _
               Hq Hacc (Ev Hdq Hdk Hdv)).
  - exact forward_rejects_bad_width.
Qed.

(* ================================================================== *)
(** * Broadcasting and [masked_fill] *)

Lemma Forall2_rev_both {A B} (P : A -> B -> Prop) (l : list A) (l' : list B) :
  Forall2 P l l' -> Forall2 P (rev l) (rev l').
Proof.
  induction 1 as [|x y l l' Hxy _ IH]; simpl; [constructor|].
  apply Forall2_app; [exact IH|]. constructor; [exact Hxy|constructor].
Qed.

(** A position of the broadcast shape is read inside each operand. *)
Lemma broadcast_index_rev_in_range (a b r ri : list nat) :
  broadcast_rev a b = Ok r -> Forall2 lt ri r ->
  Forall2 lt (broadcast_index_rev a ri) a /\
  Forall2 lt (broadcast_index_rev b ri) b.
Proof.
  revert b r ri. induction a as [|x a IH]; intros b r ri Hb Hri.
  - simpl in Hb. inversion Hb; subst. split; [constructor|].
    clear Hb. induction Hri as [|i d ri r Hid _ IHr]; simpl; [constructor|].
    constructor; [|exact IHr]. destruct (Nat.eqb_spec d 1); lia.
  - destruct b as [|y b].
    + simpl in Hb. inversion Hb; subst. split.
      * clear Hb IH.
        induction Hri as [|i d ri r Hid _ IHr]; simpl; [constructor|].
        constructor; [|exact IHr]. destruct (Nat.eqb_spec d 1); lia.
      * destruct ri; constructor.
    + simpl in Hb.
      destruct (broadcast_rev a b) as [r'|e] eqn:E; [|discriminate].
      assert (Hr : exists z, r = z :: r' /\
                             (x = z \/ x = 1) /\ (y = z \/ y = 1)).
      { destruct (Nat.eqb_spec x y).
        - inversion Hb; subst. exists y. auto.
        - destruct (Nat.eqb_spec x 1).
          + inversion Hb; subst. exists y. auto.
          + destruct (Nat.eqb_spec y 1); [|discriminate].
            inversion Hb; subst. exists x. auto. }
      destruct Hr as (z & -> & Hx & Hy).
      inversion Hri as [|i z' ri' r'' Hiz Hrest]; subst.
      destruct (IH b r' ri' E Hrest) as (Ha' & Hb').
      simpl. split.
      * constructor; [|exact Ha']. destruct (Nat.eqb_spec x 1); lia.
      * constructor; [|exact Hb']. destruct (Nat.eqb_spec y 1); lia.
Qed.

Lemma broadcast_index_in_range (a b s idx : list nat) :
  broadcast_shapes a b = Ok s -> in_range s idx ->
  in_range a (broadcast_index a idx) /\ in_range b (broadcast_index b idx).
Proof.
  unfold broadcast_shapes, in_range, broadcast_index. intros Hs Hidx.
  destruct (broadcast_rev (rev a) (rev b)) as [r|e] eqn:E; [|discriminate].
  simpl in Hs. inversion Hs; subst. clear Hs.
  apply Forall2_rev_both in Hidx. rewrite rev_involutive in Hidx.
  destruct (broadcast_index_rev_in_range _ _ _ _ E Hidx) as (Ha & Hb).
  apply Forall2_rev_both in Ha, Hb.
  rewrite rev_involutive in Ha, Hb. auto.
Qed.

Lemma masked_fill_elem (t r : Tensor scalar) (mask : Tensor bool)
    (v : scalar) (idx : list nat) :
  masked_fill t mask v = Ok r -> in_range (shape r) idx ->
  elem r idx
  = if get false mask (broadcast_index (shape mask) idx) then v
    else elem t (broadcast_index (shape t) idx).
Proof.
  unfold masked_fill.
  destruct (broadcast_shapes (shape t) (shape mask)) as [sh|e]; [|discriminate].
  simpl. intros E Hidx. inversion E; subst. clear E.
  unfold elem at 1. now rewrite get_tabulate.
Qed.

Lemma masked_fill_shape (t r : Tensor scalar) (mask : Tensor bool)
    (v : scalar) :
  masked_fill t mask v = Ok r ->
  broadcast_shapes (shape t) (shape mask) = Ok (shape r).
Proof.
  unfold masked_fill.
  destruct (broadcast_shapes (shape t) (shape mask)) as [sh|e]; [|discriminate].
  simpl. intros E. inversion E. reflexivity.
Qed.

(** Inside a well-formed mask, [mask == 0] holds the test of the entry. *)
Lemma eq_zero_get (mask : Tensor number) (idx : list nat) :
  wf mask -> in_range (shape mask) idx ->
  get false (eq_zero mask) idx = is_zero (get (Int 0) mask idx).
Proof.
  intros Hwf Hidx. unfold get, eq_zero, tensor_map. simpl.
  rewrite (nth_indep _ false (is_zero (Int 0))).
  - now rewrite (map_nth is_zero).
  - rewrite length_map, Hwf. now apply ravel_lt.
Qed.

(* ================================================================== *)
(** * [forward] with a mask *)

Lemma wf_unsqueezed (mask : Tensor number) :
  wf mask -> wf (mkTensor (shape mask ++ [1]) (data mask)).
Proof.
  unfold wf, numel. simpl. intros H. rewrite prod_list_app. simpl. lia.
Qed.

(** The scores under a mask, position by position. *)
Lemma masked_scores_spec
    (m : MultiHeadAttention.t) (w : Runtime)
    (q k v : Tensor scalar) (mask : Tensor number)
    (Sq B dq Sk m0 m1 m2 : nat) (krest rest : list nat)
    (sl bs : nat) (V S : Tensor scalar) (h1 : MultiHeadAttention.Heap) :
  shape q = [Sq; B; dq] -> shape k = Sk :: krest ->
  shape mask = m0 :: m1 :: m2 :: rest -> wf mask ->
  MultiHeadAttention.forward_scores q k v (Some mask)
    (MultiHeadAttention.mkHeap m w) = (Ok (sl, bs, V, S), h1) ->
  let mask4 := mkTensor (shape mask ++ [1]) (data mask) in
  exists S0 h0,
    MultiHeadAttention.forward_scores q k v None
      (MultiHeadAttention.mkHeap m (ticked KUnsqueeze w))
    = (Ok (sl, bs, V, S0), h0) /\
    broadcast_shapes (shape S0) (shape mask4) = Ok (shape S) /\
    forall idx, in_range (shape S) idx ->
      elem S idx
      = if is_zero (get (Int 0) mask4 (broadcast_index (shape mask4) idx))
        then NInf
        else elem S0 (broadcast_index (shape S0) idx).
Proof.
  intros Hq Hk Hm Hwf E mask4.
  assert (Hvalid : (m0 = 1 \/ m0 = Sq) /\ m1 = Sk /\ (m2 = 1 \/ m2 = B)).
  { destruct (Nat.eq_dec m0 1); destruct (Nat.eq_dec m0 Sq);
      destruct (Nat.eq_dec m1 Sk); destruct (Nat.eq_dec m2 1);
      destruct (Nat.eq_dec m2 B); try tauto; exfalso;
      (assert (Hbad : (m0 <> 1 /\ m0 <> Sq) \/ m1 <> Sk
                      \/ (m2 <> 1 /\ m2 <> B)) by tauto;
       rewrite (forward_scores_rejects_bad_mask m w q k v mask Sq B dq Sk
                  m0 m1 m2 krest rest Hq Hk Hm Hbad) in E;
       discriminate). }
  destruct Hvalid as (H0 & H1 & H2).
  rewrite (forward_scores_masked m w q k v mask Sq B dq Sk m0 m1 m2
             krest rest Hq Hk Hm H0 H1 H2) in E.
  fold mask4 in E.
  destruct (MultiHeadAttention.forward_scores q k v None
              (MultiHeadAttention.mkHeap m (ticked KUnsqueeze w)))
    as [[[[[sl0 bs0] V0] S0]|e] h0]; [|discriminate].
  destruct (masked_fill S0 (eq_zero mask4) NInf) as [S'|e] eqn:Ef;
    [|discriminate].
  inversion E; subst. clear E.
  exists S0, h0. split; [reflexivity|].
  pose proof (masked_fill_shape _ _ _ _ Ef) as Hsh. simpl in Hsh.
  split; [exact Hsh|].
  intros idx Hidx.
  rewrite (masked_fill_elem _ _ _ _ _ Ef Hidx).
  destruct (broadcast_index_in_range _ _ _ _ Hsh Hidx) as (_ & Hin).
  simpl shape.
  now rewrite (eq_zero_get mask4 _ (wf_unsqueezed mask Hwf) Hin).
Qed.

(* ================================================================== *)
(** * What [forward] records *)

(** The first half of [forward] leaves the module as it is. *)
Lemma forward_scores_self (m : MultiHeadAttention.t) (w : Runtime)
    (q k v : Tensor scalar) (mask : option (Tensor number)) :
  MultiHeadAttention.self
    (snd (MultiHeadAttention.forward_scores q k v mask
            (MultiHeadAttention.mkHeap m w))) = m.
Proof.
  unfold MultiHeadAttention.forward_scores. crunch; reflexivity.
Qed.

(** Once the scores are there, the call records their softmax in the
    tracker, whatever happens afterwards. *)
Lemma forward_records_weights (m : MultiHeadAttention.t) (w : Runtime)
    (q k v : Tensor scalar) (mask : option (Tensor number))
    (sl bs : nat) (V S : Tensor scalar) (h1 : MultiHeadAttention.Heap) :
  MultiHeadAttention.softmax m = Softmax.mk (-1) ->
  bad_probability (Dropout.p (MultiHeadAttention.dropout m)) = false ->
  MultiHeadAttention.forward_scores q k v mask (MultiHeadAttention.mkHeap m w)
  = (Ok (sl, bs, V, S), h1) ->
  exists a,
    softmax (-1) S = Ok a /\ shape a = shape S /\
    tracker (MultiHeadAttention.runtime
               (snd (MultiHeadAttention.forward q k v mask
                       (MultiHeadAttention.mkHeap m w))))
    = tracker (MultiHeadAttention.runtime h1) ++ [("attn"%string, a)].
Proof.
  intros Hsm Hp E.
  pose proof (forward_scores_self m w q k v mask) as Hself.
  rewrite E in Hself. simpl in Hself.
  destruct h1 as [m1 w1]. simpl in Hself. subst m1.
  unfold MultiHeadAttention.forward. mred. rewrite E. mred.
  destruct (valid_probability (Dropout.p (MultiHeadAttention.dropout m)))
    eqn:Hvp; cycle 1.
  { destruct (forward_attend_invalid m w1 sl bs V S Hsm Hp Hvp)
      as (a & Ea & Hsa & ->).
    exists a. split; [exact Ea|]. split; [exact Hsa|reflexivity]. }
  destruct (forward_attend_unfold m w1 sl bs V S Hsm Hvp)
    as (a & a' & w2 & Ea & Hsa & _ & _ & Htr & Ef).
  exists a. split; [exact Ea|]. split; [exact Hsa|].
  rewrite Ef.
  destruct (einsum "ijbh, jbhd->ibhd" a' V) as [x|e]; [|exact Htr].
  cbv zeta.
  destruct (reshape x [Z.of_nat sl; Z.of_nat bs; (-1)%Z]) as [x'|e];
    [|exact Htr].
  destruct (F_linear x' (Linear.weight (MultiHeadAttention.output m))
              (Linear.bias (MultiHeadAttention.output m))) as [y|e];
    exact Htr.
Qed.

Lemma map_nth_all {A} (l : list A) (d : A) :
  map (fun j => nth j l d) (seq 0 (List.length l)) = l.
Proof.
  apply (nth_ext _ _ d d).
  - now rewrite length_map, length_seq.
  - intros n Hn. rewrite length_map, length_seq in Hn.
    rewrite (nth_indep _ d (nth 0 l d))
      by (now rewrite length_map, length_seq).
    rewrite (map_nth (fun j => nth j l d)).
    now rewrite seq_nth.
Qed.

(** The weights at a position of the leading axes, as a row. *)
Lemma softmax_last_row (S a : Tensor scalar) (pre ipre : list nat) (n : nat) :
  shape S = pre ++ [n] -> softmax (-1) S = Ok a -> in_range pre ipre ->
  map (fun j => elem a (ipre ++ [j])) (seq 0 n)
  = softmax_row (map (fun j => elem S (ipre ++ [j])) (seq 0 n)).
Proof.
  intros HS Ha Hpre.
  set (row := map (fun j => elem S (ipre ++ [j])) (seq 0 n)).
  assert (Hlen : List.length (softmax_row row) = n)
    by (unfold row; now rewrite softmax_row_length, length_map, length_seq).
  rewrite <- (map_nth_all (softmax_row row) NaN) at 1. rewrite Hlen.
  apply map_ext_in. intros j Hj. apply in_seq in Hj.
  apply (softmax_last_elem S a pre ipre n j HS Ha Hpre). lia.
Qed.

(* ================================================================== *)
(** * Zero inputs give zero scores *)

Lemma elem_zero (t : Tensor scalar) (idx : list nat) :
  all_zero t -> elem t idx = Finite 0.
Proof.
  intros H. unfold elem, get.
  destruct (nth_in_or_default (ravel (shape t) idx) (data t) (Finite 0))
    as [Hin|E]; [|exact E].
  unfold all_zero in H. rewrite Forall_forall in H. now apply H.
Qed.

Lemma add_zero : scalar_add (Finite 0) (Finite 0) = Finite 0.
Proof. simpl. rewrite Rplus_0_l. apply overflow_0. Qed.

Lemma mul_zero (c : R) : scalar_mul (Finite 0) (Finite c) = Finite 0.
Proof. simpl. rewrite Rmult_0_l. apply overflow_0. Qed.

Lemma sum_zero (l : list scalar) :
  Forall (fun x => x = Finite 0) l -> scalar_sum l = Finite 0.
Proof.
  unfold scalar_sum.
  induction 1 as [|x l Hx _ IH]; cbn [fold_right]; [reflexivity|].
  rewrite Hx, IH. apply add_zero.
Qed.

Lemma tabulate_zero (sh : list nat) (f : list nat -> scalar) :
  (forall idx, f idx = Finite 0) -> all_zero (tabulate sh f).
Proof.
  intros H. unfold all_zero, tabulate, table. simpl.
  apply Forall_map. apply Forall_forall. intros idx _. apply H.
Qed.

Lemma dot_zero {A} (l : list A) (f g : A -> scalar) :
  (forall a, f a = Finite 0) -> (forall a, g a = Finite 0) ->
  scalar_sum (map (fun a => scalar_mul (f a) (g a)) l) = Finite 0.
Proof.
  intros Hf Hg. apply sum_zero. apply Forall_map. apply Forall_forall.
  intros a _. rewrite Hf, Hg. apply mul_zero.
Qed.

Lemma F_linear_zero (x W y : Tensor scalar) (b : option (Tensor scalar)) :
  F_linear x W b = Ok y ->
  all_zero x -> all_zero W ->
  match b with Some bb => all_zero bb | None => True end ->
  all_zero y.
Proof.
  unfold F_linear. intros E Hx HW Hb.
  destruct (shape W) as [|o [|i [|? ?]]]; try discriminate.
  destruct (rev (shape x)) as [|k rest]; try discriminate.
  destruct (negb (k =? i)); try discriminate.
  destruct b as [bb|].
  - destruct (shape bb) as [|o' [|? ?]]; try discriminate.
    destruct (o' =? o); try discriminate.
    inversion E; subst. apply tabulate_zero. intros idx.
    rewrite dot_zero by (intros j; now apply elem_zero).
    rewrite (elem_zero bb) by assumption. apply add_zero.
  - inversion E; subst. apply tabulate_zero. intros idx.
    apply dot_zero; intros j; now apply elem_zero.
Qed.

Lemma einsum_zero (equation : string) (a b r : Tensor scalar) :
  einsum equation a b = Ok r -> all_zero a -> all_zero b -> all_zero r.
Proof.
  unfold einsum. intros E Ha Hb.
  destruct (parse_equation equation) as [[[la lb] lo]|]; [|discriminate].
  destruct (operand_sizes la (shape a) []) as [ea|?]; [|discriminate].
  destruct (operand_sizes lb (shape b) []) as [eb|?]; [|discriminate].
  simpl in E.
  destruct (merge_sizes ea eb) as [e|?]; [|discriminate].
  simpl in E.
  destruct (distinct lo
            && forallb (fun c => existsb (Ascii.eqb c) (map fst e)) lo);
    [|discriminate].
  inversion E; subst. apply tabulate_zero. intros oidx.
  apply dot_zero; intros sidx; now apply elem_zero.
Qed.

Lemma mul_scalar_zero (t : Tensor scalar) (c : R) :
  all_zero t -> all_zero (mul_scalar t (Finite c)).
Proof.
  unfold all_zero, mul_scalar, tensor_map. simpl. intros H.
  apply Forall_map. eapply Forall_impl; [|exact H].
  intros x Hx. simpl in Hx. rewrite Hx. apply mul_zero.
Qed.

Lemma prepare_forward_zero (self : PrepareForMultiHeadAttention.t)
    (x y : Tensor scalar) (w w' : Runtime) :
  PrepareForMultiHeadAttention.forward self x w = (Ok y, w') ->
  all_zero x -> zero_linear (PrepareForMultiHeadAttention.linear self) ->
  all_zero y.
Proof.
  unfold PrepareForMultiHeadAttention.forward, Linear.forward. mred.
  intros E Hx (HW & Hb).
  destruct (F_linear x
              (Linear.weight (PrepareForMultiHeadAttention.linear self))
              (Linear.bias (PrepareForMultiHeadAttention.linear self)))
    as [z|e] eqn:Ez; [|discriminate].
  pose proof (F_linear_zero _ _ _ _ Ez Hx HW Hb) as Hz.
  unfold view in E.
  destruct (infer_size _ (numel z)) as [sh|e]; [|discriminate].
  simpl in E. inversion E; subst. exact Hz.
Qed.

(** Without a mask, zero inputs and zero projection parameters give
    scores that are all zero. *)
Lemma forward_scores_zero (m : MultiHeadAttention.t) (w : Runtime)
    (q k v : Tensor scalar) (c : R) (sl bs : nat) (V S : Tensor scalar)
    (h1 : MultiHeadAttention.Heap) :
  MultiHeadAttention.forward_scores q k v None (MultiHeadAttention.mkHeap m w)
  = (Ok (sl, bs, V, S), h1) ->
  MultiHeadAttention.scale m = Finite c ->
  all_zero q -> all_zero k ->
  zero_linear (PrepareForMultiHeadAttention.linear
                 (MultiHeadAttention.query m)) ->
  zero_linear (PrepareForMultiHeadAttention.linear
                 (MultiHeadAttention.key m)) ->
  all_zero S.
Proof.
  unfold MultiHeadAttention.forward_scores. mred.
  intros E Hc Hq Hk Hmq Hmk.
  destruct (unpack3 (shape q)) as [sb|e]; [|discriminate].
  revert E. mred.
  destruct (PrepareForMultiHeadAttention.forward
              (MultiHeadAttention.query m) q w) as [[Q|e1] w1] eqn:EQ;
    mred; [|discriminate].
  destruct (PrepareForMultiHeadAttention.forward
              (MultiHeadAttention.key m) k w1) as [[K|e2] w2] eqn:EK;
    mred; [|discriminate].
  destruct (PrepareForMultiHeadAttention.forward
              (MultiHeadAttention.value m) v w2) as [[V0|e3] w3];
    mred; [|discriminate].
  destruct (einsum "ibhd,jbhd->ibhj" Q K) as [raw|e4] eqn:Eraw;
    mred; [|discriminate].
  intros E. inversion E; subst. rewrite Hc.
  apply mul_scalar_zero.
  apply (einsum_zero _ _ _ _ Eraw).
  - exact (prepare_forward_zero _ _ _ _ _ EQ Hq Hmq).
  - exact (prepare_forward_zero _ _ _ _ _ EK Hk Hmk).
Qed.

Lemma zeros_zero (n : nat) (sh : list nat) :
  all_zero (mkTensor sh (Examples.zeros n)).
Proof.
  unfold all_zero, Examples.zeros. simpl.
  apply Forall_forall. intros x Hx. apply repeat_spec in Hx. now subst.
Qed.

Lemma linear0_zero (i o : nat) : zero_linear (Examples.linear0 i o).
Proof. split; apply zeros_zero. Qed.

Lemma two_le_max_float : (INR 2 <= max_float)%R.
Proof. simpl. pose proof max_float_ge_2. lra. Qed.

(* ================================================================== *)
(** * Calls with a mask on modules with known sizes *)

Lemma attention_constructed (H D : nat) :
  0 < H -> 0 < D -> constructed (Examples.attention H D) (H * D) H D.
Proof.
  intros HH HD.
  assert (Hp : prepared (Examples.head0 H D) (H * D)).
  { unfold prepared, linear_shaped. simpl.
    replace (Z.to_nat (Z.of_nat H * Z.of_nat D)) with (H * D) by lia.
    repeat split; lia. }
  assert (Hl : linear_shaped (Examples.linear0 (H * D) (H * D)) (H * D) (H * D))
    by (unfold linear_shaped; simpl; auto).
  assert (Hb : bad_probability (Finite (1 / 10)) = false)
    by (apply good_probability_finite; lra).
  unfold constructed. simpl. tauto.
Qed.

Lemma attention_valid (H D : nat) :
  valid_probability
    (Dropout.p (MultiHeadAttention.dropout (Examples.attention H D))) = true.
Proof. apply valid_probability_finite. lra. Qed.

(** With a mask of three axes that passes the assertions: the scaled
    scores of shape [(Sq, B, H, Sk)] are filled under the mask of shape
    [(m0, m1, m2, 1)]. *)
Lemma forward_scores_masked_run (m : MultiHeadAttention.t) (w : Runtime)
    (d_model H D Sq B Sk Sv Bv m0 m1 m2 : nat)
    (q k v : Tensor scalar) (mask : Tensor number) :
  constructed m d_model H D ->
  shape q = [Sq; B; d_model] -> shape k = [Sk; B; d_model] ->
  shape v = [Sv; Bv; d_model] -> shape mask = [m0; m1; m2] ->
  (m0 = 1 \/ m0 = Sq) -> m1 = Sk -> (m2 = 1 \/ m2 = B) ->
  exists V raw,
    shape V = [Sv; Bv; H; D] /\ shape raw = [Sq; B; H; Sk] /\
    MultiHeadAttention.forward_scores q k v (Some mask)
      (MultiHeadAttention.mkHeap m w)
    = match masked_fill (mul_scalar raw (MultiHeadAttention.scale m))
              (eq_zero (mkTensor [m0; m1; m2; 1] (data mask))) NInf with
      | Ok filled =>
          (Ok (Sq, B, V, filled),
           MultiHeadAttention.mkHeap m
             (ticked KMaskedFill (ticked KEq (scored (ticked KUnsqueeze w)))))
      | Err e =>
          (Err e,
           MultiHeadAttention.mkHeap m
             (ticked KEq (scored (ticked KUnsqueeze w))))
      end.
Proof.
  intros Hc Hq Hk Hv Hm H0 H1 H2.
  destruct (forward_scores_nomask m (ticked KUnsqueeze w) _ _ _ _ _ _ _ _
              q k v Hc Hq Hk Hv) as (V & raw & HV & Hraw & Es).
  exists V, raw. split; [exact HV|]. split; [exact Hraw|].
  rewrite (forward_scores_masked m w q k v mask Sq B d_model Sk m0 m1 m2
             [B; d_model] [] Hq Hk Hm H0 H1 H2).
  rewrite Es, Hm. reflexivity.
Qed.

(** The scores of a query position, batch item and head whose mask
    entry is 0 are all negative infinity, and the recorded weights of
    that row are all [NaN].  Here: one query position, two batch items,
    two heads of width one, two key positions, and the mask
    [(x0, x1)] of shape [(1, 2, 1)] over the key positions. *)
Lemma masked_rows_of_small_call (dq dk dv : list scalar) (x0 x1 : number)
    (w : Runtime) :
  exists a,
    tracker (MultiHeadAttention.runtime
               (snd (MultiHeadAttention.forward
                       (mkTensor [1; 2; 2] dq) (mkTensor [2; 2; 2] dk)
                       (mkTensor [2; 2; 2] dv)
                       (Some (mkTensor [1; 2; 1] [x0; x1]))
                       (MultiHeadAttention.mkHeap (Examples.attention 2 1) w))))
    = tracker w ++ [("attn"%string, a)] /\
    shape a = [1; 2; 2; 2] /\
    forall b h, b < 2 -> h < 2 -> is_zero (nth b [x0; x1] (Int 1)) = true ->
      map (fun j => elem a [0; b; h; j]) [0; 1] = [NaN; NaN].
Proof.
  pose proof (attention_constructed 2 1 ltac:(lia) ltac:(lia)) as Hc.
  change (2 * 1) with 2 in Hc.
  set (mask := mkTensor [1; 2; 1] [x0; x1]).
  destruct (forward_scores_masked_run (Examples.attention 2 1) w
              2 2 1 1 2 2 2 2 1 2 1
              (mkTensor [1; 2; 2] dq) (mkTensor [2; 2; 2] dk)
              (mkTensor [2; 2; 2] dv) mask Hc
              eq_refl eq_refl eq_refl eq_refl
              (or_introl eq_refl) eq_refl (or_introl eq_refl))
    as (V & raw & HV & Hraw & Es).
  set (S0 := mul_scalar raw (MultiHeadAttention.scale (Examples.attention 2 1)))
    in *.
  set (mask4 := mkTensor [1; 2; 1; 1] (data mask)) in *.
  destruct (masked_fill S0 (eq_zero mask4) NInf) as [filled|e] eqn:Ef.
  2:{ exfalso. unfold masked_fill in Ef.
      replace (shape S0) with [1; 2; 2; 2] in Ef by (symmetry; exact Hraw).
      discriminate Ef. }
  assert (Hsh : shape filled = [1; 2; 2; 2]).
  { pose proof (masked_fill_shape _ _ _ _ Ef) as H.
    replace (shape S0) with [1; 2; 2; 2] in H by (symmetry; exact Hraw).
    inversion H. reflexivity. }
  destruct Hc as (_ & _ & _ & _ & _ & _ & _ & _ & _ & _ & _ & _ & _ & _
                  & Hsm & Hp & _).
  destruct (forward_records_weights _ _ _ _ _ _ _ _ _ _ _ Hsm Hp Es)
    as (a & Ea & Hsa & Htr).
  exists a. split; [exact Htr|]. split; [congruence|].
  intros b h Hb Hh Hzero.
  assert (Hrow : map (fun j => elem a [0; b; h; j]) [0; 1]
                 = softmax_row (map (fun j => elem filled [0; b; h; j]) [0; 1])).
  { apply (softmax_last_row filled a [1; 2; 2] [0; b; h] 2 Hsh Ea).
    in_range_tac. }
  rewrite Hrow. cbn [map].
  assert (Hfill : forall j, j < 2 -> elem filled [0; b; h; j] = NInf).
  { intros j Hj.
    assert (Hin : in_range (shape filled) [0; b; h; j])
      by (rewrite Hsh; in_range_tac).
    rewrite (masked_fill_elem _ _ _ _ _ Ef Hin).
    assert (Hwf : wf mask4) by reflexivity.
    pose proof (masked_fill_shape _ _ _ _ Ef) as Hbs.
    destruct (broadcast_index_in_range _ _ _ _ Hbs Hin) as (_ & Hm).
    change (shape (eq_zero mask4)) with (shape mask4) in Hm |- *.
    rewrite (eq_zero_get mask4 _ Hwf Hm).
    replace (get (Int 0) mask4 (broadcast_index (shape mask4) [0; b; h; j]))
      with (nth b [x0; x1] (Int 1)).
    - now rewrite Hzero.
    - destruct b as [|[|b]]; [reflexivity|reflexivity|lia]. }
  rewrite !Hfill by lia. reflexivity.
Qed.

Lemma masked_fill_mismatch (t : Tensor scalar) (mask : Tensor bool)
    (v : scalar) (e : exn) :
  broadcast_shapes (shape t) (shape mask) = Err e ->
  masked_fill t mask v = Err e.
Proof. intros H. unfold masked_fill. now rewrite H. Qed.

Lemma small_masked_scores (dq dk dv : list scalar) (x0 x1 : number)
    (w : Runtime) :
  exists V filled,
    MultiHeadAttention.forward_scores
      (mkTensor [1; 2; 2] dq) (mkTensor [2; 2; 2] dk) (mkTensor [2; 2; 2] dv)
      (Some (mkTensor [1; 2; 1] [x0; x1]))
      (MultiHeadAttention.mkHeap (Examples.attention 2 1) w)
    = (Ok (1, 2, V, filled),
       MultiHeadAttention.mkHeap (Examples.attention 2 1)
         (ticked KMaskedFill (ticked KEq (scored (ticked KUnsqueeze w))))) /\
    shape filled = [1; 2; 2; 2].
Proof.
  pose proof (attention_constructed 2 1 ltac:(lia) ltac:(lia)) as Hc.
  change (2 * 1) with 2 in Hc.
  destruct (forward_scores_masked_run (Examples.attention 2 1) w
              2 2 1 1 2 2 2 2 1 2 1
              (mkTensor [1; 2; 2] dq) (mkTensor [2; 2; 2] dk)
              (mkTensor [2; 2; 2] dv) (mkTensor [1; 2; 1] [x0; x1]) Hc
              eq_refl eq_refl eq_refl eq_refl
              (or_introl eq_refl) eq_refl (or_introl eq_refl))
    as (V & raw & HV & Hraw & Es).
  destruct (masked_fill
              (mul_scalar raw
                 (MultiHeadAttention.scale (Examples.attention 2 1)))
              (eq_zero (mkTensor [1; 2; 1; 1]
                          (data (mkTensor [1; 2; 1] [x0; x1])))) NInf)
    as [filled|e] eqn:Ef.
  - exists V, filled. split; [exact Es|].
    pose proof (masked_fill_shape _ _ _ _ Ef) as H.
    simpl shape in H. rewrite Hraw in H. inversion H. reflexivity.
  - exfalso. unfold masked_fill in Ef. simpl shape in Ef.
    rewrite Hraw in Ef. discriminate Ef.
Qed.

(** The same small call with all inputs and parameters zero and the
    mask [(1, 0)]: key position 1, which the mask excludes, gets a
    positive weight for batch item 0. *)
Lemma excluded_position_gets_weight :
  exists a,
    tracker (MultiHeadAttention.runtime
               (snd (MultiHeadAttention.forward
                       (mkTensor [1; 2; 2] (Examples.zeros 4))
                       (mkTensor [2; 2; 2] (Examples.zeros 8))
                       (mkTensor [2; 2; 2] (Examples.zeros 8))
                       (Some (mkTensor [1; 2; 1] [Int 1; Int 0]))
                       (MultiHeadAttention.mkHeap (Examples.attention 2 1)
                          Examples.fresh))))
    = [("attn"%string, a)] /\
    exists r, elem a [0; 0; 0; 1] = Finite r /\ (0 < r)%R.
Proof.
  set (q := mkTensor [1; 2; 2] (Examples.zeros 4)).
  set (k := mkTensor [2; 2; 2] (Examples.zeros 8)).
  set (mask := mkTensor [1; 2; 1] [Int 1; Int 0]).
  destruct (small_masked_scores (Examples.zeros 4) (Examples.zeros 8)
              (Examples.zeros 8) (Int 1) (Int 0) Examples.fresh)
    as (V & filled & Es & Hsh).
  fold q k mask in Es.
  pose proof (masked_scores_spec (Examples.attention 2 1) Examples.fresh
                q k k mask 1 2 2 2 1 2 1 [2; 2] [] 1 2 V filled _
                eq_refl eq_refl eq_refl eq_refl Es) as H.
  cbv zeta in H. destruct H as (S0 & h0 & E0 & _ & Hel).
  assert (HS0 : all_zero S0).
  { apply (forward_scores_zero (Examples.attention 2 1)
             (ticked KUnsqueeze Examples.fresh) q k k
             (1 / sqrt (IZR (Z.of_nat 1))) 1 2 V S0 h0 E0 eq_refl).
    - apply zeros_zero.
    - apply zeros_zero.
    - apply linear0_zero.
    - apply linear0_zero. }
  pose proof (attention_constructed 2 1 ltac:(lia) ltac:(lia)) as Hc.
  destruct Hc as (_ & _ & _ & _ & _ & _ & _ & _ & _ & _ & _ & _ & _ & _
                  & Hsm & Hp & _).
  destruct (forward_records_weights _ _ _ _ _ _ _ _ _ _ _ Hsm Hp Es)
    as (a & Ea & _ & Htr).
  exists a. split; [exact Htr|].
  assert (Hin : in_range [1; 2; 2] [0; 0; 0]) by in_range_tac.
  change [0; 0; 0; 1] with ([0; 0; 0] ++ [1]).
  rewrite (softmax_last_elem filled a [1; 2; 2] [0; 0; 0] 2 1 Hsh Ea Hin)
    by lia.
  assert (Hrow : forall j, j < 2 -> elem filled [0; 0; 0; j] = Finite 0).
  { intros j Hj.
    assert (Hi : in_range (shape filled) [0; 0; 0; j])
      by (rewrite Hsh; in_range_tac).
    rewrite (Hel _ Hi).
    replace (is_zero (get (Int 0)
                        (mkTensor (shape mask ++ [1]) (data mask))
                        (broadcast_index
                           (shape (mkTensor (shape mask ++ [1]) (data mask)))
                           [0; 0; 0; j])))
      with false by reflexivity.
    now apply elem_zero. }
  simpl. rewrite !Hrow by lia.
  apply (softmax_row_positive [Finite 0; Finite 0] 1 0).
  - split; reflexivity.
  - exact two_le_max_float.
  - reflexivity.
  - pose proof max_float_ge_2.
    intros M [E|[E|[]]]; inversion E; lra.
Qed.

(** C4, on the code.  (1) The documented call with a mask: 8 heads over
    [d_model = 512], query of shape [(5, 2, 512)], key and value of
    shape [(7, 2, 512)] and a mask of shape [(1, 7, 1)] raises a
    [RuntimeError] when the scores of shape [(5, 2, 8, 7)] are filled
    under the mask of shape [(1, 7, 1, 1)], whose key axis meets the
    batch axis of the scores.  (2) One query position, two batch items,
    two heads, two key positions and the mask [(1, 0)] over the key
    positions, which excludes key position 1: the recorded weight of
    key position 1 for batch item 1 is [NaN] in both heads, not 0.
    (3) The same call with all inputs and parameters zero: for batch
    item 0 the recorded weight of key position 1 is positive. *)
Theorem masked_position_weight_on_the_code :
  (forall (dq dk dv : list scalar) (dm : list number) (w : Runtime),
      fst (MultiHeadAttention.forward
             (mkTensor [5; 2; 512] dq) (mkTensor [7; 2; 512] dk)
             (mkTensor [7; 2; 512] dv) (Some (mkTensor [1; 7; 1] dm))
             (MultiHeadAttention.mkHeap (Examples.attention 8 64) w))
      = Err RuntimeError)
  /\
  (forall (dq dk dv : list scalar) (w : Runtime),
      exists a,
        tracker (MultiHeadAttention.runtime
                   (snd (MultiHeadAttention.forward
                           (mkTensor [1; 2; 2] dq) (mkTensor [2; 2; 2] dk)
                           (mkTensor [2; 2; 2] dv)
                           (Some (mkTensor [1; 2; 1] [Int 1; Int 0]))
                           (MultiHeadAttention.mkHeap
                              (Examples.attention 2 1) w))))
        = tracker w ++ [("attn"%string, a)] /\
        shape a = [1; 2; 2; 2] /\
        elem a [0; 1; 0; 1] = NaN /\ elem a [0; 1; 1; 1] = NaN)
  /\
  (exists a,
     tracker (MultiHeadAttention.runtime
                (snd (MultiHeadAttention.forward
                        (mkTensor [1; 2; 2] (Examples.zeros 4))
                        (mkTensor [2; 2; 2] (Examples.zeros 8))
                        (mkTensor [2; 2; 2] (Examples.zeros 8))
                        (Some (mkTensor [1; 2; 1] [Int 1; Int 0]))
                        (MultiHeadAttention.mkHeap (Examples.attention 2 1)
                           Examples.fresh))))
     = [("attn"%string, a)] /\
     exists r, elem a [0; 0; 0; 1] = Finite r /\ (0 < r)%R).
Proof.
  split; [|split; [|exact excluded_position_gets_weight]].
  - intros dq dk dv dm w.
    pose proof (attention_constructed 8 64 ltac:(lia) ltac:(lia)) as Hc.
    change (8 * 64) with 512 in Hc.
    destruct (forward_scores_masked_run (Examples.attention 8 64) w
                512 8 64 5 2 7 7 2 1 7 1
                (mkTensor [5; 2; 512] dq) (mkTensor [7; 2; 512] dk)
                (mkTensor [7; 2; 512] dv) (mkTensor [1; 7; 1] dm) Hc
                eq_refl eq_refl eq_refl eq_refl
                (or_introl eq_refl) eq_refl (or_introl eq_refl))
      as (V & raw & HV & Hraw & Es).
    rewrite (masked_fill_mismatch _ _ _ RuntimeError) in Es.
    + unfold MultiHeadAttention.forward. mred. now rewrite Es.
    + simpl shape. rewrite Hraw. reflexivity.
  - intros dq dk dv w.
    destruct (masked_rows_of_small_call dq dk dv (Int 1) (Int 0) w)
      as (a & Htr & Hsh & Hrows).
    exists a. split; [exact Htr|]. split; [exact Hsh|].
    pose proof (Hrows 1 0 ltac:(lia) ltac:(lia) eq_refl) as H0.
    pose proof (Hrows 1 1 ltac:(lia) ltac:(lia) eq_refl) as H1.
    simpl in H0, H1.
    injection H0 as _ E0. injection H1 as _ E1. auto.
Qed.

(* ================================================================== *)
(** * Normalized weights *)

(** C5, as the code has it.  (1) Whenever a call reaches the
    normalization, the tensor recorded in the tracker has the shape of
    the (masked) scores, and at every position of the leading axes: if
    the row of scores has a finite entry and neither [NaN] nor [+inf],
    and the row is short enough for the sum of its weights not to
    overflow, the row of weights is non-negative and sums to 1; if the
    row is not empty and all its scores are negative infinity, every
    weight of the row is [NaN].  (2) A call without a mask on inputs of
    width [d_model] reaches the normalization, with scores of shape
    [(Sq, B, H, Sk)]. *)
Theorem weights_normalized_on_proper_rows :
  (forall (m : MultiHeadAttention.t) (w : Runtime) (q k v : Tensor scalar)
          (mask : option (Tensor number)) (d_model H D sl bs : nat)
          (V S : Tensor scalar) (h1 : MultiHeadAttention.Heap)
          (pre : list nat) (n : nat),
      constructed m d_model H D ->
      MultiHeadAttention.forward_scores q k v mask
        (MultiHeadAttention.mkHeap m w) = (Ok (sl, bs, V, S), h1) ->
      shape S = pre ++ [n] ->
      exists a,
        tracker (MultiHeadAttention.runtime
                   (snd (MultiHeadAttention.forward q k v mask
                           (MultiHeadAttention.mkHeap m w))))
        = tracker (MultiHeadAttention.runtime h1) ++ [("attn"%string, a)] /\
        shape a = shape S /\
        forall ipre, in_range pre ipre ->
          let scores := map (fun j => elem S (ipre ++ [j])) (seq 0 n) in
          let weights := map (fun j => elem a (ipre ++ [j])) (seq 0 n) in
          (proper_row scores -> (INR n <= max_float)%R ->
           distribution weights) /\
          (n <> 0 -> Forall (fun x => x = NInf) scores ->
           Forall (fun x => x = NaN) weights))
  /\
  (forall (m : MultiHeadAttention.t) (w : Runtime) (q k v : Tensor scalar)
          (d_model H D Sq B Sk Sv Bv : nat),
      constructed m d_model H D ->
      shape q = [Sq; B; d_model] -> shape k = [Sk; B; d_model] ->
      shape v = [Sv; Bv; d_model] ->
      exists V S h1,
        MultiHeadAttention.forward_scores q k v None
          (MultiHeadAttention.mkHeap m w) = (Ok (Sq, B, V, S), h1) /\
        tracker (MultiHeadAttention.runtime h1) = tracker w /\
        shape S = [Sq; B; H; Sk]).
Proof.
  split.
  - intros m w q k v mask d_model H D sl bs V S h1 pre n Hc E HS.
    destruct Hc as (_ & _ & _ & _ & _ & _ & _ & _ & _ & _ & _ & _ & _ & _
                    & Hsm & Hp & _).
    destruct (forward_records_weights _ _ _ _ _ _ _ _ _ _ _ Hsm Hp E)
      as (a & Ea & Hsa & Htr).
    exists a. split; [exact Htr|]. split; [exact Hsa|].
    intros ipre Hpre scores weights.
    assert (Hrow : weights = softmax_row scores)
      by (apply (softmax_last_row S a pre ipre n HS Ea Hpre)).
    rewrite Hrow. split.
    + intros Hproper Hn. apply softmax_row_proper; [exact Hproper|].
      unfold scores. now rewrite length_map, length_seq.
    + intros Hn Hall. apply softmax_row_all_masked; [|exact Hall].
      unfold scores. destruct n; [contradiction|]. simpl. discriminate.
  - intros m w q k v d_model H D Sq B Sk Sv Bv Hc Hq Hk Hv.
    destruct (forward_scores_nomask m w _ _ _ _ _ _ _ _ q k v Hc Hq Hk Hv)
      as (V & raw & HV & Hraw & Es).
    exists V, (mul_scalar raw (MultiHeadAttention.scale m)),
      (MultiHeadAttention.mkHeap m (scored w)).
    split; [exact Es|]. split; [reflexivity|exact Hraw].
Qed.

Lemma weights_normalized_on_proper_rows_witness :
  exists a,
    tracker (MultiHeadAttention.runtime
               (snd (MultiHeadAttention.forward
                       (mkTensor [1; 2; 2] (Examples.zeros 4))
                       (mkTensor [2; 2; 2] (Examples.zeros 8))
                       (mkTensor [2; 2; 2] (Examples.zeros 8)) None
                       (MultiHeadAttention.mkHeap (Examples.attention 2 1)
                          Examples.fresh))))
    = [("attn"%string, a)] /\
    shape a = [1; 2; 2; 2] /\
    distribution (map (fun j => elem a [0; 1; 1; j]) (seq 0 2)).
Proof.
  pose proof (attention_constructed 2 1 ltac:(lia) ltac:(lia)) as Hc.
  change (2 * 1) with 2 in Hc.
  destruct (forward_scores_nomask (Examples.attention 2 1) Examples.fresh
              2 2 1 1 2 2 2 2
              (mkTensor [1; 2; 2] (Examples.zeros 4))
              (mkTensor [2; 2; 2] (Examples.zeros 8))
              (mkTensor [2; 2; 2] (Examples.zeros 8))
              Hc eq_refl eq_refl eq_refl)
    as (V & raw & HV & Hraw & Es).
  assert (HS : shape (mul_scalar raw
                        (MultiHeadAttention.scale (Examples.attention 2 1)))
               = [1; 2; 2] ++ [2]) by exact Hraw.
  destruct (proj1 weights_normalized_on_proper_rows
              (Examples.attention 2 1) Examples.fresh
              (mkTensor [1; 2; 2] (Examples.zeros 4))
              (mkTensor [2; 2; 2] (Examples.zeros 8))
              (mkTensor [2; 2; 2] (Examples.zeros 8))
              None 2 2 1 1 2 V _ _ [1; 2; 2] 2 Hc Es HS)
    as (a & Htr & Hsa & Hrows).
  exists a. split; [exact Htr|]. split; [rewrite Hsa; exact Hraw|].
  assert (Hin : in_range [1; 2; 2] [0; 1; 1]) by in_range_tac.
  destruct (Hrows [0; 1; 1] Hin) as (Hdist & _).
  apply Hdist; [|exact two_le_max_float].
  pose proof (forward_scores_zero (Examples.attention 2 1) Examples.fresh
                _ _ _ (1 / sqrt (IZR (Z.of_nat 1))) 1 2 V _ _ Es eq_refl
                (zeros_zero 4 [1; 2; 2]) (zeros_zero 8 [2; 2; 2])
                (linear0_zero 2 2) (linear0_zero 2 2)) as Hz.
  cbn [seq map app]. rewrite !(elem_zero _ _ Hz).
  split; reflexivity.
Defined.

(** C5, counterexample.  One query position, two batch items, two
    heads, two key positions, all inputs and parameters zero, and a mask
    of shape [(1, 2, 1)] that excludes both key positions: the weights
    recorded for query 0, batch item 0 and head 0 are [NaN], they are
    neither non-negative nor do they sum to 1. *)
Lemma fully_masked_row_is_not_a_distribution :
  exists a,
    tracker (MultiHeadAttention.runtime
               (snd (MultiHeadAttention.forward
                       (mkTensor [1; 2; 2] (Examples.zeros 4))
                       (mkTensor [2; 2; 2] (Examples.zeros 8))
                       (mkTensor [2; 2; 2] (Examples.zeros 8))
                       (Some (mkTensor [1; 2; 1] [Int 0; Int 0]))
                       (MultiHeadAttention.mkHeap (Examples.attention 2 1)
                          Examples.fresh))))
    = [("attn"%string, a)] /\
    map (fun j => elem a [0; 0; 0; j]) [0; 1] = [NaN; NaN] /\
    ~ distribution (map (fun j => elem a [0; 0; 0; j]) [0; 1]).
Proof.
  destruct (masked_rows_of_small_call (Examples.zeros 4) (Examples.zeros 8)
              (Examples.zeros 8) (Int 0) (Int 0) Examples.fresh)
    as (a & Htr & _ & Hrows).
  exists a. split; [exact Htr|].
  pose proof (Hrows 0 0 ltac:(lia) ltac:(lia) eq_refl) as Hrow.
  split; [exact Hrow|].
  rewrite Hrow. intros (Hall & _).
  inversion Hall as [|x l (r & Hr & _) _]. discriminate Hr.
Qed.

(* ================================================================== *)
(** * What a call depends on and what it changes *)

(** The first half of [forward] reads the three projections and the
    scale, nothing else of the module. *)
Lemma forward_scores_frame (m m' : MultiHeadAttention.t) (w : Runtime)
    (q k v : Tensor scalar) (mask : option (Tensor number)) :
  MultiHeadAttention.query m' = MultiHeadAttention.query m ->
  MultiHeadAttention.key m' = MultiHeadAttention.key m ->
  MultiHeadAttention.value m' = MultiHeadAttention.value m ->
  MultiHeadAttention.scale m' = MultiHeadAttention.scale m ->
  fst (MultiHeadAttention.forward_scores q k v mask
         (MultiHeadAttention.mkHeap m' w))
  = fst (MultiHeadAttention.forward_scores q k v mask
           (MultiHeadAttention.mkHeap m w)) /\
  MultiHeadAttention.runtime
    (snd (MultiHeadAttention.forward_scores q k v mask
            (MultiHeadAttention.mkHeap m' w)))
  = MultiHeadAttention.runtime
      (snd (MultiHeadAttention.forward_scores q k v mask
              (MultiHeadAttention.mkHeap m w))).
Proof.
  intros Hq Hk Hv Hs.
  unfold MultiHeadAttention.forward_scores. mred.
  rewrite Hq, Hk, Hv, Hs.
  crunch; split; reflexivity.
Qed.

(** C8.  Outside training mode the dropout probability does not matter:
    the same module with [dropout_prob = 0.3] and with
    [dropout_prob = 0], on the same inputs, from the same state, gives
    the same result (or the same exception), records the same tensor
    in [attn] and leaves the same runtime. *)
Theorem dropout_is_noop_in_eval
    (m : MultiHeadAttention.t) (w : Runtime) (q k v : Tensor scalar)
    (mask : option (Tensor number)) :
  Dropout.training (MultiHeadAttention.dropout m) = false ->
  let run := fun p =>
    MultiHeadAttention.forward q k v mask
      (MultiHeadAttention.mkHeap (with_dropout_p m p) w) in
  fst (run (Finite (3 / 10))) = fst (run (Finite 0)) /\
  MultiHeadAttention.attn (MultiHeadAttention.self (snd (run (Finite (3 / 10)))))
  = MultiHeadAttention.attn (MultiHeadAttention.self (snd (run (Finite 0)))) /\
  MultiHeadAttention.runtime (snd (run (Finite (3 / 10))))
  = MultiHeadAttention.runtime (snd (run (Finite 0))).
Proof.
  intros Ht run. unfold run. clear run.
  set (m3 := with_dropout_p m (Finite (3 / 10))).
  set (m0 := with_dropout_p m (Finite 0)).
  assert (B3 : valid_probability (Finite (3 / 10)) = true)
    by (apply valid_probability_finite; lra).
  assert (B0 : valid_probability (Finite 0) = true)
    by (apply valid_probability_finite; lra).
  unfold MultiHeadAttention.forward. mred.
  destruct (forward_scores_frame m0 m3 w q k v mask
              eq_refl eq_refl eq_refl eq_refl) as (Hf & Hr).
  pose proof (forward_scores_self m3 w q k v mask) as H3.
  pose proof (forward_scores_self m0 w q k v mask) as H0.
  destruct (MultiHeadAttention.forward_scores q k v mask
              (MultiHeadAttention.mkHeap m3 w)) as [r3 [s3 w3]].
  destruct (MultiHeadAttention.forward_scores q k v mask
              (MultiHeadAttention.mkHeap m0 w)) as [r0 [s0 w0]].
  simpl in Hf, Hr, H3, H0. subst r3 w3 s3 s0.
  destruct r0 as [[[[sl bs] V] S]|e]; mred; [|repeat split; reflexivity].
  unfold MultiHeadAttention.forward_attend. mred.
  unfold m3, m0, with_dropout_p.
  cbn [MultiHeadAttention.softmax MultiHeadAttention.dropout
       MultiHeadAttention.output].
  destruct (softmax (Softmax.dim (MultiHeadAttention.softmax m)) S) as [a|e];
    mred; [|repeat split; reflexivity].
  rewrite !dropout_forward_eval by (simpl; assumption).
  crunch; repeat split; reflexivity.
Qed.

Lemma dropout_is_noop_in_eval_witness :
  fst (MultiHeadAttention.forward
         (mkTensor [1; 2; 2] (Examples.zeros 4))
         (mkTensor [2; 2; 2] (Examples.zeros 8))
         (mkTensor [2; 2; 2] (Examples.zeros 8)) None
         (MultiHeadAttention.mkHeap
            (with_dropout_p (eval (Examples.attention 2 1)) (Finite (3 / 10)))
            Examples.fresh))
  = fst (MultiHeadAttention.forward
           (mkTensor [1; 2; 2] (Examples.zeros 4))
           (mkTensor [2; 2; 2] (Examples.zeros 8))
           (mkTensor [2; 2; 2] (Examples.zeros 8)) None
           (MultiHeadAttention.mkHeap
              (with_dropout_p (eval (Examples.attention 2 1)) (Finite 0))
              Examples.fresh)).
Proof.
  exact (proj1 (dropout_is_noop_in_eval (eval (Examples.attention 2 1))
                  Examples.fresh
                  (mkTensor [1; 2; 2] (Examples.zeros 4))
                  (mkTensor [2; 2; 2] (Examples.zeros 8))
                  (mkTensor [2; 2; 2] (Examples.zeros 8)) None eq_refl)).
Defined.

Lemma same_parameters_refl (m : MultiHeadAttention.t) : same_parameters m m.
Proof. unfold same_parameters. tauto. Qed.

Lemma same_parameters_with_attn (m : MultiHeadAttention.t) (a : Tensor scalar) :
  same_parameters m (MultiHeadAttention.with_attn m a).
Proof. unfold same_parameters. simpl. tauto. Qed.

(** C9.  A call changes no field of the module other than [attn]: the
    head counts, the three projections, the softmax and dropout layers,
    the output projection and the scale are the same objects after the
    call as before, whether it returns or raises.  [attn] is either
    untouched (the call raised before the assignment) or holds the
    tensor returned by dropout applied to the normalized weights, and it
    holds that tensor whenever the call returns.  (The inputs are
    values here; every tensor operation of [forward] is out of place
    and returns a new tensor.) *)
Theorem forward_changes_only_attn
    (m : MultiHeadAttention.t) (w : Runtime) (q k v : Tensor scalar)
    (mask : option (Tensor number)) :
  let r := MultiHeadAttention.forward q k v mask
             (MultiHeadAttention.mkHeap m w) in
  let dropped_weights := fun a' =>
    exists sl bs V S h1 a w1 w2,
      MultiHeadAttention.forward_scores q k v mask
        (MultiHeadAttention.mkHeap m w) = (Ok (sl, bs, V, S), h1) /\
      Softmax.forward (MultiHeadAttention.softmax m) S
        (MultiHeadAttention.runtime h1) = (Ok a, w1) /\
      Dropout.forward (MultiHeadAttention.dropout m) a
        (logged "attn" a w1) = (Ok a', w2) in
  same_parameters m (MultiHeadAttention.self (snd r)) /\
  (MultiHeadAttention.attn (MultiHeadAttention.self (snd r))
   = MultiHeadAttention.attn m \/
   exists a', dropped_weights a' /\
              MultiHeadAttention.attn (MultiHeadAttention.self (snd r))
              = Some a') /\
  (forall y, fst r = Ok y ->
     exists a', dropped_weights a' /\
                MultiHeadAttention.attn (MultiHeadAttention.self (snd r))
                = Some a').
Proof.
  intros r dropped_weights. unfold r, dropped_weights. clear r dropped_weights.
  unfold MultiHeadAttention.forward. mred.
  pose proof (forward_scores_self m w q k v mask) as Hself.
  destruct (MultiHeadAttention.forward_scores q k v mask
              (MultiHeadAttention.mkHeap m w)) as [r0 [s0 w0]] eqn:Es.
  simpl in Hself. subst s0.
  pose proof (same_parameters_refl m) as Hrefl.
  destruct r0 as [[[[sl bs] V] S]|e]; mred;
    [|split; [exact Hrefl|split; [left; reflexivity|discriminate]]].
  unfold MultiHeadAttention.forward_attend. mred.
  destruct (softmax (Softmax.dim (MultiHeadAttention.softmax m)) S)
    as [a|e] eqn:Ea; mred;
    [|split; [exact Hrefl|split; [left; reflexivity|discriminate]]].
  destruct (Dropout.forward (MultiHeadAttention.dropout m) a
              (logged "attn" a (ticked KSoftmax w0))) as [[a'|e] w2] eqn:Ed;
    mred; [|split; [exact Hrefl|split; [left; reflexivity|discriminate]]].
  destruct (einsum "ijbh, jbhd->ibhd" a' V) as [x|e]; mred;
    [|split; [exact Hrefl|split; [left; reflexivity|discriminate]]].
  assert (Hd : exists a'0,
    (exists sl0 bs0 V0 S0 h1 a0 w1 w3,
       (Ok (sl, bs, V, S), MultiHeadAttention.mkHeap m w0)
       = (Ok (sl0, bs0, V0, S0), h1) /\
       Softmax.forward (MultiHeadAttention.softmax m) S0
         (MultiHeadAttention.runtime h1) = (Ok a0, w1) /\
       Dropout.forward (MultiHeadAttention.dropout m) a0
         (logged "attn" a0 w1) = (Ok a'0, w3)) /\
    Some a' = Some a'0).
  { exists a'. split; [|reflexivity].
    exists sl, bs, V, S, (MultiHeadAttention.mkHeap m w0), a,
      (ticked KSoftmax w0), w2.
    split; [reflexivity|]. split; [|exact Ed].
    unfold Softmax.forward. mred. now rewrite Ea. }
  pose proof (same_parameters_with_attn m a') as Hwith.
  destruct (reshape x [Z.of_nat sl; Z.of_nat bs; (-1)%Z]) as [x'|e]; mred.
  - destruct (F_linear x' (Linear.weight (MultiHeadAttention.output m))
                (Linear.bias (MultiHeadAttention.output m))) as [y|e];
      (split; [exact Hwith|split; [right; exact Hd|intros; exact Hd]]).
  - split; [exact Hwith|split; [right; exact Hd|discriminate]].
Qed.

(* ================================================================== *)
(** * Remaining instances *)


Lemma is_zero_spec (n : number) :
  is_zero n = true <-> n = Int 0 \/ n = Float (Finite 0).
Proof.
  destruct n as [z|[r| | |]]; simpl.
  - destruct (Z.eqb_spec z 0) as [-> |Hz].
    + split; auto.
    + split; [discriminate|].
      intros [E|E]; [inversion E; contradiction|discriminate].
  - unfold Reqb. destruct (Req_dec_T r 0) as [-> |Hr].
    + split; auto.
    + split; [discriminate|].
      intros [E|E]; [discriminate|inversion E; contradiction].
  - split; [discriminate|intros [E|E]; discriminate].
  - split; [discriminate|intros [E|E]; discriminate].
  - split; [discriminate|intros [E|E]; discriminate].
Qed.

(** In the small call, the entry that decides the score of batch item
    [b] is the entry of key position [b]. *)
Lemma small_call_entry_of_batch_item (dq dk dv : list scalar)
    (x0 x1 : number) (w : Runtime) :
  exists V S S0 h1 h0,
    MultiHeadAttention.forward_scores
      (mkTensor [1; 2; 2] dq) (mkTensor [2; 2; 2] dk)
      (mkTensor [2; 2; 2] dv) (Some (mkTensor [1; 2; 1] [x0; x1]))
      (MultiHeadAttention.mkHeap (Examples.attention 2 1) w)
    = (Ok (1, 2, V, S), h1) /\
    MultiHeadAttention.forward_scores
      (mkTensor [1; 2; 2] dq) (mkTensor [2; 2; 2] dk)
      (mkTensor [2; 2; 2] dv) None
      (MultiHeadAttention.mkHeap (Examples.attention 2 1)
         (ticked KUnsqueeze w))
    = (Ok (1, 2, V, S0), h0) /\
    shape S = [1; 2; 2; 2] /\
    forall b h j, b < 2 -> h < 2 -> j < 2 ->
      let entry := nth b [x0; x1] (Int 1) in
      (entry = Int 0 \/ entry = Float (Finite 0) ->
       elem S [0; b; h; j] = NInf) /\
      (entry <> Int 0 -> entry <> Float (Finite 0) ->
       elem S [0; b; h; j] = elem S0 [0; b; h; j]).
Proof.
  destruct (small_masked_scores dq dk dv x0 x1 w) as (V & S & Es & Hsh).
  pose proof (masked_scores_spec (Examples.attention 2 1) w
                (mkTensor [1; 2; 2] dq) (mkTensor [2; 2; 2] dk)
                (mkTensor [2; 2; 2] dv) (mkTensor [1; 2; 1] [x0; x1])
                1 2 2 2 1 2 1 [2; 2] [] 1 2 V S _
                eq_refl eq_refl eq_refl eq_refl Es) as H.
  cbv zeta in H. destruct H as (S0 & h0 & E0 & _ & Hel).
  assert (HS0 : shape S0 = [1; 2; 2; 2]).
  { pose proof (attention_constructed 2 1 ltac:(lia) ltac:(lia)) as Hc.
    change (2 * 1) with 2 in Hc.
    destruct (forward_scores_nomask (Examples.attention 2 1)
                (ticked KUnsqueeze w) 2 2 1 1 2 2 2 2
                (mkTensor [1; 2; 2] dq) (mkTensor [2; 2; 2] dk)
                (mkTensor [2; 2; 2] dv) Hc eq_refl eq_refl eq_refl)
      as (V' & raw & _ & Hraw & Es0).
    rewrite Es0 in E0. inversion E0; subst. exact Hraw. }
  exists V, S, S0. eexists. exists h0.
  split; [exact Es|]. split; [exact E0|]. split; [exact Hsh|].
  intros b h j Hb Hh Hj entry.
  assert (Hin : in_range (shape S) [0; b; h; j])
    by (rewrite Hsh; in_range_tac).
  specialize (Hel _ Hin).
  assert (Hent : get (Int 0)
                   (mkTensor (shape (mkTensor [1; 2; 1] [x0; x1]) ++ [1])
                      (data (mkTensor [1; 2; 1] [x0; x1])))
                   (broadcast_index
                      (shape (mkTensor
                                (shape (mkTensor [1; 2; 1] [x0; x1]) ++ [1])
                                (data (mkTensor [1; 2; 1] [x0; x1]))))
                      [0; b; h; j])
                 = entry).
  { unfold entry. destruct b as [|[|b]]; [reflexivity|reflexivity|lia]. }
  rewrite Hent, HS0 in Hel.
  replace (broadcast_index [1; 2; 2; 2] [0; b; h; j]) with [0; b; h; j]
    in Hel by reflexivity.
  pose proof (is_zero_spec entry) as Hz.
  destruct (is_zero entry).
  - assert (H0 : entry = Int 0 \/ entry = Float (Finite 0))
      by (now apply Hz).
    split; [intros _; exact Hel|].
    intros N1 N2. destruct H0 as [H0|H0]; contradiction.
  - split; [|intros _ _; exact Hel].
    intros H0. apply Hz in H0. discriminate H0.
Qed.

(** C10, on the code.  (1) With a mask that passes the assertions, the
    scores handed to the normalization are the scaled scores of the
    same call without a mask, except under the mask entries equal to 0:
    a position holds negative infinity when the mask entry that
    broadcasts to it is the integer 0 ([False]) or the float 0, and
    keeps its score under any other entry: an integer other than 0, a
    float other than 0, an infinity or [NaN].  (2) The entry that
    broadcasts to a position is not the entry of its key position.  One
    query position, two batch items, two heads, two key positions and a
    mask of shape [(1, 2, 1)] with the entries [x0] for key position 0
    and [x1] for key position 1: the score of batch item [b], head [h]
    and key position [j] is filled or kept according to the entry of
    key position [b], whatever [j] is.  (3) So with the mask [(7, 0)]
    the score of key position 0, whose entry is 7, is negative infinity
    for batch item 1, and the score of key position 1, whose entry is
    0, is kept for batch item 0, in both heads. *)
Theorem mask_fills_where_entry_is_zero :
  (forall (m : MultiHeadAttention.t) (w : Runtime)
          (q k v : Tensor scalar) (mask : Tensor number)
          (Sq B dq Sk m0 m1 m2 : nat) (krest rest : list nat)
          (sl bs : nat) (V S : Tensor scalar) (h1 : MultiHeadAttention.Heap),
      shape q = [Sq; B; dq] -> shape k = Sk :: krest ->
      shape mask = m0 :: m1 :: m2 :: rest -> wf mask ->
      MultiHeadAttention.forward_scores q k v (Some mask)
        (MultiHeadAttention.mkHeap m w) = (Ok (sl, bs, V, S), h1) ->
      let mask4 := mkTensor (shape mask ++ [1]) (data mask) in
      exists S0 h0,
        MultiHeadAttention.forward_scores q k v None
          (MultiHeadAttention.mkHeap m (ticked KUnsqueeze w))
        = (Ok (sl, bs, V, S0), h0) /\
        broadcast_shapes (shape S0) (shape mask4) = Ok (shape S) /\
        forall idx, in_range (shape S) idx ->
          let entry := get (Int 0) mask4 (broadcast_index (shape mask4) idx) in
          let kept := elem S idx = elem S0 (broadcast_index (shape S0) idx) in
          (entry = Int 0 \/ entry = Float (Finite 0) -> elem S idx = NInf) /\
          (forall z, entry = Int z -> z <> 0%Z -> kept) /\
          (forall r, entry = Float (Finite r) -> r <> 0%R -> kept) /\
          (forall x, entry = Float x -> is_finite x = false -> kept))
  /\
  (forall (dq dk dv : list scalar) (x0 x1 : number) (w : Runtime),
      exists V S S0 h1 h0,
        MultiHeadAttention.forward_scores
          (mkTensor [1; 2; 2] dq) (mkTensor [2; 2; 2] dk)
          (mkTensor [2; 2; 2] dv) (Some (mkTensor [1; 2; 1] [x0; x1]))
          (MultiHeadAttention.mkHeap (Examples.attention 2 1) w)
        = (Ok (1, 2, V, S), h1) /\
        MultiHeadAttention.forward_scores
          (mkTensor [1; 2; 2] dq) (mkTensor [2; 2; 2] dk)
          (mkTensor [2; 2; 2] dv) None
          (MultiHeadAttention.mkHeap (Examples.attention 2 1)
             (ticked KUnsqueeze w))
        = (Ok (1, 2, V, S0), h0) /\
        shape S = [1; 2; 2; 2] /\
        forall b h j, b < 2 -> h < 2 -> j < 2 ->
          let entry := nth b [x0; x1] (Int 1) in
          (entry = Int 0 \/ entry = Float (Finite 0) ->
           elem S [0; b; h; j] = NInf) /\
          (entry <> Int 0 -> entry <> Float (Finite 0) ->
           elem S [0; b; h; j] = elem S0 [0; b; h; j]))
  /\
  (forall (dq dk dv : list scalar) (w : Runtime),
      exists V S S0 h1 h0,
        MultiHeadAttention.forward_scores
          (mkTensor [1; 2; 2] dq) (mkTensor [2; 2; 2] dk)
          (mkTensor [2; 2; 2] dv) (Some (mkTensor [1; 2; 1] [Int 7; Int 0]))
          (MultiHeadAttention.mkHeap (Examples.attention 2 1) w)
        = (Ok (1, 2, V, S), h1) /\
        MultiHeadAttention.forward_scores
          (mkTensor [1; 2; 2] dq) (mkTensor [2; 2; 2] dk)
          (mkTensor [2; 2; 2] dv) None
          (MultiHeadAttention.mkHeap (Examples.attention 2 1)
             (ticked KUnsqueeze w))
        = (Ok (1, 2, V, S0), h0) /\
        forall h, h < 2 ->
          elem S [0; 1; h; 0] = NInf /\
          elem S [0; 0; h; 1] = elem S0 [0; 0; h; 1]).
Proof.
  split; [|split].
  - intros m w q k v mask Sq B dq Sk m0 m1 m2 krest rest sl bs V S h1
      Hq Hk Hm Hwf E mask4.
    pose proof (masked_scores_spec m w q k v mask Sq B dq Sk m0 m1 m2
                  krest rest sl bs V S h1 Hq Hk Hm Hwf E) as H.
    cbv zeta in H. fold mask4 in H.
    destruct H as (S0 & h0 & E0 & Hbs & Hel).
    exists S0, h0. split; [exact E0|]. split; [exact Hbs|].
    intros idx Hidx entry kept. unfold kept.
    specialize (Hel idx Hidx). fold entry in Hel.
    pose proof (is_zero_spec entry) as Hz.
    destruct (is_zero entry).
    + assert (Hent : entry = Int 0 \/ entry = Float (Finite 0))
        by (now apply Hz).
      split; [intros _; exact Hel|]. split; [|split].
      * intros z Ez Hnz. rewrite Ez in Hent.
        destruct Hent as [E1|E1]; [inversion E1; contradiction|discriminate].
      * intros r Er Hnr. rewrite Er in Hent.
        destruct Hent as [E1|E1]; [discriminate|inversion E1; contradiction].
      * intros x Ex Hx. rewrite Ex in Hent.
        destruct Hent as [E1|E1]; [discriminate|].
        inversion E1; subst x. discriminate Hx.
    + split; [|split; [|split]]; try (intros; exact Hel).
      intros Hent. apply Hz in Hent. discriminate Hent.
  - exact small_call_entry_of_batch_item.
  - intros dq dk dv w.
    destruct (small_call_entry_of_batch_item dq dk dv (Int 7) (Int 0) w)
      as (V & S & S0 & h1 & h0 & Es & E0 & _ & Hel).
    exists V, S, S0, h1, h0. split; [exact Es|]. split; [exact E0|].
    intros h Hh. split.
    + apply (proj1 (Hel 1 h 0 ltac:(lia) Hh ltac:(lia))).
      left. reflexivity.
    + apply (proj2 (Hel 0 h 1 ltac:(lia) Hh ltac:(lia))); discriminate.
Qed.

Lemma mask_fills_where_entry_is_zero_witness :
  exists V S S0 h1 h0,
    MultiHeadAttention.forward_scores
      (mkTensor [1; 2; 2] (Examples.zeros 4))
      (mkTensor [2; 2; 2] (Examples.zeros 8))
      (mkTensor [2; 2; 2] (Examples.zeros 8))
      (Some (mkTensor [1; 2; 1] [Int 7; Int 0]))
      (MultiHeadAttention.mkHeap (Examples.attention 2 1) Examples.fresh)
    = (Ok (1, 2, V, S), h1) /\
    MultiHeadAttention.forward_scores
      (mkTensor [1; 2; 2] (Examples.zeros 4))
      (mkTensor [2; 2; 2] (Examples.zeros 8))
      (mkTensor [2; 2; 2] (Examples.zeros 8)) None
      (MultiHeadAttention.mkHeap (Examples.attention 2 1)
         (ticked KUnsqueeze Examples.fresh))
    = (Ok (1, 2, V, S0), h0) /\
    elem S [0; 1; 0; 0] = NInf /\
    elem S [0; 0; 0; 1] = elem S0 (broadcast_index (shape S0) [0; 0; 0; 1]).
Proof.
  destruct (small_masked_scores (Examples.zeros 4) (Examples.zeros 8)
              (Examples.zeros 8) (Int 7) (Int 0) Examples.fresh)
    as (V & S & Es & Hsh).
  pose proof (proj1 mask_fills_where_entry_is_zero
                (Examples.attention 2 1) Examples.fresh
                (mkTensor [1; 2; 2] (Examples.zeros 4))
                (mkTensor [2; 2; 2] (Examples.zeros 8))
                (mkTensor [2; 2; 2] (Examples.zeros 8))
                (mkTensor [1; 2; 1] [Int 7; Int 0])
                1 2 2 2 1 2 1 [2; 2] [] 1 2 V S _
                eq_refl eq_refl eq_refl eq_refl Es) as H.
  cbv zeta in H. destruct H as (S0 & h0 & E0 & _ & Hel).
  exists V, S, S0. eexists. exists h0.
  split; [exact Es|]. split; [exact E0|].
  assert (H1 : in_range (shape S) [0; 1; 0; 0]) by (rewrite Hsh; in_range_tac).
  assert (H0 : in_range (shape S) [0; 0; 0; 1]) by (rewrite Hsh; in_range_tac).
  split.
  - apply (proj1 (Hel _ H1)). left. reflexivity.
  - apply (proj1 (proj2 (Hel _ H0)) 7%Z); [reflexivity|lia].
Defined.

(** C2, counterexample.  Two heads of width one, batch size two.
    (1) A key of one position and a value of two positions: the
    sequence lengths of key and value differ, no check looks at them,
    and the call returns a tensor.  (2) A key of width 3 instead of 2:
    the call raises, but only after the query has been projected (a
    linear map and a view have run). *)
Lemma forward_shape_mismatch_not_caught_early :
  (exists y,
     nth 0 (shape (mkTensor [1; 2; 2] (Examples.zeros 4))) 0
     <> nth 0 (shape (mkTensor [2; 2; 2] (Examples.zeros 8))) 0 /\
     fst (MultiHeadAttention.forward
            (mkTensor [1; 2; 2] (Examples.zeros 4))
            (mkTensor [1; 2; 2] (Examples.zeros 4))
            (mkTensor [2; 2; 2] (Examples.zeros 8))
            None
            (MultiHeadAttention.mkHeap (Examples.attention 2 1)
               Examples.fresh))
     = Ok y) /\
  (let r := MultiHeadAttention.forward
              (mkTensor [1; 2; 2] (Examples.zeros 4))
              (mkTensor [2; 2; 3] (Examples.zeros 12))
              (mkTensor [2; 2; 2] (Examples.zeros 8))
              None
              (MultiHeadAttention.mkHeap (Examples.attention 2 1)
                 Examples.fresh) in
   fst r = Err RuntimeError /\
   kernels (MultiHeadAttention.runtime (snd r)) = [KLinear; KView]).
Proof.
  pose proof (attention_constructed 2 1 ltac:(lia) ltac:(lia)) as Hc.
  change (2 * 1) with 2 in Hc.
  split.
  - destruct (forward_nomask_ok (Examples.attention 2 1) Examples.fresh
                2 2 1 1 2 1 2 2 2 2 2
                (mkTensor [1; 2; 2] (Examples.zeros 4))
                (mkTensor [1; 2; 2] (Examples.zeros 4))
                (mkTensor [2; 2; 2] (Examples.zeros 8))
                Hc (attention_valid 2 1)
                eq_refl eq_refl eq_refl eq_refl eq_refl eq_refl
                ltac:(simpl; lia) eq_refl eq_refl) as (y & Ey & _).
    exists y. split; [simpl; lia|exact Ey].
  - cbv zeta.
    rewrite (forward_rejects_bad_key_width (Examples.attention 2 1)
               Examples.fresh
               (mkTensor [1; 2; 2] (Examples.zeros 4))
               (mkTensor [2; 2; 3] (Examples.zeros 12))
               (mkTensor [2; 2; 2] (Examples.zeros 8))
               2 2 1 1 2 3 [2; 2] Hc eq_refl eq_refl ltac:(lia)).
    split; reflexivity.
Qed.

Lemma shape_errors_detected_witness :
  MultiHeadAttention.forward
    (mkTensor [5; 2; 512] (Examples.zeros (5 * 2 * 512)))
    (mkTensor [7; 2; 512] (Examples.zeros (7 * 2 * 512)))
    (mkTensor [7; 2; 512] (Examples.zeros (7 * 2 * 512)))
    (Some (mkTensor [1; 6; 1] (repeat (Int 1) 6)))
    (MultiHeadAttention.mkHeap (Examples.attention 8 64) Examples.fresh)
  = (Err AssertionError,
     MultiHeadAttention.mkHeap (Examples.attention 8 64) Examples.fresh)
  /\
  MultiHeadAttention.forward
    (mkTensor [1; 2; 2] (Examples.zeros 4))
    (mkTensor [2; 2; 2] (Examples.zeros 8))
    (mkTensor [2; 2; 3] (Examples.zeros 12))
    (Some (mkTensor [1; 2; 1] [Int 1; Int 1]))
    (MultiHeadAttention.mkHeap (Examples.attention 2 1) Examples.fresh)
  = (Err RuntimeError,
     MultiHeadAttention.mkHeap (Examples.attention 2 1)
       (ticked KView (ticked KLinear (ticked KView (ticked KLinear
          (ticked KUnsqueeze Examples.fresh)))))).
Proof.
  split.
  - apply (proj1 shape_errors_detected (Examples.attention 8 64)
             Examples.fresh
             (mkTensor [5; 2; 512] (Examples.zeros (5 * 2 * 512)))
             (mkTensor [7; 2; 512] (Examples.zeros (7 * 2 * 512)))
             (mkTensor [7; 2; 512] (Examples.zeros (7 * 2 * 512)))
             (mkTensor [1; 6; 1] (repeat (Int 1) 6))
             5 2 512 7 1 6 1 [2; 512] []
             eq_refl eq_refl eq_refl).
    right. left. lia.
  - pose proof (attention_constructed 2 1 ltac:(lia) ltac:(lia)) as Hc.
    change (2 * 1) with 2 in Hc.
    assert (Hacc : mask_accepted (Some (mkTensor [1; 2; 1] [Int 1; Int 1]))
                     1 2 (shape (mkTensor [2; 2; 2] (Examples.zeros 8)))).
    { exists 1, 2, 1, [], 2, [2; 2]. repeat split; auto. }
    pose proof (proj1 (proj2 shape_errors_detected)
                  (Examples.attention 2 1) Examples.fresh
                  (mkTensor [1; 2; 2] (Examples.zeros 4))
                  (mkTensor [2; 2; 2] (Examples.zeros 8))
                  (mkTensor [2; 2; 3] (Examples.zeros 12))
                  (Some (mkTensor [1; 2; 1] [Int 1; Int 1]))
                  2 2 1 1 2 2 2 3 [2; 2] [2; 2]
                  Hc eq_refl eq_refl eq_refl Hacc) as H.
    cbv zeta in H. destruct H as (_ & _ & Hv).
    apply Hv; [reflexivity|reflexivity|lia].
Defined.

(* ================================================================== *)
(** * The projection head, element by element *)

(** One element of the affine map: the dot product of the input row
    with a row of the weight, plus the bias of that row. *)
Lemma F_linear_elem (x W y : Tensor scalar) (b : option (Tensor scalar))
    (pre ipre : list nat) (i o c : nat) :
  shape W = [o; i] -> shape x = pre ++ [i] ->
  F_linear x W b = Ok y -> in_range pre ipre -> c < o ->
  elem y (ipre ++ [c])
  = let dot :=
      scalar_sum (map (fun j => scalar_mul (elem x (ipre ++ [j]))
                                           (elem W [c; j]))
                      (seq 0 i)) in
    match b with
    | Some bb => scalar_add dot (elem bb [c])
    | None => dot
    end.
Proof.
  intros HW Hx E Hpre Hc.
  assert (Hr : in_range (pre ++ [o]) (ipre ++ [c])).
  { apply in_range_app; [exact Hpre|]. in_range_tac. }
  unfold F_linear in E.
  rewrite HW, Hx, rev_app_distr, removelast_last in E. simpl in E.
  rewrite Nat.eqb_refl in E. simpl in E.
  destruct b as [bb|].
  - destruct (shape bb) as [|o' [|? ?]]; try discriminate.
    destruct (o' =? o); [|discriminate].
    inversion E; subst y. clear E.
    unfold elem at 1. rewrite get_tabulate by exact Hr.
    now rewrite removelast_last, last_last.
  - inversion E; subst y. clear E.
    unfold elem at 1. rewrite get_tabulate by exact Hr.
    now rewrite removelast_last, last_last.
Qed.

(** X1.  Head [h], feature [d] of the projection at a position is the
    dot product of the input row at that position with row
    [h * d_heads + d] of the weight matrix, plus the entry
    [h * d_heads + d] of the bias when the layer has one: positions are
    projected independently of each other, and head [h] owns the rows
    [h * d_heads .. h * d_heads + d_heads - 1] of the layer. *)
Theorem prepare_forward_elem
    (self : PrepareForMultiHeadAttention.t) (d_model : nat)
    (x : Tensor scalar) (pre : list nat) (w : Runtime) :
  prepared self d_model -> shape x = pre ++ [d_model] ->
  let H := Z.to_nat (PrepareForMultiHeadAttention.n_heads self) in
  let D := Z.to_nat (PrepareForMultiHeadAttention.d_heads self) in
  let W := Linear.weight (PrepareForMultiHeadAttention.linear self) in
  exists out,
    fst (PrepareForMultiHeadAttention.forward self x w) = Ok out /\
    forall ipre h d, in_range pre ipre -> h < H -> d < D ->
      let dot :=
        scalar_sum (map (fun j => scalar_mul (elem x (ipre ++ [j]))
                                             (elem W [h * D + d; j]))
                        (seq 0 d_model)) in
      elem out (ipre ++ [h; d])
      = match Linear.bias (PrepareForMultiHeadAttention.linear self) with
        | Some b => scalar_add dot (elem b [h * D + d])
        | None => dot
        end.
Proof.
  intros Hp Hx H D W.
  destruct (prepare_forward_ok self d_model x pre w Hp Hx) as (f & Ey & Eo).
  fold H D in Ey, Eo.
  eexists. split; [rewrite Eo; reflexivity|].
  intros ipre h d Hpre Hh Hd.
  destruct Hp as (Hn & Hdh & HW & _).
  assert (HD : Z.to_nat (PrepareForMultiHeadAttention.n_heads self
                         * PrepareForMultiHeadAttention.d_heads self)
               = H * D) by (unfold H, D; now rewrite Z2Nat.inj_mul).
  rewrite HD in HW.
  assert (Hc : h * D + d < H * D) by nia.
  pose proof (F_linear_elem x _ _ _ pre ipre d_model (H * D) (h * D + d)
                HW Hx Ey Hpre Hc) as Hy.
  cbv zeta in Hy. cbv zeta. fold W in Hy. rewrite <- Hy.
  unfold elem, get. cbn [shape data tabulate].
  now rewrite ravel_split_last.
Qed.

Lemma prepare_forward_elem_witness :
  exists out,
    fst (PrepareForMultiHeadAttention.forward Examples.head2 Examples.x12
           Examples.fresh) = Ok out /\
    elem out [0; 1; 0]
    = scalar_sum
        (map (fun j => scalar_mul (elem Examples.x12 [0; j])
                         (elem (Linear.weight
                                  (PrepareForMultiHeadAttention.linear
                                     Examples.head2)) [1; j]))
             (seq 0 2)).
Proof.
  assert (Hp : prepared Examples.head2 2).
  { unfold prepared, linear_shaped. simpl. repeat split; lia. }
  destruct (prepare_forward_elem Examples.head2 2 Examples.x12 [1]
              Examples.fresh Hp eq_refl) as (out & E & Hel).
  exists out. split; [exact E|].
  apply (Hel [0] 1 0); [in_range_tac|simpl; lia|simpl; lia].
Defined.

(** X2.  The projection head raises [RuntimeError], before any kernel
    has run, on a tensor without axes and on a tensor whose last axis
    is not [d_model] wide. *)
Theorem prepare_forward_rejects
    (self : PrepareForMultiHeadAttention.t) (d_model : nat)
    (x : Tensor scalar) (w : Runtime) :
  prepared self d_model ->
  shape x = [] \/ (exists pre k, shape x = pre ++ [k] /\ k <> d_model) ->
  PrepareForMultiHeadAttention.forward self x w = (Err RuntimeError, w).
Proof.
  intros Hp [H0|(pre & k & Hx & Hk)].
  - destruct Hp as (_ & _ & HW & _).
    unfold PrepareForMultiHeadAttention.forward, Linear.forward, op, bind,
      lift, F_linear.
    rewrite HW, H0. reflexivity.
  - exact (prepare_forward_width_mismatch self d_model x pre k w Hp Hx Hk).
Qed.

Lemma prepare_forward_rejects_witness :
  PrepareForMultiHeadAttention.forward Examples.head2
    (mkTensor [1; 3] [Finite 1; Finite 2; Finite 3]) Examples.fresh
  = (Err RuntimeError, Examples.fresh).
Proof.
  apply (prepare_forward_rejects Examples.head2 2).
  - unfold prepared, linear_shaped. simpl. repeat split; lia.
  - right. exists [1], 3. split; [reflexivity|lia].
Defined.

(* ================================================================== *)
(** * Sizes the constructor of the projection head does not check *)

Lemma existsb_app_r {A} (f : A -> bool) (l r : list A) :
  existsb f r = true -> existsb f (l ++ r) = true.
Proof. intros H. rewrite existsb_app, H. apply orb_true_r. Qed.

Lemma count_infer_app (l r : list Z) :
  count_infer (l ++ r) = count_infer l + count_infer r.
Proof. unfold count_infer. now rewrite filter_app, length_app. Qed.

(** [view] asked for two negative trailing sizes: a size below
    [-1] is invalid, and [-1] twice leaves two sizes to infer. *)
Lemma infer_size_two_negative (pre : list nat) (a b : Z) (n : nat) :
  (a < 0)%Z -> (b < 0)%Z ->
  infer_size (map Z.of_nat pre ++ [a; b]) n = Err RuntimeError.
Proof.
  intros Ha Hb. unfold infer_size.
  destruct (existsb (fun d => (d <? -1)%Z) (map Z.of_nat pre ++ [a; b]))
    eqn:Ex; [reflexivity|].
  assert (Hab : a = (-1)%Z /\ b = (-1)%Z).
  { rewrite existsb_app in Ex. apply orb_false_iff in Ex.
    destruct Ex as (_ & Ex). simpl in Ex.
    destruct (Z.ltb_spec a (-1)); [discriminate|].
    destruct (Z.ltb_spec b (-1)); [discriminate|]. lia. }
  destruct Hab as (-> & ->).
  rewrite count_infer_app, no_inferred_dim. reflexivity.
Qed.

(** X3.  The constructor of the projection head checks no sign: it
    succeeds exactly when neither [d_model] nor the product
    [n_heads * d_heads] is negative.  In particular it accepts two
    negative sizes, and the head it then returns raises [RuntimeError]
    on every input. *)
Theorem prepare_init_checks_no_sign
    (gen : nat -> scalar) (d_model n_heads d_heads : Z) (bias : bool)
    (pos : nat) :
  (is_Ok (fst (PrepareForMultiHeadAttention.init
                 gen d_model n_heads d_heads bias pos)) = true
   <-> (0 <= d_model)%Z /\ (0 <= n_heads * d_heads)%Z)
  /\
  ((0 <= d_model)%Z -> (n_heads < 0)%Z -> (d_heads < 0)%Z ->
   exists self pos',
     PrepareForMultiHeadAttention.init gen d_model n_heads d_heads bias pos
     = (Ok self, pos') /\
     forall x w,
       fst (PrepareForMultiHeadAttention.forward self x w)
       = Err RuntimeError).
Proof.
  split.
  - split.
    + destruct (PrepareForMultiHeadAttention.init
                  gen d_model n_heads d_heads bias pos)
        as [[self|e] pos'] eqn:E; simpl; [|discriminate].
      intros _. apply prepare_init_inv in E. tauto.
    + intros (Hd & Hp).
      destruct (prepare_init_ok gen d_model n_heads d_heads bias pos Hd Hp)
        as (self & pos' & E).
      now rewrite E.
  - intros Hd Hn Hh.
    destruct (prepare_init_ok gen d_model n_heads d_heads bias pos Hd)
      as (self & pos' & E); [nia|].
    exists self, pos'. split; [exact E|].
    apply prepare_init_inv in E. destruct E as (_ & _ & En & Eh & _).
    intros x w.
    unfold PrepareForMultiHeadAttention.forward, Linear.forward, op, bind,
      lift, tick, modify, ret.
    destruct (F_linear x
                (Linear.weight (PrepareForMultiHeadAttention.linear self))
                (Linear.bias (PrepareForMultiHeadAttention.linear self)))
      as [y|e] eqn:Ey.
    + unfold view. rewrite En, Eh.
      rewrite (infer_size_two_negative _ _ _ _ Hn Hh). reflexivity.
    + simpl. now rewrite (F_linear_raises _ _ _ _ Ey).
Qed.

Lemma prepare_init_checks_no_sign_witness :
  exists self pos',
    PrepareForMultiHeadAttention.init (fun _ => Finite 0) 6 (-2) (-3) true 0
    = (Ok self, pos') /\
    fst (PrepareForMultiHeadAttention.forward self
           (mkTensor [1; 6] (Examples.zeros 6)) Examples.fresh)
    = Err RuntimeError.
Proof.
  destruct (proj2 (prepare_init_checks_no_sign
                     (fun _ => Finite 0) 6 (-2) (-3) true 0))
    as (self & pos' & E & Hf); [lia|lia|lia|].
  exists self, pos'. split; [exact E|apply Hf].
Defined.

(* ================================================================== *)
(** * [get_scores] *)

Lemma get_scores_run (q k : Tensor scalar) (w : Runtime) :
  MultiHeadAttention.get_scores q k w
  = match einsum "ibhd,jbhd->ibhj" q k with
    | Ok r => (Ok r, ticked KEinsum w)
    | Err e => (Err e, w)
    end.
Proof.
  unfold MultiHeadAttention.get_scores. mred.
  destruct (einsum "ibhd,jbhd->ibhj" q k); reflexivity.
Qed.

(** X4.  On a query of shape [(I, B, H, D)] and a key of shape
    [(J, B, H, D)], [get_scores] returns a tensor of shape
    [(I, B, H, J)] whose entry at [(i, b, h, j)] is the dot product of
    the query vector at [(i, b, h)] with the key vector at [(j, b, h)];
    one kernel runs. *)
Theorem get_scores_dot_products
    (q k : Tensor scalar) (I B H D J : nat) (w : Runtime) :
  shape q = [I; B; H; D] -> shape k = [J; B; H; D] ->
  exists r,
    MultiHeadAttention.get_scores q k w = (Ok r, ticked KEinsum w) /\
    shape r = [I; B; H; J] /\
    forall i b h j, i < I -> b < B -> h < H -> j < J ->
      elem r [i; b; h; j]
      = scalar_sum (map (fun d => scalar_mul (elem q [i; b; h; d])
                                             (elem k [j; b; h; d]))
                        (seq 0 D)).
Proof.
  intros Hq Hk.
  assert (Es : shape_of (einsum "ibhd,jbhd->ibhj" q k) = Ok [I; B; H; J]).
  { rewrite (einsum_scores_shape q k I B H D J B H D Hq Hk).
    now rewrite !merge_dim_same. }
  apply shape_of_Ok in Es. destruct Es as (r & Er & Hr).
  exists r. rewrite get_scores_run, Er.
  split; [reflexivity|]. split; [exact Hr|].
  intros i b h j Hi Hb Hh Hj.
  exact (einsum_scores_elem q k r I B H D J i b h j Hq Hk Er Hi Hb Hh Hj).
Qed.

Lemma get_scores_dot_products_witness :
  exists r,
    MultiHeadAttention.get_scores
      (mkTensor [1; 1; 1; 2] [Finite 1; Finite 2])
      (mkTensor [2; 1; 1; 2] [Finite 3; Finite 4; Finite 5; Finite 6])
      Examples.fresh
    = (Ok r, ticked KEinsum Examples.fresh) /\
    shape r = [1; 1; 1; 2].
Proof.
  destruct (get_scores_dot_products
              (mkTensor [1; 1; 1; 2] [Finite 1; Finite 2])
              (mkTensor [2; 1; 1; 2] [Finite 3; Finite 4; Finite 5; Finite 6])
              1 1 1 2 2 Examples.fresh eq_refl eq_refl)
    as (r & E & Hs & _).
  exists r. split; [exact E|exact Hs].
Defined.

Lemma scalar_mul_comm (x y : scalar) : scalar_mul x y = scalar_mul y x.
Proof.
  destruct x, y; simpl; try reflexivity. now rewrite Rmult_comm.
Qed.

(** X5.  Exchanging query and key transposes the scores: the score of
    key position [j] for query position [i] is the score of [i] for
    [j] when the two tensors change places. *)
Theorem get_scores_exchange
    (q k : Tensor scalar) (I B H D J : nat) (w w' : Runtime) :
  shape q = [I; B; H; D] -> shape k = [J; B; H; D] ->
  exists r r',
    fst (MultiHeadAttention.get_scores q k w) = Ok r /\
    fst (MultiHeadAttention.get_scores k q w') = Ok r' /\
    forall i b h j, i < I -> b < B -> h < H -> j < J ->
      elem r' [j; b; h; i] = elem r [i; b; h; j].
Proof.
  intros Hq Hk.
  assert (Es : shape_of (einsum "ibhd,jbhd->ibhj" q k) = Ok [I; B; H; J]).
  { rewrite (einsum_scores_shape q k I B H D J B H D Hq Hk).
    now rewrite !merge_dim_same. }
  assert (Es' : shape_of (einsum "ibhd,jbhd->ibhj" k q) = Ok [J; B; H; I]).
  { rewrite (einsum_scores_shape k q J B H D I B H D Hk Hq).
    now rewrite !merge_dim_same. }
  apply shape_of_Ok in Es. destruct Es as (r & Er & _).
  apply shape_of_Ok in Es'. destruct Es' as (r' & Er' & _).
  exists r, r'. rewrite !get_scores_run, Er, Er'.
  split; [reflexivity|]. split; [reflexivity|].
  intros i b h j Hi Hb Hh Hj.
  rewrite (einsum_scores_elem k q r' J B H D I j b h i Hk Hq Er' Hj Hb Hh Hi).
  rewrite (einsum_scores_elem q k r I B H D J i b h j Hq Hk Er Hi Hb Hh Hj).
  f_equal. apply map_ext. intros d. apply scalar_mul_comm.
Qed.

Lemma get_scores_exchange_witness :
  exists r r',
    fst (MultiHeadAttention.get_scores
           (mkTensor [1; 1; 1; 2] [Finite 1; Finite 2])
           (mkTensor [2; 1; 1; 2] [Finite 3; Finite 4; Finite 5; Finite 6])
           Examples.fresh) = Ok r /\
    fst (MultiHeadAttention.get_scores
           (mkTensor [2; 1; 1; 2] [Finite 3; Finite 4; Finite 5; Finite 6])
           (mkTensor [1; 1; 1; 2] [Finite 1; Finite 2])
           Examples.fresh) = Ok r' /\
    elem r' [1; 0; 0; 0] = elem r [0; 0; 0; 1].
Proof.
  destruct (get_scores_exchange
              (mkTensor [1; 1; 1; 2] [Finite 1; Finite 2])
              (mkTensor [2; 1; 1; 2] [Finite 3; Finite 4; Finite 5; Finite 6])
              1 1 1 2 2 Examples.fresh Examples.fresh eq_refl eq_refl)
    as (r & r' & E & E' & Hel).
  exists r, r'. split; [exact E|]. split; [exact E'|].
  apply Hel; lia.
Defined.

(** Letters and axes of an operand must be equally many. *)
Lemma operand_sizes_raises (ls : list ascii) (sh : list nat) (e : sizes)
    (x : exn) :
  operand_sizes ls sh e = Err x -> x = RuntimeError.
Proof.
  revert sh e. induction ls as [|c ls IH]; intros [|d sh] e; simpl;
    try (intros E; now inversion E).
  destruct (lookup c e) as [d'|]; [|apply IH].
  destruct (d' =? d); [apply IH|intros E; now inversion E].
Qed.

Lemma operand_sizes_rank (ls : list ascii) (sh : list nat) (e : sizes) :
  List.length ls <> List.length sh ->
  operand_sizes ls sh e = Err RuntimeError.
Proof.
  revert sh e. induction ls as [|c ls IH]; intros [|d sh] e H; simpl;
    try reflexivity; try (simpl in H; lia).
  assert (H' : List.length ls <> List.length sh) by (simpl in H; lia).
  destruct (lookup c e) as [d'|]; [|now apply IH].
  destruct (d' =? d); [now apply IH|reflexivity].
Qed.

(** X6.  [get_scores] matches the batch, head and feature axes of its
    operands: each pair of sizes must be equal or contain a 1, which is
    then broadcast.  On operands with four axes it returns a tensor of
    shape [(I, b, h, J)] when the three pairs fit and raises
    [RuntimeError] otherwise; an operand with another number of axes
    raises [RuntimeError] as well.  A call that raises records no
    kernel. *)
Theorem get_scores_axes (q k : Tensor scalar) (w : Runtime) :
  (forall x0 x1 x2 x3 y0 y1 y2 y3,
      shape q = [x0; x1; x2; x3] -> shape k = [y0; y1; y2; y3] ->
      match merge_dim x1 y1, merge_dim x2 y2, merge_dim x3 y3 with
      | Ok b, Ok h, Ok _ =>
          exists r,
            MultiHeadAttention.get_scores q k w = (Ok r, ticked KEinsum w) /\
            shape r = [x0; b; h; y0]
      | _, _, _ =>
          MultiHeadAttention.get_scores q k w = (Err RuntimeError, w)
      end)
  /\
  (ndim q <> 4 \/ ndim k <> 4 ->
   MultiHeadAttention.get_scores q k w = (Err RuntimeError, w)).
Proof.
  split.
  - intros x0 x1 x2 x3 y0 y1 y2 y3 Hq Hk.
    pose proof (einsum_scores_shape q k x0 x1 x2 x3 y0 y1 y2 y3 Hq Hk) as Es.
    rewrite get_scores_run.
    destruct (merge_dim x1 y1) as [b|e1] eqn:E1.
    2:{ apply merge_dim_raises in E1. subst e1. simpl in Es.
        apply shape_of_Err in Es. now rewrite Es. }
    destruct (merge_dim x2 y2) as [h|e2] eqn:E2.
    2:{ apply merge_dim_raises in E2. subst e2. simpl in Es.
        apply shape_of_Err in Es. now rewrite Es. }
    destruct (merge_dim x3 y3) as [d|e3] eqn:E3.
    2:{ apply merge_dim_raises in E3. subst e3. simpl in Es.
        apply shape_of_Err in Es. now rewrite Es. }
    simpl in Es. apply shape_of_Ok in Es. destruct Es as (r & Er & Hr).
    exists r. rewrite Er. split; [reflexivity|exact Hr].
  - intros Hrank. rewrite get_scores_run. unfold einsum.
    rewrite parse_scores.
    destruct (operand_sizes ["i"; "b"; "h"; "d"]%char (shape q) [])
      as [ea|e] eqn:Ea; cbn [res_bind].
    2:{ apply operand_sizes_raises in Ea. now subst e. }
    destruct (operand_sizes ["j"; "b"; "h"; "d"]%char (shape k) [])
      as [eb|e] eqn:Eb; cbn [res_bind].
    2:{ apply operand_sizes_raises in Eb. now subst e. }
    exfalso. destruct Hrank as [Hr|Hr].
    + rewrite operand_sizes_rank in Ea; [discriminate|].
      unfold ndim in Hr. simpl. congruence.
    + rewrite operand_sizes_rank in Eb; [discriminate|].
      unfold ndim in Hr. simpl. congruence.
Qed.

Lemma get_scores_axes_witness :
  MultiHeadAttention.get_scores
    (mkTensor [1; 2; 1; 2] (Examples.zeros 4))
    (mkTensor [2; 3; 1; 2] (Examples.zeros 12))
    Examples.fresh
  = (Err RuntimeError, Examples.fresh)
  /\
  MultiHeadAttention.get_scores
    (mkTensor [1; 2] [Finite 1; Finite 2])
    (mkTensor [2; 1; 1; 2] [Finite 3; Finite 4; Finite 5; Finite 6])
    Examples.fresh
  = (Err RuntimeError, Examples.fresh).
Proof.
  split.
  - exact (proj1 (get_scores_axes
                    (mkTensor [1; 2; 1; 2] (Examples.zeros 4))
                    (mkTensor [2; 3; 1; 2] (Examples.zeros 12))
                    Examples.fresh)
             1 2 1 2 2 3 1 2 eq_refl eq_refl).
  - apply (proj2 (get_scores_axes
                    (mkTensor [1; 2] [Finite 1; Finite 2])
                    (mkTensor [2; 1; 1; 2]
                       [Finite 3; Finite 4; Finite 5; Finite 6])
                    Examples.fresh)).
    left. unfold ndim. simpl. lia.
Defined.

(* ================================================================== *)
(** * [prepare_mask] *)

(** A trailing axis of size 1 moves no element. *)
Lemma ravel_unsqueezed (sh idx : list nat) :
  in_range sh idx -> ravel (sh ++ [1]) (idx ++ [0]) = ravel sh idx.
Proof.
  induction 1 as [|i d idx sh _ _ IH]; simpl; [reflexivity|].
  fold (prod_list (sh ++ [1])) (prod_list sh).
  rewrite IH, prod_list_app. simpl. lia.
Qed.

(** X7.  On a mask with at least three axes, [prepare_mask] looks at
    the first three sizes only: it returns when the first is 1 or the
    number of query positions, the second is the number of key
    positions and the third is 1 or the batch size, and raises
    [AssertionError] with nothing run otherwise.  The mask it returns is
    the given one under one more, trailing axis of size 1: the element
    at [idx ++ [0]] is the element at [idx]. *)
Theorem prepare_mask_checks_three_sizes
    (mask : Tensor number) (w : Runtime)
    (m0 m1 m2 Sq B Sk : nat) (rest qrest krest : list nat) :
  shape mask = m0 :: m1 :: m2 :: rest ->
  ((m0 = 1 \/ m0 = Sq) /\ m1 = Sk /\ (m2 = 1 \/ m2 = B) ->
   exists r,
     MultiHeadAttention.prepare_mask mask (Sq :: B :: qrest) (Sk :: krest) w
     = (Ok r, ticked KUnsqueeze w) /\
     shape r = shape mask ++ [1] /\
     forall idx d, in_range (shape mask) idx ->
       get d r (idx ++ [0]) = get d mask idx)
  /\
  (~ ((m0 = 1 \/ m0 = Sq) /\ m1 = Sk /\ (m2 = 1 \/ m2 = B)) ->
   MultiHeadAttention.prepare_mask mask (Sq :: B :: qrest) (Sk :: krest) w
   = (Err AssertionError, w)).
Proof.
  intros Hm.
  assert (Hrun :
    MultiHeadAttention.prepare_mask mask (Sq :: B :: qrest) (Sk :: krest) w
    = if ((m0 =? 1) || (m0 =? Sq)) && (m1 =? Sk) && ((m2 =? 1) || (m2 =? B))
      then (Ok (mkTensor (shape mask ++ [1]) (data mask)),
            ticked KUnsqueeze w)
      else (Err AssertionError, w)).
  { unfold MultiHeadAttention.prepare_mask.
    rewrite unsqueeze_last, Hm.
    cbv beta iota zeta delta [bind ret lift op tick modify index assert
                              nth_error].
    destruct (m0 =? 1); destruct (m0 =? Sq); destruct (m1 =? Sk);
      destruct (m2 =? 1); destruct (m2 =? B); reflexivity. }
  rewrite Hrun. clear Hrun.
  destruct (Nat.eqb_spec m0 1); destruct (Nat.eqb_spec m0 Sq);
    destruct (Nat.eqb_spec m1 Sk); destruct (Nat.eqb_spec m2 1);
    destruct (Nat.eqb_spec m2 B); simpl;
    (split; [intros Hok|intros Hbad]);
    try (exfalso; tauto); try reflexivity;
    (eexists; split; [reflexivity|]; split; [reflexivity|];
     intros idx d Hidx; unfold get; cbn [shape data];
     now rewrite ravel_unsqueezed).
Qed.

Lemma prepare_mask_checks_three_sizes_witness :
  (exists r,
     MultiHeadAttention.prepare_mask
       (mkTensor [1; 2; 1] [Int 1; Int 0]) [1; 2; 2] [2; 2; 2] Examples.fresh
     = (Ok r, ticked KUnsqueeze Examples.fresh) /\
     shape r = [1; 2; 1; 1])
  /\
  MultiHeadAttention.prepare_mask
    (mkTensor [1; 3; 1] [Int 1; Int 0; Int 1]) [1; 2; 2] [2; 2; 2]
    Examples.fresh
  = (Err AssertionError, Examples.fresh).
Proof.
  split.
  - destruct (proj1 (prepare_mask_checks_three_sizes
                       (mkTensor [1; 2; 1] [Int 1; Int 0]) Examples.fresh
                       1 2 1 1 2 2 [] [2] [2; 2] eq_refl))
      as (r & E & Hs & _); [lia|].
    exists r. split; [exact E|exact Hs].
  - apply (proj2 (prepare_mask_checks_three_sizes
                    (mkTensor [1; 3; 1] [Int 1; Int 0; Int 1]) Examples.fresh
                    1 3 1 1 2 2 [] [2] [2; 2] eq_refl)).
    lia.
Defined.

(** X8.  A mask with fewer than three axes is never accepted:
    [prepare_mask] raises [IndexError] or [AssertionError] and runs
    nothing.  A mask of shape [(Sq, Sk)] or [(1, Sk)], which passes the
    first two assertions, raises [IndexError] at the third. *)
Theorem prepare_mask_needs_three_axes
    (mask : Tensor number) (query_shape key_shape : list nat) (w : Runtime) :
  (ndim mask < 3 ->
   exists e,
     MultiHeadAttention.prepare_mask mask query_shape key_shape w
     = (Err e, w) /\ (e = IndexError \/ e = AssertionError))
  /\
  (forall m0 m1 Sq Sk qrest krest,
      shape mask = [m0; m1] ->
      query_shape = Sq :: qrest -> key_shape = Sk :: krest ->
      m0 = 1 \/ m0 = Sq -> m1 = Sk ->
      MultiHeadAttention.prepare_mask mask query_shape key_shape w
      = (Err IndexError, w)).
Proof.
  split.
  - unfold ndim. intros Hrank.
    unfold MultiHeadAttention.prepare_mask.
    destruct (shape mask) as [|m0 [|m1 [|m2 rest]]]; [| | |simpl in Hrank; lia];
      cbv beta iota zeta delta [bind ret lift op tick modify index assert
                                nth_error];
      try (eexists; split; [reflexivity|tauto]).
    + destruct (m0 =? 1).
      * eexists; split; [reflexivity|tauto].
      * destruct query_shape as [|q0 ?];
          [eexists; split; [reflexivity|tauto]|].
        destruct (m0 =? q0); eexists; split; try reflexivity; tauto.
    + destruct (m0 =? 1).
      * destruct key_shape as [|k0 ?];
          [eexists; split; [reflexivity|tauto]|].
        destruct (m1 =? k0); eexists; split; try reflexivity; tauto.
      * destruct query_shape as [|q0 ?];
          [eexists; split; [reflexivity|tauto]|].
        destruct (m0 =? q0); [|eexists; split; [reflexivity|tauto]].
        destruct key_shape as [|k0 ?];
          [eexists; split; [reflexivity|tauto]|].
        destruct (m1 =? k0); eexists; split; try reflexivity; tauto.
  - intros m0 m1 Sq Sk qrest krest Hm -> -> H0 ->.
    unfold MultiHeadAttention.prepare_mask. rewrite Hm.
    cbv beta iota zeta delta [bind ret lift op tick modify index assert
                              nth_error].
    rewrite Nat.eqb_refl.
    destruct (Nat.eqb_spec m0 1); [reflexivity|].
    destruct (Nat.eqb_spec m0 Sq); [reflexivity|lia].
Qed.

Lemma prepare_mask_needs_three_axes_witness :
  (exists e,
     MultiHeadAttention.prepare_mask (mkTensor [2] [Int 1; Int 0])
       [1; 2; 2] [2; 2; 2] Examples.fresh
     = (Err e, Examples.fresh) /\ (e = IndexError \/ e = AssertionError))
  /\
  MultiHeadAttention.prepare_mask
    (mkTensor [1; 2] [Int 1; Int 0]) [1; 2; 2] [2; 2; 2] Examples.fresh
  = (Err IndexError, Examples.fresh).
Proof.
  split.
  - apply (proj1 (prepare_mask_needs_three_axes
                    (mkTensor [2] [Int 1; Int 0]) [1; 2; 2] [2; 2; 2]
                    Examples.fresh)).
    unfold ndim. simpl. lia.
  - apply (proj2 (prepare_mask_needs_three_axes
                    (mkTensor [1; 2] [Int 1; Int 0]) [1; 2; 2] [2; 2; 2]
                    Examples.fresh) 1 2 1 2 [2; 2] [2; 2]);
      try reflexivity; lia.
Defined.

(* ================================================================== *)
(** * The constructor of [MultiHeadAttention], case by case *)

Lemma math_sqrt_negative (n : Z) :
  (n < 0)%Z -> math_sqrt n = Err ValueError.
Proof.
  intros H. unfold math_sqrt. destruct (Z.ltb_spec n 0); [reflexivity|lia].
Qed.

Lemma inverse_root_of_zero :
  res_bind (math_sqrt 0) (truediv (Finite 1)) = Err ZeroDivisionError.
Proof.
  unfold math_sqrt, truediv. simpl. unfold Reqb.
  destruct (Req_dec_T (sqrt 0) 0) as [|H]; [reflexivity|].
  exfalso. apply H. exact sqrt_0.
Qed.

(** The layers are built before the dropout probability is looked at
    and before the scale is computed. *)
Lemma init_layers_then_scale (gen : nat -> scalar) (n_heads d_model : Z)
    (p : scalar) (bias : bool) (pos : nat) :
  n_heads <> 0%Z -> (0 <= d_model)%Z ->
  fst (MultiHeadAttention.init gen n_heads d_model p bias pos)
  = if bad_probability p then Err ValueError
    else match res_bind (math_sqrt (d_model / n_heads))
                 (truediv (Finite 1)) with
         | Ok _ => fst (MultiHeadAttention.init gen n_heads d_model p bias pos)
         | Err e => Err e
         end.
Proof.
  intros Hn Hd.
  assert (Hprod : (0 <= n_heads * (d_model / n_heads))%Z).
  { destruct (Z_lt_le_dec n_heads 0).
    - assert (d_model / n_heads <= 0)%Z; [|nia].
      destruct (Z_le_gt_dec (d_model / n_heads) 0); [assumption|].
      exfalso.
      pose proof (Z.div_mod d_model n_heads Hn).
      pose proof (Z.mod_neg_bound d_model n_heads ltac:(lia)). nia.
    - assert (0 <= d_model / n_heads)%Z by (apply Z.div_pos; lia). nia. }
  unfold MultiHeadAttention.init, bind, lift, ret, floordiv.
  destruct (Z.eqb_spec n_heads 0); [contradiction|].
  destruct (prepare_init_ok gen d_model n_heads (d_model / n_heads) bias pos
              Hd Hprod) as (q & p1 & Eq). rewrite Eq.
  destruct (prepare_init_ok gen d_model n_heads (d_model / n_heads) bias p1
              Hd Hprod) as (k & p2 & Ek). rewrite Ek.
  destruct (prepare_init_ok gen d_model n_heads (d_model / n_heads) true p2
              Hd Hprod) as (v & p3 & Ev). rewrite Ev.
  destruct (Linear_init_ok gen d_model d_model true p3 Hd Hd)
    as (o & p4 & Eo). rewrite Eo.
  unfold Dropout.init.
  destruct (bad_probability p); [reflexivity|].
  destruct (math_sqrt (d_model / n_heads)) as [r|e]; [|reflexivity].
  cbn [res_bind].
  destruct (truediv (Finite 1) r); reflexivity.
Qed.

(** X9.  Which exception the constructor raises.  No heads:
    [ZeroDivisionError] from [d_model // n_heads].  A negative
    [d_model]: [RuntimeError] from the first [nn.Linear].  Otherwise
    the layers are built, and then: a dropout probability outside
    [[0, 1]] gives [ValueError] from [nn.Dropout]; with a valid
    probability, a negative number of heads over a positive [d_model]
    gives [ValueError] from [math.sqrt], and fewer features than heads
    (or no features) gives [ZeroDivisionError] from the division by
    [math.sqrt(0)]. *)
Theorem init_raises
    (gen : nat -> scalar) (n_heads d_model : Z) (p : scalar) (bias : bool)
    (pos : nat) :
  let r := fst (MultiHeadAttention.init gen n_heads d_model p bias pos) in
  (n_heads = 0%Z -> r = Err ZeroDivisionError) /\
  (n_heads <> 0%Z -> (d_model < 0)%Z -> r = Err RuntimeError) /\
  (n_heads <> 0%Z -> (0 <= d_model)%Z -> bad_probability p = true ->
   r = Err ValueError) /\
  (bad_probability p = false -> (n_heads < 0)%Z -> (0 < d_model)%Z ->
   r = Err ValueError) /\
  (bad_probability p = false -> n_heads <> 0%Z ->
   (0 <= d_model < n_heads)%Z \/ d_model = 0%Z ->
   r = Err ZeroDivisionError).
Proof.
  intros r. unfold r. clear r. repeat split.
  - intros ->. unfold MultiHeadAttention.init, bind, lift, floordiv.
    reflexivity.
  - intros Hn Hd.
    unfold MultiHeadAttention.init, bind, lift, ret, floordiv.
    destruct (Z.eqb_spec n_heads 0); [contradiction|].
    unfold PrepareForMultiHeadAttention.init, bind.
    rewrite Linear_init_negative by (left; exact Hd). reflexivity.
  - intros Hn Hd Hp.
    rewrite (init_layers_then_scale gen n_heads d_model p bias pos Hn Hd).
    now rewrite Hp.
  - intros Hp Hn Hd.
    rewrite (init_layers_then_scale gen n_heads d_model p bias pos)
      by lia.
    rewrite Hp, math_sqrt_negative; [reflexivity|].
    destruct (Z_lt_le_dec (d_model / n_heads) 0); [assumption|].
    exfalso.
    pose proof (Z.div_mod d_model n_heads ltac:(lia)).
    pose proof (Z.mod_neg_bound d_model n_heads ltac:(lia)). nia.
  - intros Hp Hn Hd.
    rewrite (init_layers_then_scale gen n_heads d_model p bias pos)
      by lia.
    rewrite Hp.
    assert (Hq : (d_model / n_heads = 0)%Z).
    { destruct Hd as [Hd| ->]; [now apply Z.div_small|now apply Z.div_0_l]. }
    rewrite Hq, inverse_root_of_zero. reflexivity.
Qed.

Lemma init_raises_witness :
  fst (MultiHeadAttention.init (fun _ => Finite 0) 0 512 (Finite 0) true 0)
  = Err ZeroDivisionError /\
  fst (MultiHeadAttention.init (fun _ => Finite 0) 8 (-512) (Finite 0) true 0)
  = Err RuntimeError /\
  fst (MultiHeadAttention.init (fun _ => Finite 0) 8 512 (Finite 2) true 0)
  = Err ValueError /\
  fst (MultiHeadAttention.init (fun _ => Finite 0) (-8) 512 (Finite 0) true 0)
  = Err ValueError /\
  fst (MultiHeadAttention.init (fun _ => Finite 0) 8 4 (Finite 0) true 0)
  = Err ZeroDivisionError.
Proof.
  assert (B0 : bad_probability (Finite 0) = false)
    by (apply good_probability_finite; lra).
  assert (B2 : bad_probability (Finite 2) = true).
  { unfold bad_probability. simpl. unfold Rltb.
    destruct (Rlt_dec 2 0); [lra|]. destruct (Rlt_dec 1 2); [reflexivity|lra]. }
  pose proof (init_raises (fun _ => Finite 0) 0 512 (Finite 0) true 0) as H1.
  pose proof (init_raises (fun _ => Finite 0) 8 (-512) (Finite 0) true 0)
    as H2.
  pose proof (init_raises (fun _ => Finite 0) 8 512 (Finite 2) true 0) as H3.
  pose proof (init_raises (fun _ => Finite 0) (-8) 512 (Finite 0) true 0)
    as H4.
  pose proof (init_raises (fun _ => Finite 0) 8 4 (Finite 0) true 0) as H5.
  cbv zeta in H1, H2, H3, H4, H5.
  destruct H1 as (H1 & _). destruct H2 as (_ & H2 & _).
  destruct H3 as (_ & _ & H3 & _). destruct H4 as (_ & _ & _ & H4 & _).
  destruct H5 as (_ & _ & _ & _ & H5).
  split; [apply H1; reflexivity|].
  split; [apply H2; lia|].
  split; [apply H3; [lia|lia|exact B2]|].
  split; [apply H4; [exact B0|lia|lia]|].
  apply H5; [exact B0|lia|lia].
Defined.

(** X10.  In a module returned by the constructor each head has
    [d_model // n_heads] features, so the three projections are
    [n_heads * (d_model // n_heads) = d_model - d_model mod n_heads]
    wide: as wide as the embedding exactly when [n_heads] divides
    [d_model], narrower otherwise.  The scale is the positive number
    whose square times the number of features per head is 1. *)
Theorem init_head_width_and_scale
    (gen : nat -> scalar) (n_heads d_model : Z) (p : scalar) (bias : bool)
    (pos pos' : nat) (m : MultiHeadAttention.t) :
  MultiHeadAttention.init gen n_heads d_model p bias pos = (Ok m, pos') ->
  let D := (d_model / n_heads)%Z in
  let width := Z.to_nat (d_model - d_model mod n_heads) in
  MultiHeadAttention.n_features m = D /\
  MultiHeadAttention.n_heads m = n_heads /\
  (forall head,
      head = MultiHeadAttention.query m \/ head = MultiHeadAttention.key m \/
      head = MultiHeadAttention.value m ->
      PrepareForMultiHeadAttention.n_heads head = n_heads /\
      PrepareForMultiHeadAttention.d_heads head = D /\
      shape (Linear.weight (PrepareForMultiHeadAttention.linear head))
      = [width; Z.to_nat d_model]) /\
  (width <= Z.to_nat d_model) /\
  (width = Z.to_nat d_model <-> (d_model mod n_heads = 0)%Z) /\
  exists s, MultiHeadAttention.scale m = Finite s /\
            (0 < s)%R /\ (s * s * IZR D = 1)%R.
Proof.
  intros E D width. apply init_inv in E.
  destruct E as (Hr & Hc & _).
  destruct Hc as (En & Ef & HH & HD & Pq & Pk & Pv
                  & Hqn & Hqd & Hkn & Hkd & Hvn & Hvd & _ & _ & _ & Hs).
  assert (Hpos : (0 < D)%Z) by (apply Z.div_str_pos; lia).
  assert (Hmod : (0 <= d_model mod n_heads < n_heads)%Z)
    by (apply Z.mod_pos_bound; lia).
  assert (Hdiv : (d_model = n_heads * D + d_model mod n_heads)%Z)
    by (apply Z.div_mod; lia).
  assert (Hw : forall a b : Z, a = n_heads -> b = D ->
            Z.to_nat (a * b) = width).
  { intros a b -> ->. unfold width. f_equal. lia. }
  rewrite !Z2Nat.id in * by lia.
  split; [exact Ef|]. split; [exact En|].
  split.
  { intros head [->|[->| ->]].
    - destruct Pq as (_ & _ & HW & _). rewrite (Hw _ _ Hqn Hqd) in HW. auto.
    - destruct Pk as (_ & _ & HW & _). rewrite (Hw _ _ Hkn Hkd) in HW. auto.
    - destruct Pv as (_ & _ & HW & _). rewrite (Hw _ _ Hvn Hvd) in HW. auto. }
  split; [unfold width; lia|].
  split; [unfold width; lia|].
  rewrite Hs, Ef. fold D.
  assert (H0 : (0 < IZR D)%R) by (now apply IZR_lt).
  pose proof (sqrt_lt_R0 (IZR D) H0) as Hroot.
  pose proof (sqrt_sqrt (IZR D) (Rlt_le _ _ H0)) as Hsq.
  exists (1 / sqrt (IZR D))%R. split; [reflexivity|]. split.
  - apply Rdiv_lt_0_compat; lra.
  - rewrite <- Hsq at 3. field. lra.
Qed.

Lemma init_head_width_and_scale_witness :
  exists m pos',
    MultiHeadAttention.init (fun _ => Finite 0) 3 10 (Finite 0) true 0
    = (Ok m, pos') /\
    MultiHeadAttention.n_features m = 3%Z /\
    shape (Linear.weight (PrepareForMultiHeadAttention.linear
                            (MultiHeadAttention.query m)))
    = [9; 10].
Proof.
  destruct (init_ok (fun _ => Finite 0) 3 10 (Finite 0) true 0)
    as (m & pos' & E).
  - lia.
  - apply good_probability_finite. lra.
  - exists m, pos'. split; [exact E|].
    destruct (init_head_width_and_scale _ _ _ _ _ _ _ _ E)
      as (Hf & _ & Hheads & _).
    split; [exact Hf|].
    exact (proj2 (proj2 (Hheads _ (or_introl eq_refl)))).
Defined.

(* ================================================================== *)
(** * [forward]: the query must have three axes *)

(** X11.  [forward] unpacks the shape of the query into three names
    before anything else: a query with another number of axes raises
    [ValueError], whatever the other arguments are, and nothing has run
    or changed by then. *)
Theorem forward_unpacks_query_shape
    (m : MultiHeadAttention.t) (w : Runtime) (q k v : Tensor scalar)
    (mask : option (Tensor number)) :
  ndim q <> 3 ->
  MultiHeadAttention.forward q k v mask (MultiHeadAttention.mkHeap m w)
  = (Err ValueError, MultiHeadAttention.mkHeap m w).
Proof.
  unfold ndim. intros Hq.
  unfold MultiHeadAttention.forward, MultiHeadAttention.forward_scores. mred.
  destruct (shape q) as [|a [|b [|c [|d rest]]]]; try reflexivity.
  simpl in Hq. lia.
Qed.

Lemma forward_unpacks_query_shape_witness :
  MultiHeadAttention.forward
    (mkTensor [2; 2] (Examples.zeros 4))
    (mkTensor [2; 2; 2] (Examples.zeros 8))
    (mkTensor [2; 2; 2] (Examples.zeros 8)) None
    (MultiHeadAttention.mkHeap (Examples.attention 2 1) Examples.fresh)
  = (Err ValueError,
     MultiHeadAttention.mkHeap (Examples.attention 2 1) Examples.fresh).
Proof.
  apply forward_unpacks_query_shape. unfold ndim. simpl. lia.
Defined.

(* ================================================================== *)
(** * The recorded weights, without a mask *)

(** What a projection returns does not depend on the runtime. *)
Lemma prepare_forward_fst (self : PrepareForMultiHeadAttention.t)
    (x : Tensor scalar) (w w' : Runtime) :
  fst (PrepareForMultiHeadAttention.forward self x w)
  = fst (PrepareForMultiHeadAttention.forward self x w').
Proof.
  unfold PrepareForMultiHeadAttention.forward, Linear.forward. mred.
  destruct (F_linear x
              (Linear.weight (PrepareForMultiHeadAttention.linear self))
              (Linear.bias (PrepareForMultiHeadAttention.linear self)))
    as [y|e]; [|reflexivity].
  destruct (view y _); reflexivity.
Qed.

(** The first half of a call without a mask, with the projections and
    the raw scores named. *)
Lemma forward_scores_nomask_named (m : MultiHeadAttention.t) (w : Runtime)
    (d_model H D Sq B Sk Sv Bv : nat) (q k v : Tensor scalar) :
  constructed m d_model H D ->
  shape q = [Sq; B; d_model] -> shape k = [Sk; B; d_model] ->
  shape v = [Sv; Bv; d_model] ->
  exists Q K V raw,
    fst (PrepareForMultiHeadAttention.forward
           (MultiHeadAttention.query m) q w) = Ok Q /\
    fst (PrepareForMultiHeadAttention.forward
           (MultiHeadAttention.key m) k w) = Ok K /\
    fst (PrepareForMultiHeadAttention.forward
           (MultiHeadAttention.value m) v w) = Ok V /\
    shape Q = [Sq; B; H; D] /\ shape K = [Sk; B; H; D] /\
    shape V = [Sv; Bv; H; D] /\
    einsum "ibhd,jbhd->ibhj" Q K = Ok raw /\ shape raw = [Sq; B; H; Sk] /\
    MultiHeadAttention.forward_scores q k v None (MultiHeadAttention.mkHeap m w)
    = (Ok (Sq, B, V, mul_scalar raw (MultiHeadAttention.scale m)),
       MultiHeadAttention.mkHeap m (scored w)).
Proof.
  intros Hc Hq Hk Hv.
  destruct Hc as (_ & _ & _ & _ & Pq & Pk & Pv
                  & Hqn & Hqd & Hkn & Hkd & Hvn & Hvd & _).
  set (w1 := ticked KView (ticked KLinear w)).
  set (w2 := ticked KView (ticked KLinear w1)).
  destruct (prepare_forward_ok _ _ q [Sq; B] w Pq Hq) as (fq & _ & Eq).
  destruct (prepare_forward_ok _ _ k [Sk; B] w1 Pk Hk) as (fk & _ & Ek).
  destruct (prepare_forward_ok _ _ v [Sv; Bv] w2 Pv Hv) as (fv & _ & Ev).
  rewrite Hqn, Hqd, !Nat2Z.id in Eq.
  rewrite Hkn, Hkd, !Nat2Z.id in Ek.
  rewrite Hvn, Hvd, !Nat2Z.id in Ev.
  simpl app in Eq, Ek, Ev.
  set (Q := mkTensor [Sq; B; H; D] (table [Sq; B; H * D] fq)) in *.
  set (K := mkTensor [Sk; B; H; D] (table [Sk; B; H * D] fk)) in *.
  set (V := mkTensor [Sv; Bv; H; D] (table [Sv; Bv; H * D] fv)) in *.
  assert (Es : shape_of (einsum "ibhd,jbhd->ibhj" Q K) = Ok [Sq; B; H; Sk]).
  { rewrite (einsum_scores_shape Q K Sq B H D Sk B H D eq_refl eq_refl).
    now rewrite !merge_dim_same. }
  apply shape_of_Ok in Es. destruct Es as (raw & Eraw & Hraw).
  exists Q, K, V, raw.
  split; [now rewrite Eq|].
  split; [now rewrite (prepare_forward_fst _ k w w1), Ek|].
  split; [now rewrite (prepare_forward_fst _ v w w2), Ev|].
  do 3 (split; [reflexivity|]).
  split; [exact Eraw|]. split; [exact Hraw|].
  unfold MultiHeadAttention.forward_scores. mred.
  rewrite Hq. cbv beta iota zeta delta [unpack3]. mred.
  rewrite Eq. mred. fold w1. rewrite Ek. mred. fold w2. rewrite Ev. mred.
  rewrite Eraw. mred. reflexivity.
Qed.

Lemma elem_mul_scalar (t : Tensor scalar) (s : R) (idx : list nat) :
  elem (mul_scalar t (Finite s)) idx = scalar_mul (elem t idx) (Finite s).
Proof.
  unfold elem, get, mul_scalar, tensor_map. cbn [shape data].
  replace (Finite 0) with (scalar_mul (Finite 0) (Finite s)) at 1
    by apply mul_zero.
  apply (map_nth (fun x => scalar_mul x (Finite s))).
Qed.

(** X12.  Without a mask, on inputs of the expected widths, the tensor
    that [forward] records in the tracker has shape [(Sq, B, H, Sk)]
    and, for every query position, batch item and head, its row over
    the key positions is the softmax of the scaled dot products of the
    projected query with the projected keys.  The value tensor does not
    enter. *)
Theorem recorded_weights_are_scaled_dot_products
    (m : MultiHeadAttention.t) (w : Runtime)
    (d_model H D Sq B Sk Sv Bv : nat) (q k v : Tensor scalar) :
  constructed m d_model H D ->
  shape q = [Sq; B; d_model] -> shape k = [Sk; B; d_model] ->
  shape v = [Sv; Bv; d_model] ->
  exists Q K a,
    fst (PrepareForMultiHeadAttention.forward
           (MultiHeadAttention.query m) q w) = Ok Q /\
    fst (PrepareForMultiHeadAttention.forward
           (MultiHeadAttention.key m) k w) = Ok K /\
    tracker (MultiHeadAttention.runtime
               (snd (MultiHeadAttention.forward q k v None
                       (MultiHeadAttention.mkHeap m w))))
    = tracker w ++ [("attn"%string, a)] /\
    shape a = [Sq; B; H; Sk] /\
    forall i b h, i < Sq -> b < B -> h < H ->
      map (fun j => elem a [i; b; h; j]) (seq 0 Sk)
      = softmax_row
          (map (fun j =>
                  scalar_mul
                    (scalar_sum
                       (map (fun d => scalar_mul (elem Q [i; b; h; d])
                                                 (elem K [j; b; h; d]))
                            (seq 0 D)))
                    (MultiHeadAttention.scale m))
               (seq 0 Sk)).
Proof.
  intros Hc Hq Hk Hv.
  destruct (forward_scores_nomask_named m w d_model H D Sq B Sk Sv Bv q k v
              Hc Hq Hk Hv)
    as (Q & K & V & raw & EQ & EK & _ & HQ & HK & _ & Eraw & Hraw & Es).
  destruct Hc as (_ & _ & _ & _ & _ & _ & _ & _ & _ & _ & _ & _ & _ & _
                  & Hsm & Hp & Hscale).
  destruct (forward_records_weights m w q k v None Sq B V _ _ Hsm Hp Es)
    as (a & Ea & Hsa & Htr).
  exists Q, K, a.
  split; [exact EQ|]. split; [exact EK|]. split; [exact Htr|].
  assert (HS : shape (mul_scalar raw (MultiHeadAttention.scale m))
               = [Sq; B; H] ++ [Sk]) by exact Hraw.
  split; [rewrite Hsa; exact Hraw|].
  intros i b h Hi Hb Hh.
  assert (Hr : in_range [Sq; B; H] [i; b; h]) by in_range_tac.
  pose proof (softmax_last_row _ a [Sq; B; H] [i; b; h] Sk HS Ea Hr) as Hrow.
  simpl app in Hrow. rewrite Hrow. f_equal.
  apply map_ext_in. intros j Hj. apply in_seq in Hj.
  rewrite Hscale at 1. rewrite elem_mul_scalar, <- Hscale.
  f_equal.
  apply (einsum_scores_elem Q K raw Sq B H D Sk i b h j HQ HK Eraw);
    [assumption|assumption|assumption|lia].
Qed.

Lemma recorded_weights_are_scaled_dot_products_witness :
  exists a,
    tracker (MultiHeadAttention.runtime
               (snd (MultiHeadAttention.forward
                       (mkTensor [1; 2; 2] (Examples.zeros 4))
                       (mkTensor [2; 2; 2] (Examples.zeros 8))
                       (mkTensor [2; 2; 2] (Examples.zeros 8)) None
                       (MultiHeadAttention.mkHeap (Examples.attention 2 1)
                          Examples.fresh))))
    = [("attn"%string, a)] /\
    shape a = [1; 2; 2; 2].
Proof.
  destruct (recorded_weights_are_scaled_dot_products
              (Examples.attention 2 1) Examples.fresh 2 2 1 1 2 2 2 2
              (mkTensor [1; 2; 2] (Examples.zeros 4))
              (mkTensor [2; 2; 2] (Examples.zeros 8))
              (mkTensor [2; 2; 2] (Examples.zeros 8))
              (attention_constructed 2 1 ltac:(lia) ltac:(lia))
              eq_refl eq_refl eq_refl)
    as (Q & K & a & _ & _ & Htr & Hs & _).
  exists a. split; [exact Htr|exact Hs].
Defined.

(* ================================================================== *)
(** * Calls without a mask: when the aggregation runs *)

(** A call without a mask, on inputs of the expected widths and with a
    dropout probability that the kernel accepts, up to the aggregation:
    the weights are recorded, dropout is applied, and the call stands
    or falls with the aggregation, the reshape and the output
    projection. *)
Lemma forward_nomask_unfold (m : MultiHeadAttention.t) (w : Runtime)
    (d_model H D Sq B Sk Sv Bv : nat) (q k v : Tensor scalar) :
  constructed m d_model H D ->
  valid_probability (Dropout.p (MultiHeadAttention.dropout m)) = true ->
  shape q = [Sq; B; d_model] -> shape k = [Sk; B; d_model] ->
  shape v = [Sv; Bv; d_model] ->
  exists V S a a' w1,
    shape V = [Sv; Bv; H; D] /\ shape S = [Sq; B; H; Sk] /\
    softmax (-1) S = Ok a /\ shape a = [Sq; B; H; Sk] /\
    Dropout.forward (MultiHeadAttention.dropout m) a
      (logged "attn" a (ticked KSoftmax (scored w))) = (Ok a', w1) /\
    shape a' = [Sq; B; H; Sk] /\
    tracker w1 = tracker w ++ [("attn"%string, a)] /\
    MultiHeadAttention.forward q k v None (MultiHeadAttention.mkHeap m w)
    = match einsum "ijbh, jbhd->ibhd" a' V with
      | Err e => (Err e, MultiHeadAttention.mkHeap m w1)
      | Ok x =>
          let m' := MultiHeadAttention.with_attn m a' in
          let w2 := ticked KEinsum w1 in
          match reshape x [Z.of_nat Sq; Z.of_nat B; (-1)%Z] with
          | Err e => (Err e, MultiHeadAttention.mkHeap m' w2)
          | Ok x' =>
              match F_linear x'
                      (Linear.weight (MultiHeadAttention.output m))
                      (Linear.bias (MultiHeadAttention.output m)) with
              | Err e =>
                  (Err e, MultiHeadAttention.mkHeap m' (ticked KReshape w2))
              | Ok y =>
                  (Ok y, MultiHeadAttention.mkHeap m'
                           (ticked KLinear (ticked KReshape w2)))
              end
          end
      end.
Proof.
  intros Hc Hvp Hq Hk Hv.
  destruct (forward_scores_nomask m w _ _ _ _ _ _ _ _ q k v Hc Hq Hk Hv)
    as (V & raw & HV & Hraw & Es).
  destruct Hc as (_ & _ & _ & _ & _ & _ & _ & _ & _ & _ & _ & _ & _ & _
                  & Hsm & _).
  destruct (forward_attend_unfold m (scored w) Sq B V
              (mul_scalar raw (MultiHeadAttention.scale m)) Hsm Hvp)
    as (a & a' & w1 & Ea & Hsa & Ed & Hsa' & Htr & Ef).
  exists V, (mul_scalar raw (MultiHeadAttention.scale m)), a, a', w1.
  split; [exact HV|]. split; [exact Hraw|]. split; [exact Ea|].
  split; [rewrite Hsa; exact Hraw|]. split; [exact Ed|].
  split; [rewrite Hsa'; exact Hraw|]. split; [exact Htr|].
  unfold MultiHeadAttention.forward. mred. rewrite Es. mred. exact Ef.
Qed.

(** The same call on a module whose dropout probability passed the
    constructor and fails the kernel's test: the weights are recorded
    and dropout raises. *)
Lemma forward_nomask_invalid (m : MultiHeadAttention.t) (w : Runtime)
    (d_model H D Sq B Sk Sv Bv : nat) (q k v : Tensor scalar) :
  constructed m d_model H D ->
  valid_probability (Dropout.p (MultiHeadAttention.dropout m)) = false ->
  shape q = [Sq; B; d_model] -> shape k = [Sk; B; d_model] ->
  shape v = [Sv; Bv; d_model] ->
  exists a,
    shape a = [Sq; B; H; Sk] /\
    MultiHeadAttention.forward q k v None (MultiHeadAttention.mkHeap m w)
    = (Err RuntimeError,
       MultiHeadAttention.mkHeap m
         (logged "attn" a (ticked KSoftmax (scored w)))).
Proof.
  intros Hc Hvp Hq Hk Hv.
  destruct (forward_scores_nomask m w _ _ _ _ _ _ _ _ q k v Hc Hq Hk Hv)
    as (V & raw & HV & Hraw & Es).
  destruct Hc as (_ & _ & _ & _ & _ & _ & _ & _ & _ & _ & _ & _ & _ & _
                  & Hsm & Hp & _).
  destruct (forward_attend_invalid m (scored w) Sq B V
              (mul_scalar raw (MultiHeadAttention.scale m)) Hsm Hp Hvp)
    as (a & _ & Hsa & Ef).
  exists a. split; [rewrite Hsa; exact Hraw|].
  unfold MultiHeadAttention.forward. mred. rewrite Es. mred. exact Ef.
Qed.

(** Three pairs of sizes of which one neither agrees nor contains a 1. *)
Lemma merge_chain_clash {A} (x1 y1 x2 y2 x3 y3 : nat)
    (f : nat -> nat -> nat -> A) :
  (x1 <> y1 /\ x1 <> 1 /\ y1 <> 1) \/ (x2 <> y2 /\ x2 <> 1 /\ y2 <> 1) \/
  (x3 <> y3 /\ x3 <> 1 /\ y3 <> 1) ->
  res_bind (merge_dim x1 y1) (fun j =>
    res_bind (merge_dim x2 y2) (fun b =>
    res_bind (merge_dim x3 y3) (fun h => Ok (f j b h)))) = Err RuntimeError.
Proof.
  intros Hc.
  destruct (merge_dim x1 y1) as [j|e] eqn:E1; simpl;
    [|now rewrite (merge_dim_raises _ _ _ E1)].
  destruct (merge_dim x2 y2) as [b|e] eqn:E2; simpl;
    [|now rewrite (merge_dim_raises _ _ _ E2)].
  destruct (merge_dim x3 y3) as [h|e] eqn:E3; simpl;
    [|now rewrite (merge_dim_raises _ _ _ E3)].
  exfalso. destruct Hc as [(Ha & Hb & Hc)|[(Ha & Hb & Hc)|(Ha & Hb & Hc)]].
  - rewrite merge_dim_clash in E1 by assumption. discriminate.
  - rewrite merge_dim_clash in E2 by assumption. discriminate.
  - rewrite merge_dim_clash in E3 by assumption. discriminate.
Qed.

(** X13.  Without a mask, on inputs of the expected widths, the
    aggregation pairs the batch size of the query with the sequence
    length of the value, the number of heads with the batch size of the
    value, and the number of key positions with the number of heads.
    When one of these pairs neither agrees nor contains a 1 the call
    raises [RuntimeError]; by then the weights have been recorded in
    the tracker, and the module, [attn] included, is as before. *)
Theorem forward_raises_on_mismatched_axes
    (m : MultiHeadAttention.t) (w : Runtime)
    (d_model H D Sq B Sk Sv Bv : nat) (q k v : Tensor scalar) :
  constructed m d_model H D ->
  shape q = [Sq; B; d_model] -> shape k = [Sk; B; d_model] ->
  shape v = [Sv; Bv; d_model] ->
  (B <> Sv /\ B <> 1 /\ Sv <> 1) \/ (H <> Bv /\ H <> 1 /\ Bv <> 1) \/
  (Sk <> H /\ Sk <> 1 /\ H <> 1) ->
  exists a w',
    MultiHeadAttention.forward q k v None (MultiHeadAttention.mkHeap m w)
    = (Err RuntimeError, MultiHeadAttention.mkHeap m w') /\
    tracker w' = tracker w ++ [("attn"%string, a)] /\
    shape a = [Sq; B; H; Sk].
Proof.
  intros Hc Hq Hk Hv Hclash.
  destruct (valid_probability (Dropout.p (MultiHeadAttention.dropout m)))
    eqn:Hvp; cycle 1.
  { destruct (forward_nomask_invalid m w d_model H D Sq B Sk Sv Bv q k v
                Hc Hvp Hq Hk Hv) as (a & Hsa & Ef).
    exists a. eexists. split; [exact Ef|]. split; [reflexivity|exact Hsa]. }
  destruct (forward_nomask_unfold m w d_model H D Sq B Sk Sv Bv q k v
              Hc Hvp Hq Hk Hv)
    as (V & S & a & a' & w1 & HV & _ & _ & Hsa & _ & Hsa' & Htr & Ef).
  exists a, w1. split; [|split; [exact Htr|exact Hsa]].
  rewrite Ef.
  assert (Ee : shape_of (einsum "ijbh, jbhd->ibhd" a' V) = Err RuntimeError).
  { rewrite (einsum_attend_shape a' V Sq B H Sk Sv Bv H D Hsa' HV).
    exact (merge_chain_clash B Sv H Bv Sk H
             (fun _ b h => [Sq; b; h; D]) Hclash). }
  apply shape_of_Err in Ee. now rewrite Ee.
Qed.

Lemma forward_raises_on_mismatched_axes_witness :
  exists a w',
    MultiHeadAttention.forward
      (mkTensor [1; 3; 2] (Examples.zeros 6))
      (mkTensor [2; 3; 2] (Examples.zeros 12))
      (mkTensor [2; 3; 2] (Examples.zeros 12)) None
      (MultiHeadAttention.mkHeap (Examples.attention 2 1) Examples.fresh)
    = (Err RuntimeError,
       MultiHeadAttention.mkHeap (Examples.attention 2 1) w') /\
    tracker w' = [("attn"%string, a)] /\
    shape a = [1; 3; 2; 2].
Proof.
  apply (forward_raises_on_mismatched_axes
           (Examples.attention 2 1) Examples.fresh 2 2 1 1 3 2 2 3
           (mkTensor [1; 3; 2] (Examples.zeros 6))
           (mkTensor [2; 3; 2] (Examples.zeros 12))
           (mkTensor [2; 3; 2] (Examples.zeros 12))
           (attention_constructed 2 1 ltac:(lia) ltac:(lia))
           eq_refl eq_refl eq_refl).
  left. lia.
Defined.

(** X14.  On a module whose dropout probability is a number between 0
    and 1, the call returns when batch size, number of key positions
    and number of heads are one and the same number and that number
    divides [d_model]: query of shape [(Sq, H, d_model)], key and value
    of shape [(H, H, d_model)].  The result has the shape of the query,
    and [attn] then holds a tensor of shape [(Sq, H, H, H)]. *)
Theorem forward_returns_when_axes_agree
    (m : MultiHeadAttention.t) (w : Runtime) (H D Sq : nat)
    (q k v : Tensor scalar) :
  constructed m (H * D) H D ->
  valid_probability (Dropout.p (MultiHeadAttention.dropout m)) = true ->
  0 < Sq ->
  shape q = [Sq; H; H * D] -> shape k = [H; H; H * D] ->
  shape v = [H; H; H * D] ->
  exists y a' w',
    MultiHeadAttention.forward q k v None (MultiHeadAttention.mkHeap m w)
    = (Ok y, MultiHeadAttention.mkHeap
               (MultiHeadAttention.with_attn m a') w') /\
    shape y = [Sq; H; H * D] /\ shape a' = [Sq; H; H; H].
Proof.
  intros Hc Hvp HSq Hq Hk Hv.
  destruct (forward_nomask_unfold m w (H * D) H D Sq H H H H q k v
              Hc Hvp Hq Hk Hv)
    as (V & S & a & a' & w1 & HV & _ & _ & _ & _ & Hsa' & _ & Ef).
  destruct Hc as (_ & _ & HH & HD & _ & _ & _ & _ & _ & _ & _ & _ & _ & Ho & _).
  rewrite Ef. clear Ef.
  assert (Ee : shape_of (einsum "ijbh, jbhd->ibhd" a' V) = Ok [Sq; H; H; D]).
  { rewrite (einsum_attend_shape a' V Sq H H H H H H D Hsa' HV).
    now rewrite !merge_dim_same. }
  apply shape_of_Ok in Ee. destruct Ee as (x & -> & Hx).
  cbv zeta. rewrite reshape_infer_last.
  unfold numel. rewrite Hx. cbn [prod_list fold_right].
  assert (Hmul : Sq * (H * (H * (D * 1))) = (H * D) * (Sq * H)) by lia.
  rewrite Hmul, Nat.Div0.mod_mul, Nat.div_mul by lia.
  destruct (Nat.ltb_spec 0 (Sq * H)); [|nia]. simpl.
  destruct Ho as (HW & Hbias).
  destruct (F_linear_ok (mkTensor [Sq; H; H * D] (data x)) _ _ [Sq; H]
              (H * D) (H * D) HW Hbias eq_refl) as (f & Efl).
  rewrite Efl. eexists. eexists. eexists.
  split; [reflexivity|]. split; [reflexivity|exact Hsa'].
Qed.

Lemma forward_returns_when_axes_agree_witness :
  exists y a' w',
    MultiHeadAttention.forward
      (mkTensor [1; 2; 2] (Examples.zeros 4))
      (mkTensor [2; 2; 2] (Examples.zeros 8))
      (mkTensor [2; 2; 2] (Examples.zeros 8)) None
      (MultiHeadAttention.mkHeap (Examples.attention 2 1) Examples.fresh)
    = (Ok y, MultiHeadAttention.mkHeap
               (MultiHeadAttention.with_attn (Examples.attention 2 1) a')
               w') /\
    shape y = [1; 2; 2] /\ shape a' = [1; 2; 2; 2].
Proof.
  apply (forward_returns_when_axes_agree
           (Examples.attention 2 1) Examples.fresh 2 1 1
           (mkTensor [1; 2; 2] (Examples.zeros 4))
           (mkTensor [2; 2; 2] (Examples.zeros 8))
           (mkTensor [2; 2; 2] (Examples.zeros 8))
           (attention_constructed 2 1 ltac:(lia) ltac:(lia))
           (attention_valid 2 1)
           ltac:(lia) eq_refl eq_refl eq_refl).
Defined.

(* ================================================================== *)
(** * What the first half of [forward] leaves alone *)

Lemma kernels_only_refl (w : Runtime) : kernels_only w w.
Proof. unfold kernels_only. auto. Qed.

Lemma kernels_only_ticked (k : kernel) (w w' : Runtime) :
  kernels_only w w' -> kernels_only w (ticked k w').
Proof. unfold kernels_only. simpl. auto. Qed.

Lemma kernels_only_trans (w1 w2 w3 : Runtime) :
  kernels_only w1 w2 -> kernels_only w2 w3 -> kernels_only w1 w3.
Proof.
  unfold kernels_only. intros (A1 & B1 & C1) (A2 & B2 & C2).
  repeat split; congruence.
Qed.

Lemma prepare_forward_kernels_only (self : PrepareForMultiHeadAttention.t)
    (x : Tensor scalar) (w : Runtime) :
  kernels_only w (snd (PrepareForMultiHeadAttention.forward self x w)).
Proof.
  unfold PrepareForMultiHeadAttention.forward, Linear.forward. mred.
  destruct (F_linear x
              (Linear.weight (PrepareForMultiHeadAttention.linear self))
              (Linear.bias (PrepareForMultiHeadAttention.linear self)))
    as [y|e]; [|apply kernels_only_refl].
  destruct (view y _); simpl;
    repeat apply kernels_only_ticked; apply kernels_only_refl.
Qed.

Lemma prepare_mask_kernels_only (mask : Tensor number)
    (query_shape key_shape : list nat) (w : Runtime) :
  kernels_only w
    (snd (MultiHeadAttention.prepare_mask mask query_shape key_shape w)).
Proof.
  unfold MultiHeadAttention.prepare_mask. rewrite unsqueeze_last.
  cbv beta iota zeta delta [bind ret lift op tick modify index assert].
  repeat match goal with
         | |- context [nth_error ?l ?n] => destruct (nth_error l n)
         | |- context [if ?b then _ else _] => destruct b
         end;
    simpl; repeat apply kernels_only_ticked; apply kernels_only_refl.
Qed.

(** The first half of [forward] records nothing in the tracker and
    draws no random number. *)
Lemma forward_scores_kernels_only (m : MultiHeadAttention.t) (w : Runtime)
    (q k v : Tensor scalar) (mask : option (Tensor number)) :
  kernels_only w
    (MultiHeadAttention.runtime
       (snd (MultiHeadAttention.forward_scores q k v mask
               (MultiHeadAttention.mkHeap m w)))).
Proof.
  unfold MultiHeadAttention.forward_scores. mred.
  destruct (unpack3 (shape q)) as [[sl bs]|e]; mred;
    [|apply kernels_only_refl].
  destruct mask as [mk0|]; mred.
  - pose proof (prepare_mask_kernels_only mk0 (shape q) (shape k) w) as H0.
    destruct (MultiHeadAttention.prepare_mask mk0 (shape q) (shape k) w)
      as [[mk1|e] w0]; simpl in H0; mred; [|exact H0].
    pose proof (prepare_forward_kernels_only (MultiHeadAttention.query m) q w0)
      as H1.
    destruct (PrepareForMultiHeadAttention.forward
                (MultiHeadAttention.query m) q w0) as [[Q|e] w1];
      simpl in H1; mred; [|exact (kernels_only_trans _ _ _ H0 H1)].
    pose proof (prepare_forward_kernels_only (MultiHeadAttention.key m) k w1)
      as H2.
    destruct (PrepareForMultiHeadAttention.forward
                (MultiHeadAttention.key m) k w1) as [[K|e] w2];
      simpl in H2; mred;
      [|exact (kernels_only_trans _ _ _ H0 (kernels_only_trans _ _ _ H1 H2))].
    pose proof (prepare_forward_kernels_only (MultiHeadAttention.value m) v w2)
      as H3.
    destruct (PrepareForMultiHeadAttention.forward
                (MultiHeadAttention.value m) v w2) as [[V|e] w3];
      simpl in H3; mred.
    2:{ exact (kernels_only_trans _ _ _ H0
                 (kernels_only_trans _ _ _ H1
                    (kernels_only_trans _ _ _ H2 H3))). }
    assert (H03 : kernels_only w w3)
      by exact (kernels_only_trans _ _ _ H0
                  (kernels_only_trans _ _ _ H1
                     (kernels_only_trans _ _ _ H2 H3))).
    destruct (einsum "ibhd,jbhd->ibhj" Q K) as [raw|e]; mred; [|exact H03].
    destruct (masked_fill _ _ NInf) as [S|e]; mred;
      repeat apply kernels_only_ticked; exact H03.
  - pose proof (prepare_forward_kernels_only (MultiHeadAttention.query m) q w)
      as H1.
    destruct (PrepareForMultiHeadAttention.forward
                (MultiHeadAttention.query m) q w) as [[Q|e] w1];
      simpl in H1; mred; [|exact H1].
    pose proof (prepare_forward_kernels_only (MultiHeadAttention.key m) k w1)
      as H2.
    destruct (PrepareForMultiHeadAttention.forward
                (MultiHeadAttention.key m) k w1) as [[K|e] w2];
      simpl in H2; mred; [|exact (kernels_only_trans _ _ _ H1 H2)].
    pose proof (prepare_forward_kernels_only (MultiHeadAttention.value m) v w2)
      as H3.
    destruct (PrepareForMultiHeadAttention.forward
                (MultiHeadAttention.value m) v w2) as [[V|e] w3];
      simpl in H3; mred;
      [|exact (kernels_only_trans _ _ _ H1 (kernels_only_trans _ _ _ H2 H3))].
    assert (H03 : kernels_only w w3)
      by exact (kernels_only_trans _ _ _ H1 (kernels_only_trans _ _ _ H2 H3)).
    destruct (einsum "ibhd,jbhd->ibhj" Q K) as [raw|e]; mred; [|exact H03].
    repeat apply kernels_only_ticked; exact H03.
Qed.

(* ================================================================== *)
(** * Dropout inside [forward] *)

(** Outside training mode and for [p = 0] dropout hands its input on,
    unless the probability fails one of the two tests. *)
Lemma dropout_inactive (d : Dropout.t) (x : Tensor scalar) (w : Runtime) :
  Dropout.training d = false \/ Dropout.p d = Finite 0 ->
  Dropout.forward d x w = (Ok x, ticked KDropout w) \/
  exists e, Dropout.forward d x w = (Err e, w).
Proof.
  intros Hin. unfold Dropout.forward.
  destruct (bad_probability (Dropout.p d));
    [right; eexists; reflexivity|].
  destruct (valid_probability (Dropout.p d));
    [left|right; eexists; reflexivity].
  cbn [negb].
  destruct Hin as [Ht|Hp].
  - rewrite Ht. simpl. now rewrite orb_true_r.
  - rewrite Hp. simpl. unfold Reqb.
    destruct (Req_dec_T 0 0) as [_|H0]; [reflexivity|contradiction].
Qed.

Lemma dropout_forward_tracker (d : Dropout.t) (x : Tensor scalar)
    (w : Runtime) :
  tracker (snd (Dropout.forward d x w)) = tracker w.
Proof.
  unfold Dropout.forward.
  destruct (bad_probability (Dropout.p d)); [reflexivity|].
  destruct (valid_probability (Dropout.p d)); [|reflexivity].
  cbn [negb].
  destruct (scalar_eqb (Dropout.p d) (Finite 0) || negb (Dropout.training d)
            || (numel x =? 0)); [reflexivity|].
  destruct (scalar_eqb (Dropout.p d) (Finite 1)); reflexivity.
Qed.

(** X15.  With dropout inactive (the module outside training mode, or
    [dropout_prob = 0]) a call draws no random number, whether it
    returns or raises, and when it returns [attn] holds the very tensor
    of weights that the call has added to the tracker. *)
Theorem inactive_dropout_stores_recorded_weights
    (m : MultiHeadAttention.t) (w : Runtime) (q k v : Tensor scalar)
    (mask : option (Tensor number)) :
  Dropout.training (MultiHeadAttention.dropout m) = false \/
  Dropout.p (MultiHeadAttention.dropout m) = Finite 0 ->
  let r := MultiHeadAttention.forward q k v mask
             (MultiHeadAttention.mkHeap m w) in
  bernoulli (MultiHeadAttention.runtime (snd r)) = bernoulli w /\
  rng_pos (MultiHeadAttention.runtime (snd r)) = rng_pos w /\
  forall y, fst r = Ok y ->
    exists a,
      tracker (MultiHeadAttention.runtime (snd r))
      = tracker w ++ [("attn"%string, a)] /\
      MultiHeadAttention.attn (MultiHeadAttention.self (snd r)) = Some a.
Proof.
  intros Hin r. unfold r. clear r.
  unfold MultiHeadAttention.forward. mred.
  pose proof (forward_scores_self m w q k v mask) as Hself.
  pose proof (forward_scores_kernels_only m w q k v mask) as Hk.
  destruct (MultiHeadAttention.forward_scores q k v mask
              (MultiHeadAttention.mkHeap m w)) as [r0 [s0 w0]].
  simpl in Hself, Hk. subst s0. destruct Hk as (Ht & Hb & Hr).
  destruct r0 as [[[[sl bs] V] S]|e]; mred;
    [|split; [exact Hb|split; [exact Hr|discriminate]]].
  unfold MultiHeadAttention.forward_attend. mred.
  destruct (softmax (Softmax.dim (MultiHeadAttention.softmax m)) S) as [a|e];
    mred; [|split; [exact Hb|split; [exact Hr|discriminate]]].
  destruct (dropout_inactive (MultiHeadAttention.dropout m) a
              (logged "attn" a (ticked KSoftmax w0)) Hin) as [Ed|(e & Ed)];
    rewrite Ed; mred;
    [|split; [exact Hb|split; [exact Hr|discriminate]]].
  destruct (einsum "ijbh, jbhd->ibhd" a V) as [x|e]; mred;
    [|split; [exact Hb|split; [exact Hr|discriminate]]].
  destruct (reshape x _) as [x'|e]; mred;
    [|split; [exact Hb|split; [exact Hr|discriminate]]].
  destruct (F_linear x' _ _) as [y0|e];
    (split; [exact Hb|split; [exact Hr|]]); [|discriminate].
  intros y _. exists a. simpl. rewrite Ht. split; reflexivity.
Qed.

Lemma inactive_dropout_stores_recorded_weights_witness :
  let r := MultiHeadAttention.forward
             (mkTensor [1; 2; 2] (Examples.zeros 4))
             (mkTensor [2; 2; 2] (Examples.zeros 8))
             (mkTensor [2; 2; 2] (Examples.zeros 8)) None
             (MultiHeadAttention.mkHeap (eval (Examples.attention 2 1))
                Examples.fresh) in
  rng_pos (MultiHeadAttention.runtime (snd r)) = 0.
Proof.
  exact (proj1 (proj2 (inactive_dropout_stores_recorded_weights
                         (eval (Examples.attention 2 1)) Examples.fresh
                         (mkTensor [1; 2; 2] (Examples.zeros 4))
                         (mkTensor [2; 2; 2] (Examples.zeros 8))
                         (mkTensor [2; 2; 2] (Examples.zeros 8)) None
                         (or_introl eq_refl)))).
Defined.

(** X16.  Whatever the arguments, a call adds at most one entry to the
    tracker, under the name [attn] and after the entries that were
    there; it adds that entry whenever it returns. *)
Theorem forward_adds_one_tracker_entry
    (m : MultiHeadAttention.t) (w : Runtime) (q k v : Tensor scalar)
    (mask : option (Tensor number)) :
  let r := MultiHeadAttention.forward q k v mask
             (MultiHeadAttention.mkHeap m w) in
  (tracker (MultiHeadAttention.runtime (snd r)) = tracker w \/
   exists a, tracker (MultiHeadAttention.runtime (snd r))
             = tracker w ++ [("attn"%string, a)]) /\
  (is_Ok (fst r) = true ->
   exists a, tracker (MultiHeadAttention.runtime (snd r))
             = tracker w ++ [("attn"%string, a)]).
Proof.
  intros r. unfold r. clear r.
  unfold MultiHeadAttention.forward. mred.
  pose proof (forward_scores_kernels_only m w q k v mask) as Hk.
  destruct (MultiHeadAttention.forward_scores q k v mask
              (MultiHeadAttention.mkHeap m w)) as [r0 [s0 w0]].
  simpl in Hk. destruct Hk as (Ht & _ & _).
  destruct r0 as [[[[sl bs] V] S]|e]; mred;
    [|split; [left; exact Ht|discriminate]].
  unfold MultiHeadAttention.forward_attend. mred.
  destruct (softmax (Softmax.dim (MultiHeadAttention.softmax s0)) S)
    as [a|e]; mred; [|split; [left; exact Ht|discriminate]].
  pose proof (dropout_forward_tracker (MultiHeadAttention.dropout s0) a
                (logged "attn" a (ticked KSoftmax w0))) as Hd.
  destruct (Dropout.forward (MultiHeadAttention.dropout s0) a
              (logged "attn" a (ticked KSoftmax w0))) as [[a'|e] w1];
    simpl in Hd; rewrite Ht in Hd; mred;
    [|split; [right; exists a; exact Hd|discriminate]].
  destruct (einsum "ijbh, jbhd->ibhd" a' V) as [x|e]; mred;
    [|split; [right; exists a; exact Hd|discriminate]].
  destruct (reshape x _) as [x'|e]; mred;
    [|split; [right; exists a; exact Hd|discriminate]].
  destruct (F_linear x' _ _) as [y0|e];
    (split; [right; exists a; exact Hd|]); [|discriminate].
  intros _. exists a. exact Hd.
Qed.

(** Softmax over a tensor with at least one axis stores one weight per
    position. *)
Lemma softmax_wf (dim : Z) (S a : Tensor scalar) :
  shape S <> [] -> softmax dim S = Ok a -> wf a.
Proof.
  intros Hne. unfold softmax.
  destruct (shape S) as [|d sh] eqn:HS; [contradiction|].
  destruct ((dim <? - Z.of_nat (ndim S)) || (Z.of_nat (ndim S) <=? dim))%Z;
    [discriminate|].
  intros E. inversion E. apply wf_tabulate.
Qed.

Lemma nth_apply_noise (p : scalar) (xs : list scalar) (noise : list bool)
    (n : nat) :
  n < List.length xs -> n < List.length noise ->
  nth n (Dropout.apply_noise p xs noise) (Finite 0)
  = scalar_mul (nth n xs (Finite 0))
               (Dropout.keep_factor p (nth n noise true)).
Proof.
  revert noise n. induction xs as [|x xs IH]; intros [|b noise] n Hx Hn;
    simpl in *; try lia.
  destruct n as [|n]; [reflexivity|]. apply IH; lia.
Qed.

Lemma keep_factor_finite (pr : R) (keep : bool) :
  (0 < pr < 1)%R ->
  Dropout.keep_factor (Finite pr) keep
  = Finite (if keep then 1 / (1 - pr) else 0).
Proof.
  intros Hp. unfold Dropout.keep_factor, scalar_sub.
  cbn [scalar_neg scalar_add].
  rewrite overflow_small by (pose proof max_float_ge_2; lra).
  simpl. unfold Reqb.
  destruct (Req_dec_T (1 + - pr) 0) as [H0|H0]; [lra|].
  destruct keep; f_equal; field; lra.
Qed.

(** Dropout in training mode with a probability strictly between 0 and
    1, on a non-empty well-formed tensor. *)
Lemma dropout_forward_training (d : Dropout.t) (pr : R) (x : Tensor scalar)
    (w : Runtime) :
  d = Dropout.mk (Finite pr) true -> (0 < pr < 1)%R -> wf x ->
  exists x',
    Dropout.forward d x w = (Ok x', ticked KDropout (drawn (numel x) w)) /\
    shape x' = shape x /\
    forall n, n < numel x ->
      nth n (data x') (Finite 0)
      = scalar_mul (nth n (data x) (Finite 0))
          (Finite (if bernoulli w (rng_pos w + n) then 1 / (1 - pr) else 0)).
Proof.
  intros -> Hp Hwf. unfold Dropout.forward.
  cbn [Dropout.p Dropout.training].
  rewrite good_probability_finite by lra.
  rewrite valid_probability_finite by lra. cbn [negb].
  assert (E0 : scalar_eqb (Finite pr) (Finite 0) = false).
  { simpl. unfold Reqb. destruct (Req_dec_T pr 0); [lra|reflexivity]. }
  assert (E1 : scalar_eqb (Finite pr) (Finite 1) = false).
  { simpl. unfold Reqb. destruct (Req_dec_T pr 1); [lra|reflexivity]. }
  rewrite E0, E1. cbn [negb orb].
  destruct (Nat.eqb_spec (numel x) 0) as [H0|H0].
  - exists x. split; [|split; [reflexivity|intros n Hn; lia]].
    unfold op, bind, lift, tick, modify, ret, ticked, drawn.
    rewrite H0. simpl. rewrite Nat.add_0_r. reflexivity.
  - eexists. split; [reflexivity|]. split; [reflexivity|].
    intros n Hn. cbn [data].
    rewrite nth_apply_noise
      by (rewrite ?length_map, ?length_seq; unfold wf in Hwf; lia).
    rewrite keep_factor_finite by lra.
    rewrite (nth_indep _ true (bernoulli w 0))
      by (rewrite length_map, length_seq; exact Hn).
    rewrite (map_nth (bernoulli w)), seq_nth by exact Hn.
    reflexivity.
Qed.

(** X17.  In training mode with a dropout probability [p] strictly
    between 0 and 1, a call without a mask that returns has recorded
    the normalized weights in the tracker and stored a thinned copy in
    [attn]: each stored weight is the recorded one times [1 / (1 - p)]
    where the generator decided to keep it and times 0 where it did
    not, and the call has drawn one decision per weight, in row-major
    order. *)
Theorem training_dropout_thins_stored_weights
    (m : MultiHeadAttention.t) (w : Runtime)
    (d_model H D Sq B Sk Sv Bv : nat) (q k v y : Tensor scalar) (pr : R) :
  constructed m d_model H D ->
  shape q = [Sq; B; d_model] -> shape k = [Sk; B; d_model] ->
  shape v = [Sv; Bv; d_model] ->
  MultiHeadAttention.dropout m = Dropout.mk (Finite pr) true ->
  (0 < pr < 1)%R ->
  let r := MultiHeadAttention.forward q k v None
             (MultiHeadAttention.mkHeap m w) in
  fst r = Ok y ->
  exists a a',
    tracker (MultiHeadAttention.runtime (snd r))
    = tracker w ++ [("attn"%string, a)] /\
    MultiHeadAttention.attn (MultiHeadAttention.self (snd r)) = Some a' /\
    shape a = [Sq; B; H; Sk] /\ shape a' = [Sq; B; H; Sk] /\
    rng_pos (MultiHeadAttention.runtime (snd r))
    = rng_pos w + Sq * B * H * Sk /\
    forall idx, in_range [Sq; B; H; Sk] idx ->
      let keep := bernoulli w (rng_pos w + ravel [Sq; B; H; Sk] idx) in
      elem a' idx
      = scalar_mul (elem a idx) (Finite (if keep then 1 / (1 - pr) else 0)).
Proof.
  intros Hc Hq Hk Hv Hd Hp r. unfold r. clear r.
  assert (Hvp : valid_probability
                  (Dropout.p (MultiHeadAttention.dropout m)) = true)
    by (rewrite Hd; apply valid_probability_finite; simpl; lra).
  destruct (forward_nomask_unfold m w d_model H D Sq B Sk Sv Bv q k v
              Hc Hvp Hq Hk Hv)
    as (V & S & a & a' & w1 & _ & HS & Ea & Hsa & Ed & Hsa' & Htr & Ef).
  assert (Hwf : wf a).
  { apply (softmax_wf (-1) S a); [rewrite HS; discriminate|exact Ea]. }
  destruct (dropout_forward_training (MultiHeadAttention.dropout m) pr a
              (logged "attn" a (ticked KSoftmax (scored w))) Hd Hp Hwf)
    as (x' & Ed' & _ & Hel).
  rewrite Ed in Ed'. inversion Ed'. subst x' w1. clear Ed'.
  rewrite Ef. clear Ef.
  assert (Hn : numel a = Sq * B * H * Sk).
  { unfold numel. rewrite Hsa. simpl. lia. }
  destruct (einsum "ijbh, jbhd->ibhd" a' V) as [x|e]; [|discriminate].
  cbv zeta.
  destruct (reshape x _) as [x1|e]; [|discriminate].
  destruct (F_linear x1 _ _) as [y0|e]; [|discriminate].
  intros _. exists a, a'. simpl.
  split; [reflexivity|]. split; [reflexivity|].
  split; [exact Hsa|]. split; [exact Hsa'|].
  split; [now rewrite Hn|].
  intros idx Hidx.
  unfold elem, get. rewrite Hsa, Hsa'.
  apply Hel. rewrite Hn.
  pose proof (ravel_lt Hidx) as Hlt.
  unfold prod_list in Hlt. cbn [fold_right] in Hlt. lia.
Qed.

Lemma training_dropout_thins_stored_weights_witness :
  exists a a',
    let r := MultiHeadAttention.forward
               (mkTensor [1; 2; 2] (Examples.zeros 4))
               (mkTensor [2; 2; 2] (Examples.zeros 8))
               (mkTensor [2; 2; 2] (Examples.zeros 8)) None
               (MultiHeadAttention.mkHeap (Examples.attention 2 1)
                  Examples.fresh) in
    tracker (MultiHeadAttention.runtime (snd r)) = [("attn"%string, a)] /\
    MultiHeadAttention.attn (MultiHeadAttention.self (snd r)) = Some a' /\
    rng_pos (MultiHeadAttention.runtime (snd r)) = 8.
Proof.
  pose proof (attention_constructed 2 1 ltac:(lia) ltac:(lia)) as Hc.
  destruct (forward_nomask_ok (Examples.attention 2 1) Examples.fresh
              2 2 1 1 2 2 2 2 2 2 2
              (mkTensor [1; 2; 2] (Examples.zeros 4))
              (mkTensor [2; 2; 2] (Examples.zeros 8))
              (mkTensor [2; 2; 2] (Examples.zeros 8))
              Hc (attention_valid 2 1)
              eq_refl eq_refl eq_refl eq_refl eq_refl eq_refl
              ltac:(simpl; lia) eq_refl eq_refl) as (y & Ey & _).
  assert (Hp : (0 < 1 / 10 < 1)%R) by lra.
  destruct (training_dropout_thins_stored_weights
              (Examples.attention 2 1) Examples.fresh 2 2 1 1 2 2 2 2
              (mkTensor [1; 2; 2] (Examples.zeros 4))
              (mkTensor [2; 2; 2] (Examples.zeros 8))
              (mkTensor [2; 2; 2] (Examples.zeros 8)) y (1 / 10)
              Hc eq_refl eq_refl eq_refl eq_refl Hp Ey)
    as (a & a' & Htr & Hattn & _ & _ & Hrng & _).
  exists a, a'. cbv zeta. split; [exact Htr|]. split; [exact Hattn|exact Hrng].
Defined.

(* ================================================================== *)
(** * The shape of the result *)

Lemma F_linear_shape (x W y : Tensor scalar) (b : option (Tensor scalar))
    (o i : nat) :
  shape W = [o; i] -> F_linear x W b = Ok y ->
  shape y = removelast (shape x) ++ [o].
Proof.
  intros HW. unfold F_linear. rewrite HW.
  destruct (rev (shape x)) as [|k rest]; [discriminate|].
  destruct (negb (k =? i)); [discriminate|].
  destruct b as [bb|].
  - destruct (shape bb) as [|o' [|? ?]]; try discriminate.
    destruct (o' =? o); [|discriminate].
    intros E. inversion E. reflexivity.
  - intros E. inversion E. reflexivity.
Qed.

(** A first half of [forward] that returns has unpacked the shape of
    the query and has projected the query. *)
Lemma forward_scores_inv (m : MultiHeadAttention.t) (w : Runtime)
    (q k v : Tensor scalar) (mask : option (Tensor number))
    (sl bs : nat) (V S : Tensor scalar) (h1 : MultiHeadAttention.Heap) :
  MultiHeadAttention.forward_scores q k v mask (MultiHeadAttention.mkHeap m w)
  = (Ok (sl, bs, V, S), h1) ->
  exists d w0 w1 Q,
    shape q = [sl; bs; d] /\
    PrepareForMultiHeadAttention.forward (MultiHeadAttention.query m) q w0
    = (Ok Q, w1).
Proof.
  unfold MultiHeadAttention.forward_scores. mred.
  destruct (shape q) as [|a [|b [|c [|? ?]]]];
    cbv beta iota zeta delta [unpack3]; mred; try discriminate.
  destruct mask as [mk0|]; mred.
  - destruct (MultiHeadAttention.prepare_mask mk0 [a; b; c] (shape k) w)
      as [[mk1|e] w0]; mred; [|discriminate].
    destruct (PrepareForMultiHeadAttention.forward
                (MultiHeadAttention.query m) q w0) as [[Q|e] w1] eqn:EQ;
      mred; [|discriminate].
    crunch; intros E; inversion E; subst; eauto 8.
  - destruct (PrepareForMultiHeadAttention.forward
                (MultiHeadAttention.query m) q w) as [[Q|e] w1] eqn:EQ;
      mred; [|discriminate].
    crunch; intros E; inversion E; subst; eauto 8.
Qed.

(** X18.  Whenever a call returns, with or without a mask, its result
    has the shape of the query, [(Sq, B, d_model)]. *)
Theorem forward_result_has_query_shape
    (m : MultiHeadAttention.t) (w : Runtime) (d_model H D : nat)
    (q k v y : Tensor scalar) (mask : option (Tensor number)) :
  constructed m d_model H D ->
  fst (MultiHeadAttention.forward q k v mask (MultiHeadAttention.mkHeap m w))
  = Ok y ->
  shape y = shape q /\ exists Sq B, shape q = [Sq; B; d_model].
Proof.
  intros Hc.
  destruct Hc as (_ & _ & _ & _ & Pq & _ & _ & _ & _ & _ & _ & _ & _ & Ho & _).
  destruct Ho as (HW & _).
  unfold MultiHeadAttention.forward. mred.
  destruct (MultiHeadAttention.forward_scores q k v mask
              (MultiHeadAttention.mkHeap m w)) as [r0 [s0 w0]] eqn:Es.
  pose proof (forward_scores_self m w q k v mask) as Hself.
  rewrite Es in Hself. simpl in Hself. subst s0.
  destruct r0 as [[[[sl bs] V] S]|e]; mred; [|discriminate].
  destruct (forward_scores_inv m w q k v mask sl bs V S _ Es)
    as (d & w1 & w2 & Q & Hq & EQ).
  assert (Hd : d = d_model)
    by exact (prepare_forward_width _ _ _ _ [sl; bs] _ _ _ Pq Hq EQ).
  subst d.
  unfold MultiHeadAttention.forward_attend. mred.
  destruct (softmax _ S) as [a|e]; mred; [|discriminate].
  destruct (Dropout.forward _ a _) as [[a'|e] w3]; mred; [|discriminate].
  destruct (einsum "ijbh, jbhd->ibhd" a' V) as [x|e]; mred; [|discriminate].
  rewrite reshape_infer_last.
  destruct ((0 <? sl * bs) && (numel x mod (sl * bs) =? 0)); mred;
    [|discriminate].
  destruct (F_linear _ _ _) as [y0|e] eqn:Ey; [|discriminate].
  simpl. intros E. inversion E; subst y0.
  apply (F_linear_shape _ _ _ _ _ _ HW) in Ey. simpl in Ey.
  rewrite Ey, Hq. split; [reflexivity|]. exists sl, bs. reflexivity.
Qed.

Lemma forward_result_has_query_shape_witness :
  exists y,
    fst (MultiHeadAttention.forward
           (mkTensor [1; 2; 2] (Examples.zeros 4))
           (mkTensor [2; 2; 2] (Examples.zeros 8))
           (mkTensor [2; 2; 2] (Examples.zeros 8)) None
           (MultiHeadAttention.mkHeap (Examples.attention 2 1)
              Examples.fresh)) = Ok y /\
    shape y = [1; 2; 2].
Proof.
  pose proof (attention_constructed 2 1 ltac:(lia) ltac:(lia)) as Hc.
  destruct (forward_nomask_ok (Examples.attention 2 1) Examples.fresh
              2 2 1 1 2 2 2 2 2 2 2
              (mkTensor [1; 2; 2] (Examples.zeros 4))
              (mkTensor [2; 2; 2] (Examples.zeros 8))
              (mkTensor [2; 2; 2] (Examples.zeros 8))
              Hc (attention_valid 2 1)
              eq_refl eq_refl eq_refl eq_refl eq_refl eq_refl
              ltac:(simpl; lia) eq_refl eq_refl) as (y & Ey & _).
  exists y. split; [exact Ey|].
  exact (proj1 (forward_result_has_query_shape
                  (Examples.attention 2 1) Examples.fresh 2 2 1
                  (mkTensor [1; 2; 2] (Examples.zeros 4))
                  (mkTensor [2; 2; 2] (Examples.zeros 8))
                  (mkTensor [2; 2; 2] (Examples.zeros 8)) y None Hc Ey)).
Defined.

(* ================================================================== *)
(** * The two copies of the projection head *)

(** X19.  The class [PrepareForMultiHeadAttention] of
    [transformer.ipynb] is the class of the full notebook under other
    names: the constructors consume the same parameters and fail alike,
    and [forward] gives the same result and runs the same kernels.  On
    an input of shape [pre ++ [d_model]] it returns a tensor of shape
    [pre ++ [heads; d_k]]: the head axis comes after all leading axes
    of the input. *)
Theorem second_notebook_head_agrees :
  (forall (gen : nat -> scalar) (d_model heads d_k : Z) (bias : bool)
          (pos : nat),
      let r' := TransformerNotebook.PrepareForMultiHeadAttention.init
                  gen d_model heads d_k bias pos in
      let r := PrepareForMultiHeadAttention.init
                 gen d_model heads d_k bias pos in
      snd r' = snd r /\
      match fst r', fst r with
      | Ok self', Ok self => renamed self' = self
      | Err e', Err e => e' = e
      | _, _ => False
      end)
  /\
  (forall (self : TransformerNotebook.PrepareForMultiHeadAttention.t)
          (x : Tensor scalar) (w : Runtime),
      TransformerNotebook.PrepareForMultiHeadAttention.forward self x w
      = PrepareForMultiHeadAttention.forward (renamed self) x w)
  /\
  (forall (self : TransformerNotebook.PrepareForMultiHeadAttention.t)
          (d_model : nat) (x : Tensor scalar) (pre : list nat) (w : Runtime),
      prepared (renamed self) d_model -> shape x = pre ++ [d_model] ->
      exists out,
        fst (TransformerNotebook.PrepareForMultiHeadAttention.forward
               self x w) = Ok out /\
        shape out
        = pre ++ [Z.to_nat
                    (TransformerNotebook.PrepareForMultiHeadAttention.heads
                       self);
                  Z.to_nat
                    (TransformerNotebook.PrepareForMultiHeadAttention.d_k
                       self)]).
Proof.
  assert (Hf : forall self x w,
            TransformerNotebook.PrepareForMultiHeadAttention.forward self x w
            = PrepareForMultiHeadAttention.forward (renamed self) x w)
    by reflexivity.
  split; [|split; [exact Hf|]].
  - intros gen d_model heads d_k bias pos r' r. unfold r', r. clear r' r.
    unfold TransformerNotebook.PrepareForMultiHeadAttention.init,
      PrepareForMultiHeadAttention.init, bind, ret.
    destruct (Linear.init gen d_model (heads * d_k) bias pos) as [[l|e] p];
      split; reflexivity.
  - intros self d_model x pre w Hp Hx. rewrite Hf.
    destruct (prepare_forward_ok (renamed self) d_model x pre w Hp Hx)
      as (f & _ & Eo).
    rewrite Eo. eexists. split; reflexivity.
Qed.

Lemma second_notebook_head_agrees_witness :
  exists out,
    fst (TransformerNotebook.PrepareForMultiHeadAttention.forward
           (TransformerNotebook.PrepareForMultiHeadAttention.mk
              (Examples.linear0 2 2) 2 1)
           Examples.x12 Examples.fresh) = Ok out /\
    shape out = [1; 2; 1].
Proof.
  apply (proj2 (proj2 second_notebook_head_agrees)
           (TransformerNotebook.PrepareForMultiHeadAttention.mk
              (Examples.linear0 2 2) 2 1)
           2 Examples.x12 [1] Examples.fresh).
  - unfold prepared, linear_shaped. simpl. repeat split; lia.
  - reflexivity.
Defined.

(* ================================================================== *)
(** * Batch sizes of query and key *)

(** X20.  Query and key must agree in their batch size unless one of
    the two sizes is 1.  Otherwise a call without a mask raises
    [RuntimeError] in [get_scores]: the three projections have run by
    then, nothing has been recorded in the tracker, and the module is
    unchanged. *)
Theorem forward_rejects_batch_mismatch
    (m : MultiHeadAttention.t) (w : Runtime)
    (d_model H D Sq B Sk Bk Sv Bv : nat) (q k v : Tensor scalar) :
  constructed m d_model H D ->
  shape q = [Sq; B; d_model] -> shape k = [Sk; Bk; d_model] ->
  shape v = [Sv; Bv; d_model] ->
  B <> Bk -> B <> 1 -> Bk <> 1 ->
  MultiHeadAttention.forward q k v None (MultiHeadAttention.mkHeap m w)
  = (Err RuntimeError,
     MultiHeadAttention.mkHeap m
       (ticked KView (ticked KLinear
          (ticked KView (ticked KLinear
             (ticked KView (ticked KLinear w))))))).
Proof.
  intros Hc Hq Hk Hv Hne HB HBk.
  destruct Hc as (_ & _ & _ & _ & Pq & Pk & Pv
                  & Hqn & Hqd & Hkn & Hkd & Hvn & Hvd & _).
  destruct (prepare_forward_ok _ _ q [Sq; B] w Pq Hq) as (fq & _ & Eq).
  destruct (prepare_forward_ok _ _ k [Sk; Bk] (ticked KView (ticked KLinear w))
              Pk Hk) as (fk & _ & Ek).
  destruct (prepare_forward_ok _ _ v [Sv; Bv]
              (ticked KView (ticked KLinear (ticked KView (ticked KLinear w))))
              Pv Hv) as (fv & _ & Ev).
  rewrite Hqn, Hqd, !Nat2Z.id in Eq.
  rewrite Hkn, Hkd, !Nat2Z.id in Ek.
  rewrite Hvn, Hvd, !Nat2Z.id in Ev.
  simpl app in Eq, Ek, Ev.
  set (Q := mkTensor [Sq; B; H; D] (table [Sq; B; H * D] fq)) in *.
  set (K := mkTensor [Sk; Bk; H; D] (table [Sk; Bk; H * D] fk)) in *.
  assert (Es : shape_of (einsum "ibhd,jbhd->ibhj" Q K) = Err RuntimeError).
  { rewrite (einsum_scores_shape Q K Sq B H D Sk Bk H D eq_refl eq_refl).
    now rewrite (merge_dim_clash B Bk Hne HB HBk). }
  apply shape_of_Err in Es.
  unfold MultiHeadAttention.forward, MultiHeadAttention.forward_scores. mred.
  rewrite Hq. cbv beta iota zeta delta [unpack3]. mred.
  rewrite Eq. mred. rewrite Ek. mred. rewrite Ev. mred.
  rewrite Es. reflexivity.
Qed.

Lemma forward_rejects_batch_mismatch_witness :
  fst (MultiHeadAttention.forward
         (mkTensor [1; 2; 2] (Examples.zeros 4))
         (mkTensor [2; 3; 2] (Examples.zeros 12))
         (mkTensor [2; 3; 2] (Examples.zeros 12)) None
         (MultiHeadAttention.mkHeap (Examples.attention 2 1) Examples.fresh))
  = Err RuntimeError.
Proof.
  rewrite (forward_rejects_batch_mismatch
             (Examples.attention 2 1) Examples.fresh 2 2 1 1 2 2 3 2 3
             (mkTensor [1; 2; 2] (Examples.zeros 4))
             (mkTensor [2; 3; 2] (Examples.zeros 12))
             (mkTensor [2; 3; 2] (Examples.zeros 12))
             (attention_constructed 2 1 ltac:(lia) ltac:(lia))
             eq_refl eq_refl eq_refl); [reflexivity|lia|lia|lia].
Defined.

(* ================================================================== *)
(** * Dropout probability 1 *)

Lemma dropout_forward_p1 (d : Dropout.t) (x : Tensor scalar) (w : Runtime) :
  d = Dropout.mk (Finite 1) true -> numel x <> 0 ->
  Dropout.forward d x w
  = (Ok (mul_scalar x (Finite 0)), ticked KDropout w).
Proof.
  intros -> Hn. unfold Dropout.forward. cbn [Dropout.p Dropout.training].
  rewrite good_probability_finite by lra.
  rewrite valid_probability_finite by lra.
  assert (E0 : scalar_eqb (Finite 1) (Finite 0) = false).
  { simpl. unfold Reqb. destruct (Req_dec_T 1 0); [lra|reflexivity]. }
  assert (E1 : scalar_eqb (Finite 1) (Finite 1) = true).
  { simpl. unfold Reqb. destruct (Req_dec_T 1 1); [reflexivity|lra]. }
  rewrite E0, E1. cbn [negb orb].
  destruct (Nat.eqb_spec (numel x) 0); [contradiction|reflexivity].
Qed.

(** X21.  A dropout probability of exactly 1, which the constructor
    accepts, multiplies the weights by 0 in training mode: when a call
    without a mask returns, no random number has been drawn and every
    weight stored in [attn] is the weight recorded in the tracker times
    0, which is 0 where the recorded weight is a finite number and
    [NaN] where it is [NaN]. *)
Theorem full_dropout_wipes_stored_weights
    (m : MultiHeadAttention.t) (w : Runtime)
    (d_model H D Sq B Sk Sv Bv : nat) (q k v y : Tensor scalar) :
  constructed m d_model H D ->
  shape q = [Sq; B; d_model] -> shape k = [Sk; B; d_model] ->
  shape v = [Sv; Bv; d_model] ->
  MultiHeadAttention.dropout m = Dropout.mk (Finite 1) true ->
  let r := MultiHeadAttention.forward q k v None
             (MultiHeadAttention.mkHeap m w) in
  fst r = Ok y ->
  exists a a',
    tracker (MultiHeadAttention.runtime (snd r))
    = tracker w ++ [("attn"%string, a)] /\
    MultiHeadAttention.attn (MultiHeadAttention.self (snd r)) = Some a' /\
    shape a' = [Sq; B; H; Sk] /\
    rng_pos (MultiHeadAttention.runtime (snd r)) = rng_pos w /\
    forall idx, in_range [Sq; B; H; Sk] idx ->
      elem a' idx = scalar_mul (elem a idx) (Finite 0) /\
      (is_finite (elem a idx) = true -> elem a' idx = Finite 0) /\
      (elem a idx = NaN -> elem a' idx = NaN).
Proof.
  intros Hc Hq Hk Hv Hd r. unfold r. clear r.
  assert (Hvp : valid_probability
                  (Dropout.p (MultiHeadAttention.dropout m)) = true)
    by (rewrite Hd; apply valid_probability_finite; simpl; lra).
  destruct (forward_nomask_unfold m w d_model H D Sq B Sk Sv Bv q k v
              Hc Hvp Hq Hk Hv)
    as (V & S & a & a' & w1 & _ & HS & Ea & Hsa & Ed & _ & _ & Ef).
  rewrite Ef. clear Ef.
  destruct (einsum "ijbh, jbhd->ibhd" a' V) as [x|e]; [|discriminate].
  cbv zeta.
  destruct (reshape x _) as [x1|e]; [|discriminate].
  destruct (F_linear x1 _ _) as [y0|e]; [|discriminate].
  intros _. exists a, a'. simpl.
  destruct (Nat.eq_dec (numel a) 0) as [H0|H0].
  - (* an empty tensor of weights has no position *)
    assert (Hnone : forall idx, ~ in_range [Sq; B; H; Sk] idx).
    { intros idx Hidx. pose proof (ravel_lt Hidx) as Hlt.
      unfold numel in H0. rewrite Hsa in H0. lia. }
    unfold Dropout.forward in Ed. rewrite Hd in Ed.
    cbn [Dropout.p Dropout.training] in Ed.
    rewrite good_probability_finite in Ed by lra.
    rewrite valid_probability_finite in Ed by lra.
    rewrite H0 in Ed. cbn [Nat.eqb negb] in Ed. rewrite !orb_true_r in Ed.
    inversion Ed; subst a' w1.
    split; [reflexivity|]. split; [reflexivity|]. split; [exact Hsa|].
    split; [reflexivity|].
    intros idx Hidx. destruct (Hnone idx Hidx).
  - rewrite (dropout_forward_p1 _ a _ Hd H0) in Ed.
    inversion Ed; subst a' w1. clear Ed.
    split; [reflexivity|]. split; [reflexivity|]. split; [exact Hsa|].
    split; [reflexivity|].
    intros idx _. rewrite elem_mul_scalar.
    split; [reflexivity|]. split.
    + destruct (elem a idx) as [r| | |]; try discriminate.
      intros _. simpl. rewrite Rmult_0_r. apply overflow_0.
    + intros ->. reflexivity.
Qed.

Lemma constructed_with_dropout_p (m : MultiHeadAttention.t)
    (d_model H D : nat) (p : scalar) :
  constructed m d_model H D -> bad_probability p = false ->
  constructed (with_dropout_p m p) d_model H D.
Proof.
  intros Hc Hp. unfold constructed in *. simpl. rewrite Hp. tauto.
Qed.

Lemma full_dropout_wipes_stored_weights_witness :
  exists a a',
    let r := MultiHeadAttention.forward
               (mkTensor [1; 2; 2] (Examples.zeros 4))
               (mkTensor [2; 2; 2] (Examples.zeros 8))
               (mkTensor [2; 2; 2] (Examples.zeros 8)) None
               (MultiHeadAttention.mkHeap
                  (with_dropout_p (Examples.attention 2 1) (Finite 1))
                  Examples.fresh) in
    tracker (MultiHeadAttention.runtime (snd r)) = [("attn"%string, a)] /\
    MultiHeadAttention.attn (MultiHeadAttention.self (snd r)) = Some a' /\
    rng_pos (MultiHeadAttention.runtime (snd r)) = 0 /\
    elem a' [0; 1; 1; 0] = scalar_mul (elem a [0; 1; 1; 0]) (Finite 0).
Proof.
  assert (Hc : constructed
                 (with_dropout_p (Examples.attention 2 1) (Finite 1)) 2 2 1).
  { apply constructed_with_dropout_p.
    - exact (attention_constructed 2 1 ltac:(lia) ltac:(lia)).
    - apply good_probability_finite. lra. }
  assert (Hvp : valid_probability (Finite 1) = true)
    by (apply valid_probability_finite; lra).
  destruct (forward_nomask_ok
              (with_dropout_p (Examples.attention 2 1) (Finite 1))
              Examples.fresh 2 2 1 1 2 2 2 2 2 2 2
              (mkTensor [1; 2; 2] (Examples.zeros 4))
              (mkTensor [2; 2; 2] (Examples.zeros 8))
              (mkTensor [2; 2; 2] (Examples.zeros 8))
              Hc Hvp eq_refl eq_refl eq_refl eq_refl eq_refl eq_refl
              ltac:(simpl; lia) eq_refl eq_refl) as (y & Ey & _).
  destruct (full_dropout_wipes_stored_weights
              (with_dropout_p (Examples.attention 2 1) (Finite 1))
              Examples.fresh 2 2 1 1 2 2 2 2
              (mkTensor [1; 2; 2] (Examples.zeros 4))
              (mkTensor [2; 2; 2] (Examples.zeros 8))
              (mkTensor [2; 2; 2] (Examples.zeros 8)) y
              Hc eq_refl eq_refl eq_refl eq_refl Ey)
    as (a & a' & Htr & Hattn & _ & Hrng & Hel).
  exists a, a'. cbv zeta.
  split; [exact Htr|]. split; [exact Hattn|]. split; [exact Hrng|].
  apply Hel. in_range_tac.
Defined.

(* ================================================================== *)
(** * What the result of a call depends on *)

Lemma prepare_mask_fst (mask : Tensor number)
    (query_shape key_shape : list nat) (w w' : Runtime) :
  fst (MultiHeadAttention.prepare_mask mask query_shape key_shape w)
  = fst (MultiHeadAttention.prepare_mask mask query_shape key_shape w').
Proof.
  unfold MultiHeadAttention.prepare_mask. rewrite unsqueeze_last.
  cbv beta iota zeta delta [bind ret lift op tick modify index assert].
  repeat match goal with
         | |- context [nth_error ?l ?n] => destruct (nth_error l n)
         | |- context [if ?b then _ else _] => destruct b
         end;
    reflexivity.
Qed.

(** Dropout reads the random generator and nothing else of the
    runtime. *)
Lemma dropout_forward_fst (d : Dropout.t) (x : Tensor scalar)
    (w w' : Runtime) :
  bernoulli w' = bernoulli w -> rng_pos w' = rng_pos w ->
  fst (Dropout.forward d x w') = fst (Dropout.forward d x w).
Proof.
  intros Hb Hr. unfold Dropout.forward.
  destruct (bad_probability (Dropout.p d)); [reflexivity|].
  destruct (valid_probability (Dropout.p d)); [|reflexivity].
  cbn [negb].
  destruct (scalar_eqb (Dropout.p d) (Finite 0) || negb (Dropout.training d)
            || (numel x =? 0)); [reflexivity|].
  destruct (scalar_eqb (Dropout.p d) (Finite 1)); [reflexivity|].
  unfold bind, draw, op, lift, tick, modify, ret. simpl.
  now rewrite Hb, Hr.
Qed.

(** One step of two runs of a projection from two runtimes. *)
Ltac pair_prepare p x :=
  match goal with
  | |- context [PrepareForMultiHeadAttention.forward p x ?wa] =>
      match goal with
      | |- context [PrepareForMultiHeadAttention.forward p x ?wb] =>
          tryif constr_eq wa wb then fail else
            (let H := fresh "H" in
             pose proof (prepare_forward_fst p x wa wb) as H;
             destruct (PrepareForMultiHeadAttention.forward p x wa)
               as [[?|?] ?];
             destruct (PrepareForMultiHeadAttention.forward p x wb)
               as [[?|?] ?];
             simpl in H; inversion H; subst; mred; try reflexivity)
      end
  end.

(** The first half of [forward] returns the same from every runtime. *)
Lemma forward_scores_fst (m : MultiHeadAttention.t) (w w' : Runtime)
    (q k v : Tensor scalar) (mask : option (Tensor number)) :
  fst (MultiHeadAttention.forward_scores q k v mask
         (MultiHeadAttention.mkHeap m w'))
  = fst (MultiHeadAttention.forward_scores q k v mask
           (MultiHeadAttention.mkHeap m w)).
Proof.
  unfold MultiHeadAttention.forward_scores. mred.
  destruct (unpack3 (shape q)) as [sb|e]; mred; [|reflexivity].
  destruct mask as [mk0|]; mred.
  - pose proof (prepare_mask_fst mk0 (shape q) (shape k) w' w) as H0.
    destruct (MultiHeadAttention.prepare_mask mk0 (shape q) (shape k) w')
      as [[mk1'|e'] w1'];
      destruct (MultiHeadAttention.prepare_mask mk0 (shape q) (shape k) w)
        as [[mk1|e] w1];
      simpl in H0; inversion H0; subst; mred; [|reflexivity].
    pair_prepare (MultiHeadAttention.query m) q.
    pair_prepare (MultiHeadAttention.key m) k.
    pair_prepare (MultiHeadAttention.value m) v.
    destruct (einsum "ibhd,jbhd->ibhj" _ _) as [raw|e]; mred; [|reflexivity].
    destruct (masked_fill _ _ NInf); reflexivity.
  - pair_prepare (MultiHeadAttention.query m) q.
    pair_prepare (MultiHeadAttention.key m) k.
    pair_prepare (MultiHeadAttention.value m) v.
    destruct (einsum "ibhd,jbhd->ibhj" _ _) as [raw|e]; reflexivity.
Qed.

(** A call changes no parameter of the module. *)
Lemma forward_same_parameters (m : MultiHeadAttention.t) (w : Runtime)
    (q k v : Tensor scalar) (mask : option (Tensor number)) :
  same_parameters m
    (MultiHeadAttention.self
       (snd (MultiHeadAttention.forward q k v mask
               (MultiHeadAttention.mkHeap m w)))).
Proof.
  unfold MultiHeadAttention.forward. mred.
  pose proof (forward_scores_self m w q k v mask) as Hself.
  destruct (MultiHeadAttention.forward_scores q k v mask
              (MultiHeadAttention.mkHeap m w)) as [r0 [s0 w0]].
  simpl in Hself. subst s0.
  destruct r0 as [[[[sl bs] V] S]|e]; mred; [|apply same_parameters_refl].
  unfold MultiHeadAttention.forward_attend.
  crunch; simpl;
    (apply same_parameters_refl || apply same_parameters_with_attn).
Qed.

(** With dropout inactive a call leaves the random generator alone. *)
Lemma forward_inactive_generator (m : MultiHeadAttention.t) (w : Runtime)
    (q k v : Tensor scalar) (mask : option (Tensor number)) :
  Dropout.training (MultiHeadAttention.dropout m) = false \/
  Dropout.p (MultiHeadAttention.dropout m) = Finite 0 ->
  let r := MultiHeadAttention.forward q k v mask
             (MultiHeadAttention.mkHeap m w) in
  bernoulli (MultiHeadAttention.runtime (snd r)) = bernoulli w /\
  rng_pos (MultiHeadAttention.runtime (snd r)) = rng_pos w.
Proof.
  intros Hin r. unfold r. clear r.
  unfold MultiHeadAttention.forward. mred.
  pose proof (forward_scores_self m w q k v mask) as Hself.
  pose proof (forward_scores_kernels_only m w q k v mask) as Hk.
  destruct (MultiHeadAttention.forward_scores q k v mask
              (MultiHeadAttention.mkHeap m w)) as [r0 [s0 w0]].
  simpl in Hself, Hk. subst s0. destruct Hk as (_ & Hb & Hr).
  destruct r0 as [[[[sl bs] V] S]|e]; mred; [|split; assumption].
  unfold MultiHeadAttention.forward_attend. mred.
  destruct (softmax (Softmax.dim (MultiHeadAttention.softmax m)) S) as [a|e];
    mred; [|split; assumption].
  destruct (dropout_inactive (MultiHeadAttention.dropout m) a
              (logged "attn" a (ticked KSoftmax w0)) Hin) as [Ed|(e & Ed)];
    rewrite Ed; mred; [|split; assumption].
  destruct (einsum "ijbh, jbhd->ibhd" a V) as [x|e]; mred;
    [|split; assumption].
  destruct (reshape x _) as [x'|e]; mred; [|split; assumption].
  destruct (F_linear x' _ _) as [y0|e]; split; assumption.
Qed.

(** X22.  What [forward] returns, or the exception it raises, depends
    on the parameters of the module, the arguments and the random
    generator, and on nothing else: not on [attn], not on the tracker,
    not on what has run before.  So with dropout inactive (outside
    training mode, or [dropout_prob = 0]) a second call with the same
    arguments, made right after the first, returns what the first
    returned. *)
Theorem forward_result_ignores_history :
  (forall (m m' : MultiHeadAttention.t) (w w' : Runtime)
          (q k v : Tensor scalar) (mask : option (Tensor number)),
      same_parameters m m' ->
      bernoulli w' = bernoulli w -> rng_pos w' = rng_pos w ->
      fst (MultiHeadAttention.forward q k v mask
             (MultiHeadAttention.mkHeap m' w'))
      = fst (MultiHeadAttention.forward q k v mask
               (MultiHeadAttention.mkHeap m w)))
  /\
  (forall (m : MultiHeadAttention.t) (w : Runtime)
          (q k v : Tensor scalar) (mask : option (Tensor number)),
      Dropout.training (MultiHeadAttention.dropout m) = false \/
      Dropout.p (MultiHeadAttention.dropout m) = Finite 0 ->
      let first := MultiHeadAttention.forward q k v mask
                     (MultiHeadAttention.mkHeap m w) in
      fst (MultiHeadAttention.forward q k v mask (snd first)) = fst first).
Proof.
  assert (Hframe :
    forall (m m' : MultiHeadAttention.t) (w w' : Runtime)
           (q k v : Tensor scalar) (mask : option (Tensor number)),
      same_parameters m m' ->
      bernoulli w' = bernoulli w -> rng_pos w' = rng_pos w ->
      fst (MultiHeadAttention.forward q k v mask
             (MultiHeadAttention.mkHeap m' w'))
      = fst (MultiHeadAttention.forward q k v mask
               (MultiHeadAttention.mkHeap m w))).
  { intros m m' w w' q k v mask Hsame Hb Hr.
    destruct Hsame as (_ & _ & Hq & Hk & Hv & Hsm & Hout & Hdr & Hsc).
    unfold MultiHeadAttention.forward. mred.
    pose proof (forward_scores_frame m m' w' q k v mask Hq Hk Hv Hsc)
      as (Hf1 & _).
    pose proof (forward_scores_fst m w w' q k v mask) as Hf2.
    pose proof (forward_scores_self m' w' q k v mask) as Hs'.
    pose proof (forward_scores_self m w q k v mask) as Hs.
    pose proof (forward_scores_kernels_only m' w' q k v mask) as Hk'.
    pose proof (forward_scores_kernels_only m w q k v mask) as Hk0.
    rewrite Hf2 in Hf1. clear Hf2.
    destruct (MultiHeadAttention.forward_scores q k v mask
                (MultiHeadAttention.mkHeap m' w')) as [r0' [s0' w0']].
    destruct (MultiHeadAttention.forward_scores q k v mask
                (MultiHeadAttention.mkHeap m w)) as [r0 [s0 w0]].
    simpl in Hf1, Hs', Hs, Hk', Hk0. subst r0' s0' s0.
    destruct Hk' as (_ & Hb' & Hr'). destruct Hk0 as (_ & Hb0 & Hr0).
    destruct r0 as [[[[sl bs] V] S]|e]; mred; [|reflexivity].
    unfold MultiHeadAttention.forward_attend. mred.
    rewrite Hsm, Hdr, Hout.
    destruct (softmax (Softmax.dim (MultiHeadAttention.softmax m)) S)
      as [a|e]; mred; [|reflexivity].
    pose proof (dropout_forward_fst (MultiHeadAttention.dropout m) a
                  (logged "attn" a (ticked KSoftmax w0))
                  (logged "attn" a (ticked KSoftmax w0'))
                  ltac:(simpl; congruence) ltac:(simpl; congruence)) as Hd.
    destruct (Dropout.forward (MultiHeadAttention.dropout m) a
                (logged "attn" a (ticked KSoftmax w0'))) as [[a1'|e'] w1'];
      destruct (Dropout.forward (MultiHeadAttention.dropout m) a
                  (logged "attn" a (ticked KSoftmax w0))) as [[a1|e] w1];
      simpl in Hd; inversion Hd; subst; mred; [|reflexivity].
    destruct (einsum "ijbh, jbhd->ibhd" a1 V) as [x|e]; mred; [|reflexivity].
    destruct (reshape x _) as [x'|e]; mred; [|reflexivity].
    destruct (F_linear x' _ _) as [y0|e]; reflexivity. }
  split; [exact Hframe|].
  intros m w q k v mask Hin first. unfold first. clear first.
  pose proof (forward_same_parameters m w q k v mask) as Hsame.
  pose proof (forward_inactive_generator m w q k v mask Hin) as Hgen.
  cbv zeta in Hgen. destruct Hgen as (Hb & Hr).
  destruct (snd (MultiHeadAttention.forward q k v mask
                   (MultiHeadAttention.mkHeap m w))) as [m1 w1].
  simpl in Hsame, Hb, Hr.
  exact (Hframe m m1 w w1 q k v mask Hsame Hb Hr).
Qed.

Lemma forward_result_ignores_history_witness :
  let first := MultiHeadAttention.forward
                 (mkTensor [1; 2; 2] (Examples.zeros 4))
                 (mkTensor [2; 2; 2] (Examples.zeros 8))
                 (mkTensor [2; 2; 2] (Examples.zeros 8)) None
                 (MultiHeadAttention.mkHeap (eval (Examples.attention 2 1))
                    Examples.fresh) in
  fst (MultiHeadAttention.forward
         (mkTensor [1; 2; 2] (Examples.zeros 4))
         (mkTensor [2; 2; 2] (Examples.zeros 8))
         (mkTensor [2; 2; 2] (Examples.zeros 8)) None (snd first))
  = fst first.
Proof.
  exact (proj2 forward_result_ignores_history
           (eval (Examples.attention 2 1)) Examples.fresh
           (mkTensor [1; 2; 2] (Examples.zeros 4))
           (mkTensor [2; 2; 2] (Examples.zeros 8))
           (mkTensor [2; 2; 2] (Examples.zeros 8)) None
           (or_introl eq_refl)).
Defined.

(* ================================================================== *)
(** * The exceptions of [forward] *)

Lemma merge_sizes_raises (e2 e1 : sizes) (x : exn) :
  merge_sizes e1 e2 = Err x -> x = RuntimeError.
Proof.
  revert e1. induction e2 as [|[c d] e2 IH]; intros e1; simpl;
    [discriminate|].
  destruct (lookup c e1) as [d'|]; [|apply IH].
  destruct (merge_dim d' d) as [n|e] eqn:E; [apply IH|].
  intros H. inversion H; subst. exact (merge_dim_raises _ _ _ E).
Qed.

Lemma einsum_raises (equation : string) (a b : Tensor scalar) (x : exn) :
  einsum equation a b = Err x -> x = RuntimeError.
Proof.
  unfold einsum.
  destruct (parse_equation equation) as [[[la lb] lo]|];
    [|intros E; now inversion E].
  destruct (operand_sizes la (shape a) []) as [ea|e] eqn:Ea; cbn [res_bind].
  2:{ intros E. inversion E; subst. exact (operand_sizes_raises _ _ _ _ Ea). }
  destruct (operand_sizes lb (shape b) []) as [eb|e] eqn:Eb; cbn [res_bind].
  2:{ intros E. inversion E; subst. exact (operand_sizes_raises _ _ _ _ Eb). }
  destruct (merge_sizes ea eb) as [es|e] eqn:Em; cbn [res_bind].
  2:{ intros E. inversion E; subst. exact (merge_sizes_raises _ _ _ Em). }
  destruct (distinct lo && _); [discriminate|intros E; now inversion E].
Qed.

Lemma broadcast_rev_raises (a b : list nat) (x : exn) :
  broadcast_rev a b = Err x -> x = RuntimeError.
Proof.
  revert b. induction a as [|u a IH]; intros [|v b]; simpl; try discriminate.
  destruct (broadcast_rev a b) as [r|e] eqn:E.
  - destruct (u =? v); [discriminate|].
    destruct (u =? 1); [discriminate|].
    destruct (v =? 1); [discriminate|intros H; now inversion H].
  - intros H. inversion H; subst. exact (IH _ E).
Qed.

Lemma masked_fill_raises (t : Tensor scalar) (mask : Tensor bool)
    (v : scalar) (x : exn) :
  masked_fill t mask v = Err x -> x = RuntimeError.
Proof.
  unfold masked_fill, broadcast_shapes.
  destruct (broadcast_rev (rev (shape t)) (rev (shape mask))) as [r|e] eqn:E;
    cbn [res_bind]; [discriminate|].
  intros H. inversion H; subst. exact (broadcast_rev_raises _ _ _ E).
Qed.

Lemma prepare_mask_raises (mask : Tensor number)
    (query_shape key_shape : list nat) (w w' : Runtime) (x : exn) :
  MultiHeadAttention.prepare_mask mask query_shape key_shape w = (Err x, w') ->
  x = AssertionError \/ x = IndexError.
Proof.
  unfold MultiHeadAttention.prepare_mask. rewrite unsqueeze_last.
  cbv beta iota zeta delta [bind ret lift op tick modify index assert].
  repeat match goal with
         | |- context [nth_error ?l ?n] => destruct (nth_error l n)
         | |- context [if ?b then _ else _] => destruct b
         end;
    intros E; inversion E; auto.
Qed.

(** The exceptions of the first half of [forward]. *)
Lemma forward_scores_raises (m : MultiHeadAttention.t) (w : Runtime)
    (q k v : Tensor scalar) (mask : option (Tensor number)) (x : exn)
    (h1 : MultiHeadAttention.Heap) :
  MultiHeadAttention.forward_scores q k v mask (MultiHeadAttention.mkHeap m w)
  = (Err x, h1) ->
  (x = ValueError /\ ndim q <> 3) \/
  (ndim q = 3 /\
   (((x = AssertionError \/ x = IndexError) /\ mask <> None) \/
    x = RuntimeError)).
Proof.
  unfold MultiHeadAttention.forward_scores, ndim. mred.
  destruct (shape q) as [|a [|b [|c [|? ?]]]];
    cbv beta iota zeta delta [unpack3]; mred;
    try (intros E; inversion E; left; split; [reflexivity|simpl; lia]).
  intros E. right. split; [reflexivity|]. revert E.
  destruct mask as [mk0|]; mred.
  - destruct (MultiHeadAttention.prepare_mask mk0 [a; b; c] (shape k) w)
      as [[mk1|e] w0] eqn:Em; mred.
    2:{ intros E. inversion E; subst. left. split; [|discriminate].
        exact (prepare_mask_raises _ _ _ _ _ _ Em). }
    destruct (PrepareForMultiHeadAttention.forward
                (MultiHeadAttention.query m) q w0) as [[Q|e] w1] eqn:EQ; mred.
    2:{ intros E. inversion E; subst. right.
        exact (prepare_forward_raises _ _ _ _ _ EQ). }
    destruct (PrepareForMultiHeadAttention.forward
                (MultiHeadAttention.key m) k w1) as [[K|e] w2] eqn:EK; mred.
    2:{ intros E. inversion E; subst. right.
        exact (prepare_forward_raises _ _ _ _ _ EK). }
    destruct (PrepareForMultiHeadAttention.forward
                (MultiHeadAttention.value m) v w2) as [[V|e] w3] eqn:EV; mred.
    2:{ intros E. inversion E; subst. right.
        exact (prepare_forward_raises _ _ _ _ _ EV). }
    destruct (einsum "ibhd,jbhd->ibhj" Q K) as [raw|e] eqn:Ee; mred.
    2:{ intros E. inversion E; subst. right.
        exact (einsum_raises _ _ _ _ Ee). }
    destruct (masked_fill _ _ NInf) as [S|e] eqn:Ef; mred; [discriminate|].
    intros E. inversion E; subst. right.
    exact (masked_fill_raises _ _ _ _ Ef).
  - destruct (PrepareForMultiHeadAttention.forward
                (MultiHeadAttention.query m) q w) as [[Q|e] w1] eqn:EQ; mred.
    2:{ intros E. inversion E; subst. right.
        exact (prepare_forward_raises _ _ _ _ _ EQ). }
    destruct (PrepareForMultiHeadAttention.forward
                (MultiHeadAttention.key m) k w1) as [[K|e] w2] eqn:EK; mred.
    2:{ intros E. inversion E; subst. right.
        exact (prepare_forward_raises _ _ _ _ _ EK). }
    destruct (PrepareForMultiHeadAttention.forward
                (MultiHeadAttention.value m) v w2) as [[V|e] w3] eqn:EV; mred.
    2:{ intros E. inversion E; subst. right.
        exact (prepare_forward_raises _ _ _ _ _ EV). }
    destruct (einsum "ibhd,jbhd->ibhj" Q K) as [raw|e] eqn:Ee; mred;
      [discriminate|].
    intros E. inversion E; subst. right.
    exact (einsum_raises _ _ _ _ Ee).
Qed.

(** X23.  The exceptions of [forward] on a constructed module.  The
    call raises [ValueError] exactly when the query does not have three
    axes.  [AssertionError] and [IndexError] come only from the checks
    on a mask, so never from a call without a mask.  Every other
    failure is a [RuntimeError] of a tensor operation. *)
Theorem forward_raises_only
    (m : MultiHeadAttention.t) (w : Runtime) (d_model H D : nat)
    (q k v : Tensor scalar) (mask : option (Tensor number)) (x : exn) :
  constructed m d_model H D ->
  fst (MultiHeadAttention.forward q k v mask (MultiHeadAttention.mkHeap m w))
  = Err x ->
  (x = ValueError <-> ndim q <> 3) /\
  (x = AssertionError \/ x = IndexError -> mask <> None) /\
  (x = ValueError \/ x = AssertionError \/ x = IndexError \/
   x = RuntimeError).
Proof.
  intros Hc.
  destruct Hc as (_ & _ & _ & _ & _ & _ & _ & _ & _ & _ & _ & _ & _ & _
                  & Hsm & Hp & _).
  assert (Hcases :
    fst (MultiHeadAttention.forward q k v mask (MultiHeadAttention.mkHeap m w))
    = Err x ->
    (x = ValueError /\ ndim q <> 3) \/
    (ndim q = 3 /\
     (((x = AssertionError \/ x = IndexError) /\ mask <> None) \/
      x = RuntimeError))).
  { unfold MultiHeadAttention.forward. mred.
    pose proof (forward_scores_self m w q k v mask) as Hself.
    destruct (MultiHeadAttention.forward_scores q k v mask
                (MultiHeadAttention.mkHeap m w)) as [r0 [s0 w0]] eqn:Es.
    simpl in Hself. subst s0.
    destruct r0 as [[[[sl bs] V] S]|e]; mred.
    2:{ simpl. intros E. inversion E; subst.
        exact (forward_scores_raises _ _ _ _ _ _ _ _ Es). }
    destruct (forward_scores_inv m w q k v mask sl bs V S _ Es)
      as (d & _ & _ & _ & Hq & _).
    destruct (valid_probability (Dropout.p (MultiHeadAttention.dropout m)))
      eqn:Hvp; cycle 1.
    { destruct (forward_attend_invalid m w0 sl bs V S Hsm Hp Hvp)
        as (a & _ & _ & ->).
      simpl. intros E. inversion E; subst.
      right. split; [unfold ndim; now rewrite Hq|]. right. reflexivity. }
    destruct (forward_attend_unfold m w0 sl bs V S Hsm Hvp)
      as (a & a' & w1 & _ & _ & _ & _ & _ & Ef).
    rewrite Ef. clear Ef.
    intros E. right. split; [unfold ndim; now rewrite Hq|]. right.
    revert E.
    destruct (einsum "ijbh, jbhd->ibhd" a' V) as [x0|e] eqn:Ee.
    2:{ simpl. intros E. inversion E; subst.
        exact (einsum_raises _ _ _ _ Ee). }
    cbv zeta. unfold reshape, view.
    destruct (infer_size _ (numel x0)) as [sh|e] eqn:Ei; cbn [res_bind].
    2:{ simpl. intros E. inversion E; subst.
        exact (infer_size_raises _ _ _ Ei). }
    destruct (F_linear _ _ _) as [y|e] eqn:Ey; simpl; [discriminate|].
    intros E. inversion E; subst. exact (F_linear_raises _ _ _ _ Ey). }
  intros E. specialize (Hcases E).
  destruct Hcases as [(Hx & Hn)|(Hn & [(Hx & Hm)|Hx])].
  - subst x. split; [split; [intros _; exact Hn|reflexivity]|].
    split; [intros [H0|H0]; discriminate H0|]. left. reflexivity.
  - split.
    { split; [|intros H0; contradiction].
      intros ->. destruct Hx as [H0|H0]; discriminate H0. }
    split; [intros _; exact Hm|].
    destruct Hx as [->| ->]; auto.
  - subst x. split; [split; [discriminate|intros H0; contradiction]|].
    split; [intros [H0|H0]; discriminate H0|]. auto.
Qed.

Lemma forward_raises_only_witness :
  fst (MultiHeadAttention.forward
         (mkTensor [2; 2] (Examples.zeros 4))
         (mkTensor [2; 2; 2] (Examples.zeros 8))
         (mkTensor [2; 2; 2] (Examples.zeros 8)) None
         (MultiHeadAttention.mkHeap (Examples.attention 2 1) Examples.fresh))
  = Err ValueError /\
  (ValueError = ValueError <-> ndim (mkTensor [2; 2] (Examples.zeros 4)) <> 3).
Proof.
  assert (E : fst (MultiHeadAttention.forward
                     (mkTensor [2; 2] (Examples.zeros 4))
                     (mkTensor [2; 2; 2] (Examples.zeros 8))
                     (mkTensor [2; 2; 2] (Examples.zeros 8)) None
                     (MultiHeadAttention.mkHeap (Examples.attention 2 1)
                        Examples.fresh))
              = Err ValueError) by reflexivity.
  split; [exact E|].
  exact (proj1 (forward_raises_only
                  (Examples.attention 2 1) Examples.fresh 2 2 1
                  (mkTensor [2; 2] (Examples.zeros 4))
                  (mkTensor [2; 2; 2] (Examples.zeros 8))
                  (mkTensor [2; 2; 2] (Examples.zeros 8)) None ValueError
                  (attention_constructed 2 1 ltac:(lia) ltac:(lia)) E)).
Defined.

(* ================================================================== *)
(** * A dropout probability that is not a number *)

Lemma forward_with_nan_probability (m : MultiHeadAttention.t) (w : Runtime)
    (q k v : Tensor scalar) (mask : option (Tensor number)) :
  Dropout.p (MultiHeadAttention.dropout m) = NaN ->
  is_Ok (fst (MultiHeadAttention.forward q k v mask
                (MultiHeadAttention.mkHeap m w))) = false.
Proof.
  intros Hp.
  unfold MultiHeadAttention.forward. mred.
  pose proof (forward_scores_self m w q k v mask) as Hself.
  destruct (MultiHeadAttention.forward_scores q k v mask
              (MultiHeadAttention.mkHeap m w)) as [r0 [s0 w0]].
  simpl in Hself. subst s0.
  destruct r0 as [[[[sl bs] V] S]|e]; mred; [|reflexivity].
  unfold MultiHeadAttention.forward_attend. mred.
  destruct (softmax (Softmax.dim (MultiHeadAttention.softmax m)) S) as [a|e];
    mred; [|reflexivity].
  unfold Dropout.forward. rewrite Hp. reflexivity.
Qed.

(** X24.  The constructor accepts [NaN] as dropout probability, for
    [NaN < 0] and [NaN > 1] are both false, but a module built with it
    is of no use: every call of [forward] raises, in training mode and
    after [eval()], because the dropout kernel insists on
    [p >= 0 && p <= 1]. *)
Theorem nan_dropout_probability_raises
    (gen : nat -> scalar) (n_heads d_model : Z) (bias : bool) (pos : nat) :
  (0 < n_heads <= d_model)%Z ->
  exists m pos',
    MultiHeadAttention.init gen n_heads d_model NaN bias pos = (Ok m, pos') /\
    forall (q k v : Tensor scalar) (mask : option (Tensor number))
           (w : Runtime),
      is_Ok (fst (MultiHeadAttention.forward q k v mask
                    (MultiHeadAttention.mkHeap m w))) = false /\
      is_Ok (fst (MultiHeadAttention.forward q k v mask
                    (MultiHeadAttention.mkHeap (eval m) w))) = false.
Proof.
  intros Hr.
  destruct (init_ok gen n_heads d_model NaN bias pos Hr eq_refl)
    as (m & pos' & E).
  exists m, pos'. split; [exact E|].
  apply init_inv in E. destruct E as (_ & _ & _ & _ & _ & Hd & _).
  intros q k v mask w. split.
  - apply forward_with_nan_probability. now rewrite Hd.
  - apply forward_with_nan_probability. simpl. now rewrite Hd.
Qed.

Lemma nan_dropout_probability_raises_witness :
  exists m pos',
    MultiHeadAttention.init (fun _ => Finite 0) 2 2 NaN true 0 = (Ok m, pos') /\
    is_Ok (fst (MultiHeadAttention.forward
                  (mkTensor [1; 2; 2] (Examples.zeros 4))
                  (mkTensor [2; 2; 2] (Examples.zeros 8))
                  (mkTensor [2; 2; 2] (Examples.zeros 8)) None
                  (MultiHeadAttention.mkHeap (eval m) Examples.fresh)))
    = false.
Proof.
  destruct (nan_dropout_probability_raises (fun _ => Finite 0) 2 2 true 0
              ltac:(lia)) as (m & pos' & E & H).
  exists m, pos'. split; [exact E|].
  apply (H (mkTensor [1; 2; 2] (Examples.zeros 4))
           (mkTensor [2; 2; 2] (Examples.zeros 8))
           (mkTensor [2; 2; 2] (Examples.zeros 8)) None Examples.fresh).
Defined.
